(** * Konkan-coast simulation scripts: a shallow embedding

    The repository is a set of batch scripts ([processing.py], [output.py],
    [dec27_code.py], [bio_3d.py]).  Each one loads NetCDF rasters, recovers a
    time index from file names, subsets the grid to a zone, reduces it and
    prints a report.  This development embeds the decision-making parts of the
    scripts and states the properties of the specification against them.

    Conventions.
    - File names and paths are ASCII strings.
    - A [pd.Timestamp] recovered from a file name is a calendar date (the time
      of day is midnight in every case), kept as year/month/day.
    - Grid coordinates (latitude, longitude, depth) are binary64 numbers that
      are only compared; every finite binary64 number is a rational and
      comparison is exact, so they are taken in [Q].
    - Cells of a grid are rationals or missing (NaN).  Reductions of a grid
      (means, sums, integrals) are computed in exact arithmetic: the rounding
      of binary64 is not modelled there.  What is stated of a mean is which
      cells it averages and when it is missing; how it compares with those
      cells is not stated, since rounding can move a mean past them.
    - The scalars of the forecast of [output.py] and of the bloom assessment
      of [dec27_code.py] are binary64 numbers ([float], the kernel's IEEE 754
      binary64), computed and compared as the interpreter does.
    - What the libraries do (pandas' label slicing and date parsing,
      xarray's reductions) is written out where a property depends on it and
      taken as a parameter where none does.
    - Printed lines are values of a message type, one constructor per
      [print] call of the source. *)

From Stdlib Require Import ZArith List String Ascii Bool Lia.
From Stdlib Require Import QArith Qminmax Qabs Lqa.
From Stdlib Require Import Floats.
From Stdlib Require Import Sorting.Sorted Sorting.Permutation.
Import ListNotations.

Set Warnings "-inexact-float".

(* ================================================================== *)
(** * Calendar dates *)
(* ================================================================== *)

Module Calendar.
Local Open Scope Z_scope.

(** A [pd.Timestamp] at day resolution. *)
Record Timestamp : Type := mkTimestamp { year : Z; month : Z; day : Z }.

Definition is_leap (y : Z) : bool :=
  ((y mod 4 =? 0) && negb (y mod 100 =? 0)) || (y mod 400 =? 0).

Definition days_in_month (y m : Z) : Z :=
  match m with
  | 1 => 31
  | 2 => if is_leap y then 29 else 28
  | 3 => 31
  | 4 => 30
  | 5 => 31
  | 6 => 30
  | 7 => 31
  | 8 => 31
  | 9 => 30
  | 10 => 31
  | 11 => 30
  | 12 => 31
  | _ => 0
  end.

Definition days_in_year (y : Z) : Z := if is_leap y then 366 else 365.

Definition months : list Z := [1; 2; 3; 4; 5; 6; 7; 8; 9; 10; 11; 12].

(** A year/month/day triple names a day of the calendar. *)
Definition valid_date (y m d : Z) : bool :=
  (1 <=? m) && (m <=? 12) && (1 <=? d) && (d <=? days_in_month y m).

(** Number of days of year [y] that precede month [m]. *)
Definition days_before_month (y m : Z) : Z :=
  fold_right (fun k acc => if k <? m then days_in_month y k + acc else acc) 0 months.

(** [%j]: the day of the year, 1 for January 1st. *)
Definition day_of_year (t : Timestamp) : Z :=
  days_before_month (year t) (month t) + day t.

(** Walk the months of year [y] until day number [j] falls inside one. *)
Fixpoint yday_to_md (y : Z) (ms : list Z) (j : Z) : option (Z * Z) :=
  match ms with
  | [] => None
  | m :: ms' =>
      if j <=? days_in_month y m then Some (m, j)
      else yday_to_md y ms' (j - days_in_month y m)
  end.

(** The date [julian - 1] days after January 1st of [y]:
    [date.fromordinal(julian - 1 + date(y, 1, 1).toordinal())], which is how
    [strptime] turns [%Y%j] into a date.  [%j] admits 1..366, so in a common
    year day 366 is January 1st of the next year. *)
Definition date_of_yday (y j : Z) : Timestamp :=
  match yday_to_md y months j with
  | Some (m, d) => mkTimestamp y m d
  | None => mkTimestamp (y + 1) 1 (j - days_in_year y)
  end.

(** Day number [j] of 2025 is turned into a date of 2025 that carries it. *)
Definition yday_roundtrip (j : Z) : bool :=
  let t := date_of_yday 2025 j in
  (year t =? 2025) && (day_of_year t =? j)
  && valid_date (year t) (month t) (day t).

(** Order of timestamps: chronological, i.e. lexicographic on the fields. *)
Definition ts_compare (a b : Timestamp) : comparison :=
  match year a ?= year b with
  | Eq => match month a ?= month b with
          | Eq => day a ?= day b
          | c => c
          end
  | c => c
  end.

Definition ts_leb (a b : Timestamp) : bool :=
  match ts_compare a b with Gt => false | _ => true end.

Definition ts_ltb (a b : Timestamp) : bool :=
  match ts_compare a b with Lt => true | _ => false end.

Definition ts_eqb (a b : Timestamp) : bool :=
  match ts_compare a b with Eq => true | _ => false end.

(** A time index in chronological order: each step not before, or strictly
    after, the one it follows. *)
Definition nondecreasing (l : list Timestamp) : Prop :=
  Sorted (fun a b => ts_leb a b = true) l.

Definition strictly_increasing (l : list Timestamp) : Prop :=
  Sorted (fun a b => ts_ltb a b = true) l.

End Calendar.

(* ================================================================== *)
(** * File names: the two date patterns *)
(* ================================================================== *)

Module FileName.
Import Calendar.
Local Open Scope Z_scope.

(** [\d] on an ASCII string. *)
Definition is_digit (c : ascii) : bool :=
  ((48 <=? nat_of_ascii c) && (nat_of_ascii c <=? 57))%nat.

(** The atoms the two patterns are made of. *)
Inductive atom : Type :=
| Chr (c : ascii)
| Digit.

Definition atom_matches (a : atom) (c : ascii) : bool :=
  match a with
  | Chr c' => Ascii.eqb c' c
  | Digit => is_digit c
  end.

(** [re.match]: the pattern read at the start of [s]; the matched text. *)
Fixpoint match_here (p : list atom) (s : string) : option string :=
  match p with
  | [] => Some EmptyString
  | a :: p' =>
      match s with
      | EmptyString => None
      | String c s' =>
          if atom_matches a c then
            match match_here p' s' with
            | Some m => Some (String c m)
            | None => None
            end
          else None
      end
  end.

(** [re.search]: the leftmost place where the pattern matches; [group(0)]. *)
Fixpoint re_search (p : list atom) (s : string) : option string :=
  match match_here p s with
  | Some m => Some m
  | None =>
      match s with
      | EmptyString => None
      | String _ s' => re_search p s'
      end
  end.

Definition lit2025 : list atom := [Chr "2"; Chr "0"; Chr "2"; Chr "5"]%char.

(** [r'(2025)(\d{2})(\d{2})'] *)
Definition pat_ymd : list atom := lit2025 ++ [Digit; Digit; Digit; Digit].

(** [r'(2025)(\d{3})'] *)
Definition pat_julian : list atom := lit2025 ++ [Digit; Digit; Digit].

(** [int(s)] on a string of decimal digits. *)
Definition digit_val (c : ascii) : Z := Z.of_nat (nat_of_ascii c) - 48.

Fixpoint int_of_digits_acc (acc : Z) (s : string) : Z :=
  match s with
  | EmptyString => acc
  | String c s' => int_of_digits_acc (10 * acc + digit_val c) s'
  end.

Definition int_of_digits (s : string) : Z := int_of_digits_acc 0 s.

Fixpoint all_digits (s : string) : bool :=
  match s with
  | EmptyString => true
  | String c s' => is_digit c && all_digits s'
  end.

(** [pd.to_datetime(date_str, format='%Y%m%d')] on an eight-digit string:
    [None] stands for the [ValueError] raised when the digits are no date. *)
Definition to_datetime_Ymd (date_str : string) : option Timestamp :=
  if (String.length date_str =? 8)%nat && all_digits date_str then
    let y := int_of_digits (substring 0 4 date_str) in
    let m := int_of_digits (substring 4 2 date_str) in
    let d := int_of_digits (substring 6 2 date_str) in
    if valid_date y m d then Some (mkTimestamp y m d) else None
  else None.

(** [pd.to_datetime(n, format='%Y%j')] on an integer of seven decimal digits
    (the only ones the scripts pass): the number is read as text, four digits
    of year and three of day-of-year; [%j] admits 001..366. *)
Definition to_datetime_Yj (n : Z) : option Timestamp :=
  let y := n / 1000 in
  let j := n mod 1000 in
  if (1000 <=? y) && (y <=? 9999) && (1 <=? j) && (j <=? 366)
  then Some (date_of_yday y j)
  else None.

(** [os.path.basename]: what follows the last slash. *)
Fixpoint basename (f : string) : string :=
  match f with
  | EmptyString => EmptyString
  | String c f' =>
      if existsb (Ascii.eqb "/"%char) (list_ascii_of_string f') then basename f'
      else if Ascii.eqb c "/"%char then f' else f
  end.

(** What the loading loop learns from one file name. *)
Inductive DateResult : Type :=
| Recovered (t : Timestamp)   (* [timestamp] is set *)
| NoDate                      (* neither pattern matched: [timestamp] stays [None] *)
| DateError.                  (* [pd.to_datetime] raised *)

(** Lines 54-65 of [processing.py], 44-51 of [output.py]. *)
Definition recover_timestamp (filename : string) : DateResult :=
  let match_ := re_search pat_ymd filename in
  let match_julian := re_search pat_julian filename in
  match match_ with
  | Some date_str =>
      match to_datetime_Ymd date_str with
      | Some t => Recovered t
      | None => DateError
      end
  | None =>
      match match_julian with
      | Some m =>
          let year := int_of_digits (substring 0 4 m) in
          let day_of_year := int_of_digits (substring 4 3 m) in
          match to_datetime_Yj (year * 1000 + day_of_year) with
          | Some t => Recovered t
          | None => DateError
          end
      | None => NoDate
      end
  end.

End FileName.

(* ================================================================== *)
(** * Loading and assembly (step 1 of [processing.py] and [output.py]) *)
(* ================================================================== *)

Module Loader.
Import Calendar FileName.
Local Open Scope string_scope.
Local Open Scope list_scope.

(** How a script run ends. *)
Inductive Outcome (A : Type) : Type :=
| Finished (a : A)        (* the step ran to its end *)
| Exited (status : Z)     (* [exit(...)] was called *)
| Traceback.              (* an exception nobody caught *)
Arguments Finished {A} a.
Arguments Exited {A} status.
Arguments Traceback {A}.

(** Status of [exit(arg)]: [SystemExit(None)] ends the process with 0. *)
Definition py_exit_status (arg : option Z) : Z :=
  match arg with
  | None => 0%Z
  | Some n => n
  end.

(** The scripts only ever write [exit()]. *)
Definition exit_ {A : Type} : Outcome A := Exited (py_exit_status None).

(** Process exit status of a run that ends in this step. *)
Definition exit_status {A : Type} (o : Outcome A) : Z :=
  match o with
  | Finished _ => 0%Z
  | Exited s => s
  | Traceback => 1%Z
  end.

(** The lines the two loaders print. *)
Inductive Msg : Type :=
| LoadingFiles                      (* processing.py:23 *)
| NoteDirectory (folder : string)   (* processing.py:27 *)
| ErrNoNcFiles (pattern : string)   (* processing.py:36 *)
| TipCheckPath                      (* processing.py:37 *)
| FoundFiles (n : nat)              (* processing.py:42 *)
| WarnNoDate (filename : string)    (* processing.py:72 *)
| SkippingDueToError (f : string)   (* processing.py:75 *)
| ErrNoValidDatasets                (* processing.py:79 *)
| Compiled (n : nat)                (* processing.py:86 *)
| CriticalError                     (* processing.py:89 *)
| TipUniform                        (* processing.py:90 *)
| LoadingSatellite                  (* output.py:29 *)
| ErrNoFilesFound.                  (* output.py:36 *)

(** [os.path.join(folder, name)] for a relative [name]. *)
Definition ends_with_slash (s : string) : bool :=
  match rev (list_ascii_of_string s) with
  | c :: _ => Ascii.eqb c "/"%char
  | [] => false
  end.

Definition path_join (folder name : string) : string :=
  if (String.length folder =? 0)%nat || ends_with_slash folder
  then (folder ++ name)%string
  else (folder ++ "/" ++ name)%string.

(** Stable insertion sort: [sorted] on paths, [sortby] on the time index. *)
Fixpoint insert_by {A : Type} (leb : A -> A -> bool) (x : A) (l : list A) : list A :=
  match l with
  | [] => [x]
  | y :: l' => if leb x y then x :: l else y :: insert_by leb x l'
  end.

Fixpoint sort_by {A : Type} (leb : A -> A -> bool) (l : list A) : list A :=
  match l with
  | [] => []
  | x :: l' => insert_by leb x (sort_by leb l')
  end.

Section WithGrid.

(** The content of one NetCDF file, as [xr.open_dataset] returns it. *)
Variable Grid : Type.

(** Whether [xr.concat] accepts a non-empty list of per-file datasets (it
    raises on files whose variables or dimensions disagree). *)
Variable concat_accepts : list Grid -> bool.

(** One path the glob pattern matches. *)
Record Entry : Type := mkEntry {
  path : string;
  is_file : bool;            (* [os.path.isfile] *)
  content : option Grid;     (* [xr.open_dataset]; [None] when it raises *)
  has_time_dim : bool        (* the file has a time dimension of its own:
                                [expand_dims(time=...)] raises on it *)
}.

(** What a script sees of the disk. *)
Record FileSystem : Type := mkFileSystem {
  isdir : string -> bool;
  glob : string -> list Entry
}.

(** The assembled dataset: one grid per time step. *)
Definition Dataset : Type := list (Timestamp * Grid).

Definition time_index (ds : Dataset) : list Timestamp := map fst ds.

(** Lines 26-33 of [processing.py], 30-33 of [output.py]. *)
Definition resolve_pattern (fs : FileSystem) (data_folder : string) : string :=
  if isdir fs data_folder then path_join data_folder "*.nc" else data_folder.

Definition path_leb (a b : Entry) : bool := String.leb (path a) (path b).

Definition file_list (fs : FileSystem) (data_folder : string) : list Entry :=
  filter is_file (sort_by path_leb (glob fs (resolve_pattern fs data_folder))).

(** [.sortby('time')]: a stable sort on the time coordinate. *)
Definition time_leb (a b : Timestamp * Grid) : bool := ts_leb (fst a) (fst b).

Definition sortby_time (ds : Dataset) : Dataset := sort_by time_leb ds.

(** [xr.concat(datasets, dim='time')]: the datasets in the order given;
    [None] when it raises, as it does on an empty list. *)
Definition concat (datasets : Dataset) : option Dataset :=
  match datasets with
  | [] => None
  | _ => if concat_accepts (map snd datasets) then Some datasets else None
  end.

(** ** [processing.py] *)

Definition data_folder_processing : string := "Data/*.nc".

(** The body of the loop over [file_list] (lines 45-76). *)
Definition load_one_processing (st : Dataset * list Msg) (e : Entry)
  : Dataset * list Msg :=
  let (datasets, log) := st in
  match content e with
  | None => (datasets, log ++ [SkippingDueToError (path e)])
  | Some ds_i =>
      let filename := basename (path e) in
      match recover_timestamp filename with
      | Recovered timestamp =>
          if has_time_dim e
          then (datasets, log ++ [SkippingDueToError (path e)])
          else (datasets ++ [(timestamp, ds_i)], log)
      | NoDate => (datasets, log ++ [WarnNoDate filename])
      | DateError => (datasets, log ++ [SkippingDueToError (path e)])
      end
  end.

Definition load_loop_processing (files : list Entry) (log : list Msg)
  : Dataset * list Msg :=
  fold_left load_one_processing files ([], log).

(** Step 1 of [processing.py] (lines 23-91): the outcome and what was printed. *)
Definition load_and_merge_processing (fs : FileSystem) : Outcome Dataset * list Msg :=
  let data_folder := data_folder_processing in
  let log := [LoadingFiles] in
  let log := if isdir fs data_folder then log ++ [NoteDirectory data_folder] else log in
  let pattern := resolve_pattern fs data_folder in
  let files := file_list fs data_folder in
  match files with
  | [] => (exit_, log ++ [ErrNoNcFiles pattern; TipCheckPath])
  | _ =>
      let log := log ++ [FoundFiles (List.length files)] in
      let (datasets, log) := load_loop_processing files log in
      match datasets with
      | [] => (exit_, log ++ [ErrNoValidDatasets])
      | _ =>
          match concat datasets with
          | Some ds =>
              let ds := sortby_time ds in
              (Finished ds, log ++ [Compiled (List.length (time_index ds))])
          | None => (exit_, log ++ [CriticalError; TipUniform])
          end
      end
  end.

(** ** [output.py] *)

Definition data_folder_output : string := "Data/Modis CHL reading/*.nc".

(** The body of the loop over [file_list] (lines 40-57): a bare [except]
    and no [else] branch, so nothing is printed. *)
Definition load_one_output (datasets : Dataset) (e : Entry) : Dataset :=
  match content e with
  | None => datasets
  | Some ds_i =>
      let filename := basename (path e) in
      match recover_timestamp filename with
      | Recovered timestamp =>
          if has_time_dim e then datasets else datasets ++ [(timestamp, ds_i)]
      | NoDate => datasets
      | DateError => datasets
      end
  end.

Definition load_loop_output (files : list Entry) : Dataset :=
  fold_left load_one_output files [].

(** Step 1 of [output.py] (lines 29-59). *)
Definition load_and_merge_output (fs : FileSystem) : Outcome Dataset * list Msg :=
  let data_folder := data_folder_output in
  let log := [LoadingSatellite] in
  let files := file_list fs data_folder in
  match files with
  | [] => (exit_, log ++ [ErrNoFilesFound])
  | _ =>
      let datasets := load_loop_output files in
      match concat datasets with
      | Some ds => (Finished (sortby_time ds), log)
      | None => (Traceback, log)
      end
  end.

End WithGrid.

Arguments mkEntry {Grid} path is_file content has_time_dim.
Arguments path {Grid} e.
Arguments is_file {Grid} e.
Arguments content {Grid} e.
Arguments has_time_dim {Grid} e.
Arguments mkFileSystem {Grid} isdir glob.
Arguments isdir {Grid} f s.
Arguments glob {Grid} f s.
Arguments time_index {Grid} ds.
Arguments sortby_time {Grid} ds.
Arguments file_list {Grid} fs data_folder.
Arguments resolve_pattern {Grid} fs data_folder.
Arguments load_one_processing {Grid} st e.
Arguments load_loop_processing {Grid} files log.
Arguments load_one_output {Grid} datasets e.
Arguments load_loop_output {Grid} files.

End Loader.

(* ================================================================== *)
(** * Label-based selection: [.sel(coord=slice(start, stop))] *)
(* ================================================================== *)

Module Selection.
Local Open Scope Q_scope.

Definition Qltb (x y : Q) : bool := negb (Qle_bool y x).

(** [Index.is_monotonic_increasing] / [is_monotonic_decreasing]: not strict,
    and both hold of an index with fewer than two labels. *)
Fixpoint is_monotonic_increasing (idx : list Q) : bool :=
  match idx with
  | x :: (y :: _) as idx' => Qle_bool x y && is_monotonic_increasing idx'
  | _ => true
  end.

Fixpoint is_monotonic_decreasing (idx : list Q) : bool :=
  match idx with
  | x :: (y :: _) as idx' => Qle_bool y x && is_monotonic_decreasing idx'
  | _ => true
  end.

Fixpoint count (f : Q -> bool) (l : list Q) : nat :=
  match l with
  | [] => O
  | x :: l' => if f x then S (count f l') else count f l'
  end.

Inductive side : Type := Left | Right.

Definition flip (s : side) : side :=
  match s with Left => Right | Right => Left end.

(** [np.searchsorted(a, v, side)] on an ascending array: the number of
    elements below [v] (left), or not above [v] (right). *)
Definition searchsorted (a : list Q) (v : Q) (s : side) : nat :=
  match s with
  | Left => count (fun x => Qltb x v) a
  | Right => count (fun x => Qle_bool x v) a
  end.

(** [Index._searchsorted_monotonic]: a descending index is searched in
    reverse, with the side flipped.  [None]: the index is not monotonic and
    pandas raises [ValueError]. *)
Definition searchsorted_monotonic (idx : list Q) (label : Q) (s : side) : option nat :=
  if is_monotonic_increasing idx then Some (searchsorted idx label s)
  else if is_monotonic_decreasing idx then
    let pos := searchsorted (rev idx) label (flip s) in
    Some (List.length idx - pos)%nat
  else None.

(** [Index.get_loc(label)] as [get_slice_bound] reads its result: the
    positions at which the label occurs, counted from [k] on.  One position
    is the integer pandas returns, several are its slice or boolean mask, and
    none is its [KeyError]. *)
Fixpoint get_loc_from (k : nat) (idx : list Q) (label : Q) : list nat :=
  match idx with
  | [] => []
  | x :: idx' =>
      if Qeq_bool x label then k :: get_loc_from (S k) idx' label
      else get_loc_from (S k) idx' label
  end.

Definition get_loc (idx : list Q) (label : Q) : list nat := get_loc_from 0 idx label.

(** [lib.maybe_booleans_to_slice]: the positions after [p] follow one
    another without a gap. *)
Fixpoint consecutive (p : nat) (ps : list nat) : bool :=
  match ps with
  | [] => true
  | q :: ps' => Nat.eqb q (S p) && consecutive q ps'
  end.

(** [Index.get_slice_bound(label, side)]: the label is looked up first.
    Where it occurs, the bound is the first position (left) or the one after
    the last (right), provided the occurrences are consecutive; where it does
    not occur, the monotonic search decides.  [None]: pandas raises
    [KeyError]. *)
Definition get_slice_bound (idx : list Q) (label : Q) (s : side) : option nat :=
  match get_loc idx label with
  | [] => searchsorted_monotonic idx label s
  | p :: ps =>
      if consecutive p ps
      then Some (match s with Left => p | Right => S (last ps p) end)
      else None
  end.

(** [Index.slice_locs(start, stop)]: positions of the two bounds. *)
Definition slice_locs (idx : list Q) (start stop : Q) : option (nat * nat) :=
  match get_slice_bound idx start Left, get_slice_bound idx stop Right with
  | Some start_slice, Some end_slice => Some (start_slice, end_slice)
  | _, _ => None
  end.

(** Python's [a[i:j]] for positions inside the list. *)
Definition py_slice {A : Type} (i j : nat) (a : list A) : list A :=
  firstn (j - i) (skipn i a).

(** The coordinates [.sel(coord=slice(start, stop))] keeps. *)
Definition sel_slice (idx : list Q) (start stop : Q) : option (list Q) :=
  match slice_locs idx start stop with
  | Some (i, j) => Some (py_slice i j idx)
  | None => None
  end.

(** A [slice(start, stop)] of labels. *)
Record LabelSlice : Type := mkSlice { start : Q; stop : Q }.

Record Bounds : Type := mkBounds { lat : LabelSlice; lon : LabelSlice }.

(** [zones] of [processing.py] (lines 16-20) and [output.py] (lines 13-17). *)
Definition zones : list (string * Bounds) :=
  [ ("Mumbai"%string,     mkBounds (mkSlice 19.5 18.5) (mkSlice 72.0 73.0));
    ("Ratnagiri"%string,  mkBounds (mkSlice 17.5 16.5) (mkSlice 72.0 73.5));
    ("Sindhudurg"%string, mkBounds (mkSlice 16.5 15.5) (mkSlice 72.0 73.5)) ].

(** [lat_slice], [lon_slice] of [dec27_code.py] (lines 9-10) and [bio_3d.py]
    (lines 18-19). *)
Definition lat_slice : LabelSlice := mkSlice 16.5 17.5.
Definition lon_slice : LabelSlice := mkSlice 72.0 73.5.

(** A coordinate lies between the two bounds, whichever way they are given. *)
Definition within (b : LabelSlice) (x : Q) : bool :=
  Qle_bool (Qmin (start b) (stop b)) x && Qle_bool x (Qmax (start b) (stop b)).

(** A predicate that, once false along the list, stays false: the elements
    it holds of are a prefix. *)
Fixpoint prefix_closed (p : Q -> bool) (l : list Q) : Prop :=
  match l with
  | [] => True
  | x :: l' => (p x = false -> Forall (fun y => p y = false) l') /\ prefix_closed p l'
  end.

End Selection.

(* ================================================================== *)
(** * Gridded variables in exact arithmetic *)
(* ================================================================== *)

(** Cell values are rationals or missing: [None] is NaN.  Sums and products
    are exact; the rounding of binary64 is not part of this model. *)
Module Grid.
Import Calendar Selection.
Local Open Scope Q_scope.

Definition cell : Type := option Q.

Definition isnull (c : cell) : bool :=
  match c with None => true | Some _ => false end.

(** Arithmetic that lets NaN through. *)
Definition cell_add (a b : cell) : cell :=
  match a, b with
  | Some x, Some y => Some (x + y)
  | _, _ => None
  end.

Definition cell_scale (k : Q) (a : cell) : cell :=
  match a with
  | Some x => Some (k * x)
  | None => None
  end.

(** Equality of cells up to the equality of rationals. *)
Definition cell_eq (a b : cell) : Prop :=
  match a, b with
  | Some x, Some y => x == y
  | None, None => True
  | _, _ => False
  end.

(** The values that are not missing. *)
Fixpoint valid (l : list cell) : list Q :=
  match l with
  | [] => []
  | Some x :: l' => x :: valid l'
  | None :: l' => valid l'
  end.

Definition Qsum (l : list Q) : Q := fold_right Qplus 0 l.

(** [.mean(skipna=True)]: the mean of the valid values, NaN when there is
    none. *)
Definition nanmean (l : list cell) : cell :=
  match valid l with
  | [] => None
  | v => Some (Qsum v / inject_Z (Z.of_nat (List.length v)))
  end.

(** [.sum()] with the default [skipna]: missing values count as nothing, and
    a sum of nothing is 0. *)
Definition nansum (l : list cell) : cell := Some (Qsum (valid l)).

(** [.min()] / [.max()] with the default [skipna]. *)
Definition nanmin (l : list cell) : cell :=
  match valid l with
  | [] => None
  | x :: v => Some (fold_left Qmin v x)
  end.

Definition nanmax (l : list cell) : cell :=
  match valid l with
  | [] => None
  | x :: v => Some (fold_left Qmax v x)
  end.

(** [trapz(y, x)] of xarray's [integrate]:
    [dx = x[1:] - x[:-1]], [sum(dx * 0.5 * (y[1:] + y[:-1]), skipna=False)]. *)
Fixpoint trapz (x : list Q) (y : list cell) : cell :=
  match x, y with
  | x0 :: (x1 :: _) as x', y0 :: (y1 :: _) as y' =>
      cell_add (cell_scale ((x1 - x0) * 0.5) (cell_add y1 y0)) (trapz x' y')
  | _, _ => Some 0
  end.

(** A data variable on (time, depth, latitude, longitude): the coordinate
    axes and the value at each position. *)
Record DataArray : Type := mkDataArray {
  time : option (list Timestamp);   (* [None]: no time dimension *)
  depth : list Q;
  latitude : list Q;
  longitude : list Q;
  values : nat -> nat -> nat -> nat -> cell
}.

Definition ntime (a : DataArray) : nat :=
  match time a with
  | Some ts => List.length ts
  | None => 1%nat
  end.

Definition positions (axis : list Q) : list nat := seq 0 (List.length axis).

(** The depth profile of one column. *)
Definition profile (a : DataArray) (t i j : nat) : list cell :=
  map (fun z => values a t z i j) (positions (depth a)).

(** Every (latitude, longitude) position. *)
Definition columns (a : DataArray) : list (nat * nat) :=
  flat_map (fun i => map (fun j => (i, j)) (positions (longitude a)))
           (positions (latitude a)).

(** All the cells of one time step, and of the whole array. *)
Definition cells_at (a : DataArray) (t : nat) : list cell :=
  flat_map (fun ij => profile a t (fst ij) (snd ij)) (columns a).

Definition all_cells (a : DataArray) : list cell :=
  flat_map (cells_at a) (seq 0 (ntime a)).

(** [.sel(latitude=slice, longitude=slice)]; [None] when pandas raises. *)
Definition sel_lat_lon (a : DataArray) (lat_s lon_s : LabelSlice) : option DataArray :=
  match slice_locs (latitude a) (start lat_s) (stop lat_s),
        slice_locs (longitude a) (start lon_s) (stop lon_s) with
  | Some (i0, i1), Some (j0, j1) =>
      Some (mkDataArray (time a) (depth a)
              (py_slice i0 i1 (latitude a)) (py_slice j0 j1 (longitude a))
              (fun t z i j => values a t z (i0 + i) (j0 + j)))
  | _, _ => None
  end.

(** [.sel(depth=slice(start, stop))]. *)
Definition sel_depth (a : DataArray) (d : LabelSlice) : option DataArray :=
  match slice_locs (depth a) (start d) (stop d) with
  | Some (z0, z1) =>
      Some (mkDataArray (time a) (py_slice z0 z1 (depth a))
              (latitude a) (longitude a)
              (fun t z i j => values a t (z0 + z) i j))
  | None => None
  end.

(** [.integrate(coord='depth')] then
    [.mean(dim=['latitude', 'longitude'], skipna=True)]: one value per time
    step. *)
Definition integrate_then_mean (a : DataArray) : list cell :=
  map (fun t => nanmean (map (fun ij => trapz (depth a) (profile a t (fst ij) (snd ij)))
                             (columns a)))
      (seq 0 (ntime a)).

(** [.sum(dim='depth')] then [.mean(dim=['latitude', 'longitude'])]. *)
Definition sum_then_mean (a : DataArray) : list cell :=
  map (fun t => nanmean (map (fun ij => nansum (profile a t (fst ij) (snd ij)))
                             (columns a)))
      (seq 0 (ntime a)).

(** The variable has the value [v] in every cell of the array, that is at
    every position of its own axes. *)
Definition uniform (a : DataArray) (v : Q) : Prop :=
  forall t z i j,
  (t < ntime a)%nat -> (z < List.length (depth a))%nat ->
  (i < List.length (latitude a))%nat -> (j < List.length (longitude a))%nat ->
  values a t z i j = Some v.

(** At time step [t] the variable is missing in every column of the array,
    whatever level is read. *)
Definition missing_at (a : DataArray) (t : nat) : Prop :=
  forall z i j,
  (t < ntime a)%nat ->
  (i < List.length (latitude a))%nat -> (j < List.length (longitude a))%nat ->
  values a t z i j = None.

End Grid.

(* ================================================================== *)
(** * [dec27_code.py]: extraction, integration, availability *)
(* ================================================================== *)

Module Dec27.
Import Calendar Selection Grid Loader.
Local Open Scope string_scope.
Local Open Scope list_scope.

(** [str.lower] on ASCII. *)
Definition lower_char (c : ascii) : ascii :=
  let n := nat_of_ascii c in
  if ((65 <=? n) && (n <=? 90))%nat then ascii_of_nat (n + 32) else c.

Fixpoint lower (s : string) : string :=
  match s with
  | EmptyString => EmptyString
  | String c s' => String (lower_char c) (lower s')
  end.

(** [a in b] on strings. *)
Fixpoint is_substring (a b : string) : bool :=
  if prefix a b then true
  else match b with
       | EmptyString => false
       | String _ b' => is_substring a b'
       end.

(** An opened NetCDF file: its data variables, in order. *)
Definition NcDataset : Type := list (string * DataArray).

Inductive FileState : Type :=
| Absent                       (* [os.path.exists] is false *)
| Unreadable                   (* [xr.open_dataset] raises *)
| Readable (ds : NcDataset).

(** The content of [data_folder], by file name. *)
Definition Disk : Type := string -> FileState.

(** [files] (lines 13-17). *)
Definition file_prod : string := "konkan_bgc_nppv_o2.nc".
Definition file_nut : string := "konkan_bgc_no3.nc".
Definition file_bio : string := "konkan_bgc_chl_phyc.nc".

(** The lines the script prints; numbers are left out of the report lines
    whose wording does not depend on them. *)
Inductive Msg : Type :=
| MissingFile (fname : string)                      (* 33 *)
| UsingVariable (v var_name : string)               (* 48 *)
| VariableNotFound (var_name fname : string)        (* 52 *)
| AvailableVariables (names : list string)          (* 53 *)
| OnlyNaN (label : string)                          (* 65 *)
| TryAdjustingBounds                                (* 66 *)
| CurrentBounds (lat_s lon_s : LabelSlice)          (* 67 *)
| LoadedSuccessfully (label : string) (valid_count : nat)  (* 70 *)
| ErrorProcessing (fname : string)                  (* 74 *)
| Step1Header                                       (* 79-81 *)
| NppAllZeros                                       (* 92 *)
| UsingChlorophyllProxy                             (* 96 *)
| IntegratedNpp (mean lo hi : cell)                 (* 106-108 *)
| IntegrationFailed                                 (* 111 *)
| Step2Header                                       (* 116-118 *)
| ExtractedNitrate                                  (* 139-141 *)
| NitrateFailed                                     (* 144 *)
| Step3Header                                       (* 148-150 *)
| ExtractedOxygen (lo mean : cell)                  (* 161-163 *)
| OxygenFailed                                      (* 166 *)
| PlotHeader                                        (* 170-172 *)
| CriticalNoData                                    (* 175-176 *)
| PlotSaved                                         (* 235 *)
| ReportHeader                                      (* 240-242 *)
| ProductionSection                                 (* 246-269 *)
| NoProductionData                                  (* 271 *)
| NutrientSection                                   (* 275-297 *)
| NoUpwellingData                                   (* 299 *)
| OxygenSection                                     (* 303-320 *)
| NoOxygenData.                                     (* 322 *)

(** Lines 40-49: the exact name, or else the first variable whose lower-cased
    name contains the lower-cased request. *)
Definition find_variable (ds : NcDataset) (var_name : string)
  : option string * list Msg :=
  if existsb (String.eqb var_name) (map fst ds) then (Some var_name, [])
  else
    match find (fun v => is_substring (lower var_name) (lower v)) (map fst ds) with
    | Some v => (Some v, [UsingVariable v var_name])
    | None => (None, [])
    end.

(** [ds[target_var]]: the first variable of that name. *)
Definition get_variable (ds : NcDataset) (name : string) : option DataArray :=
  match find (fun p => String.eqb name (fst p)) ds with
  | Some p => Some (snd p)
  | None => None
  end.

(** Lines 61-62: the number of cells of the first time step that are not
    missing; [None] when [isel(time=0)] raises on an empty time axis. *)
Definition valid_count (subset : DataArray) : option nat :=
  match time subset with
  | Some [] => None
  | _ => Some (List.length (valid (cells_at subset 0)))
  end.

(** [extract_and_process(fname, var_name, label)] (lines 26-75): the subset,
    or [None] when the variable is unavailable, and the lines printed. *)
Definition extract_and_process (disk : Disk) (fname var_name label : string)
  : option DataArray * list Msg :=
  match disk fname with
  | Absent => (None, [MissingFile fname])
  | Unreadable => (None, [ErrorProcessing fname])
  | Readable ds =>
      let (target_var, log) := find_variable ds var_name in
      match target_var with
      | None =>
          (None, log ++ [VariableNotFound var_name fname;
                         AvailableVariables (map fst ds)])
      | Some v =>
          match get_variable ds v with
          | None => (None, log ++ [ErrorProcessing fname])
          | Some da =>
              match sel_lat_lon da lat_slice lon_slice with
              | None => (None, log ++ [ErrorProcessing fname])
              | Some subset =>
                  match valid_count subset with
                  | None => (None, log ++ [ErrorProcessing fname])
                  | Some O =>
                      (None, log ++ [OnlyNaN label; TryAdjustingBounds;
                                     CurrentBounds lat_slice lon_slice])
                  | Some n =>
                      (Some subset, log ++ [LoadedSuccessfully label n])
                  end
              end
          end
      end
  end.

(** [slice(0, 100)] of line 88. *)
Definition photic : LabelSlice := mkSlice 0 100.

(** Line 91: [mean == 0 or isnan(mean)]. *)
Definition zero_or_nan (c : cell) : bool :=
  match c with
  | None => true
  | Some q => Qeq_bool q 0
  end.

(** Step 1 (lines 82-112): [integrated_npp], and the lines printed. *)
Definition process_npp (disk : Disk) : option (list cell) * list Msg :=
  let (npp_subset, log) := extract_and_process disk file_prod "nppv" "NPP" in
  match npp_subset with
  | None => (None, log)
  | Some npp_subset =>
      match sel_depth npp_subset photic with
      | None => (None, log ++ [IntegrationFailed])
      | Some npp_100m =>
          let (npp_100m, log) :=
            if zero_or_nan (nanmean (all_cells npp_100m)) then
              let (chl_subset, log_chl) :=
                extract_and_process disk file_bio "chl" "Chlorophyll" in
              let log := log ++ [NppAllZeros] ++ log_chl in
              match chl_subset with
              | Some chl => (sel_depth chl photic, log ++ [UsingChlorophyllProxy])
              | None => (Some npp_100m, log)
              end
            else (Some npp_100m, log) in
          match npp_100m with
          | None => (None, log ++ [IntegrationFailed])
          | Some npp_100m =>
              let integrated_npp := integrate_then_mean npp_100m in
              (Some integrated_npp,
               log ++ [IntegratedNpp (nanmean integrated_npp)
                                     (nanmin integrated_npp)
                                     (nanmax integrated_npp)])
          end
      end
  end.

(** The three metrics of the report, and the lines that report each one as
    available: the line of its step and its section of the report. *)
Inductive Metric : Type := Production | Nutrients | Oxygen.

Definition reports (k : Metric) (m : Msg) : bool :=
  match k, m with
  | Production, IntegratedNpp _ _ _ => true
  | Production, ProductionSection => true
  | Nutrients, ExtractedNitrate => true
  | Nutrients, NutrientSection => true
  | Oxygen, ExtractedOxygen _ _ => true
  | Oxygen, OxygenSection => true
  | _, _ => false
  end.

Section DepthLevels.

(** [.sel(depth=d, method='nearest')]: the position of the depth level
    nearest to [d] (pandas' nearest lookup); [None] on an empty axis. *)
Variable nearest : list Q -> Q -> option nat.

(** The horizontal mean of one depth level, per time step. *)
Definition level_mean (a : DataArray) (z : nat) : list cell :=
  map (fun t => nanmean (map (fun ij => values a t z (fst ij) (snd ij)) (columns a)))
      (seq 0 (ntime a)).

Definition axis_min (axis : list Q) : option Q :=
  match axis with
  | [] => None
  | x :: l => Some (fold_left Qmin l x)
  end.

Definition axis_max (axis : list Q) : option Q :=
  match axis with
  | [] => None
  | x :: l => Some (fold_left Qmax l x)
  end.

(** Step 2 (lines 119-144): [surf_no3] and [deep_no3]. *)
Definition process_no3 (disk : Disk)
  : option (list cell) * option (list cell) * list Msg :=
  let (no3_subset, log) := extract_and_process disk file_nut "no3" "Nitrate" in
  match no3_subset with
  | None => (None, None, log)
  | Some no3 =>
      match axis_min (depth no3), axis_max (depth no3) with
      | Some min_depth, Some max_depth =>
          match nearest (depth no3) min_depth with
          | None => (None, None, log ++ [NitrateFailed])
          | Some zs =>
              let surf_no3 := level_mean no3 zs in
              let deep_depth := Qmin 100 max_depth in
              match nearest (depth no3) deep_depth with
              | None => (Some surf_no3, None, log ++ [NitrateFailed])
              | Some zd =>
                  (Some surf_no3, Some (level_mean no3 zd), log ++ [ExtractedNitrate])
              end
          end
      | _, _ => (None, None, log ++ [NitrateFailed])
      end
  end.

(** Step 3 (lines 151-166): [deep_o2]. *)
Definition process_o2 (disk : Disk) : option (list cell) * list Msg :=
  let (o2_subset, log) := extract_and_process disk file_prod "o2" "Oxygen" in
  match o2_subset with
  | None => (None, log)
  | Some o2 =>
      match axis_max (depth o2) with
      | None => (None, log ++ [OxygenFailed])
      | Some max_depth =>
          let available_depth := Qmin 50 max_depth in
          match nearest (depth o2) available_depth with
          | None => (None, log ++ [OxygenFailed])
          | Some z =>
              let deep_o2 := level_mean o2 z in
              (Some deep_o2, log ++ [ExtractedOxygen (nanmin deep_o2) (nanmean deep_o2)])
          end
      end
  end.

Definition is_some {A : Type} (o : option A) : bool :=
  match o with Some _ => true | None => false end.

(** Step 5 (lines 240-322): which sections the report carries. *)
Definition report (integrated_npp surf_no3 deep_no3 deep_o2 : option (list cell))
  : list Msg :=
  [ReportHeader]
  ++ [if is_some integrated_npp then ProductionSection else NoProductionData]
  ++ [if is_some surf_no3 && is_some deep_no3 then NutrientSection else NoUpwellingData]
  ++ [if is_some deep_o2 then OxygenSection else NoOxygenData].

(** The three metrics the script keeps, when it reaches its end. *)
Record Metrics : Type := mkMetrics {
  integrated_npp : option (list cell);
  surf_no3 : option (list cell);
  deep_no3 : option (list cell);
  deep_o2 : option (list cell)
}.

(** The whole script: how it ends and everything it prints. *)
Definition main (disk : Disk) : Outcome Metrics * list Msg :=
  let (npp, log1) := process_npp disk in
  let '(surf, deep, log2) := process_no3 disk in
  let (o2, log3) := process_o2 disk in
  let log := [Step1Header] ++ log1 ++ [Step2Header] ++ log2
             ++ [Step3Header] ++ log3 ++ [PlotHeader] in
  if negb (is_some npp) && negb (is_some surf) && negb (is_some o2)
  then (exit_, log ++ [CriticalNoData])
  else (Finished (mkMetrics npp surf deep o2),
        log ++ [PlotSaved] ++ report npp surf deep o2).

End DepthLevels.

(** Lines 302-322: the oxygen assessment.  [min_o2] is read off the series
    and only compared. *)
Inductive OxygenStatus : Type :=
| ALERT       (* 314-315: hypoxic events detected *)
| CAUTION     (* 317-318: oxygen stress periods *)
| HEALTHY.    (* 320: healthy levels throughout *)

(** [x < k] on a cell: false of NaN. *)
Definition cell_ltb (x : cell) (k : Q) : bool :=
  match x with
  | Some q => Qltb q k
  | None => false
  end.

Definition oxygen_status (min_o2 : cell) : OxygenStatus :=
  if cell_ltb min_o2 60 then ALERT
  else if cell_ltb min_o2 120 then CAUTION
  else HEALTHY.

Definition oxygen_assessment (deep_o2 : list cell) : OxygenStatus :=
  let min_o2 := nanmin deep_o2 in
  oxygen_status min_o2.

End Dec27.

(* ================================================================== *)
(** * [bio_3d.py]: the production proxy *)
(* ================================================================== *)

Module Bio3d.
Import Selection Grid.

(** Lines 46 and 54: the zone, the 0-100 m levels, a sum over depth and the
    horizontal mean.  [None]: an exception, which this script does not catch. *)
Definition npp_integrated (nppv : DataArray) : option (list cell) :=
  match sel_lat_lon nppv lat_slice lon_slice with
  | None => None
  | Some ratnagiri =>
      match sel_depth ratnagiri (mkSlice 0 100) with
      | None => None
      | Some a => Some (sum_then_mean a)
      end
  end.

(** Lines 107 and 123-127: the oxygen check has one threshold. *)
Inductive OxygenSafety : Type :=
| HYPOXIC_EVENT   (* 125 *)
| SAFE.           (* 127 *)

Definition oxygen_safety (o2_deep : list cell) : OxygenSafety :=
  let min_o2 := nanmin o2_deep in
  if Dec27.cell_ltb min_o2 60 then HYPOXIC_EVENT else SAFE.

End Bio3d.

(* ================================================================== *)
(** * [processing.py]: zonal series and the analysis report *)
(* ================================================================== *)

Module Processing.
Import Selection Grid.
Local Open Scope list_scope.

(** Lines 106-110: the zone's sub-grid and its spatial mean per time step.
    [None]: [.sel] raised. *)
Definition zone_series (ds_weekly : DataArray) (b : Bounds) : option (list cell) :=
  match sel_lat_lon ds_weekly (lat b) (lon b) with
  | None => None
  | Some zone_data =>
      Some (map (fun t => nanmean (cells_at zone_data t)) (seq 0 (ntime zone_data)))
  end.

Inductive Status : Type :=
| LOW_PRODUCTIVITY   (* 144 *)
| VERY_HIGH          (* 146 *)
| HEALTHY_NORMAL     (* 148 *)
| NO_DATA.           (* 150 *)

(** The lines of the report for one zone (138-150). *)
Inductive Line : Type :=
| ZoneName (zone : string)
| AverageProductivity (mean_val : cell)
| PeakProductivity (peak_val : Q)
| StatusLine (s : Status).

Definition zone_report (zone : string) (data : list cell) : list Line :=
  let peak_val := nanmax data in
  let mean_val := nanmean data in
  [ZoneName zone; AverageProductivity mean_val] ++
  match peak_val with
  | Some peak =>
      [PeakProductivity peak;
       StatusLine (if Qltb peak 1.0 then LOW_PRODUCTIVITY
                   else if Qltb 5.0 peak then VERY_HIGH
                   else HEALTHY_NORMAL)]
  | None => [StatusLine NO_DATA]
  end.

Section Run.

Variable File : Type.
Variable concat_accepts : list File -> bool.

(** Line 96: [ds['chlor_a'].resample(time='1W').mean(skipna=True)], the
    weekly chlorophyll field xarray builds from the assembled dataset;
    [None] when it raises (no variable of that name). *)
Variable resample_weekly : Loader.Dataset File -> option DataArray.

(** What the script prints. *)
Inductive Printed : Type :=
| Loading (m : Loader.Msg)    (* step 1 *)
| Aggregating                 (* 95 *)
| Extracting                  (* 99 *)
| AnalysisReport              (* 131 *)
| Report (l : Line)           (* 138-150 *)
| ProcessingComplete.         (* 152 *)

(** The script's variables when it reaches its end. *)
Record Final : Type := mkFinal {
  ds : Loader.Dataset File;
  ds_weekly : DataArray;
  results : list (string * list cell)
}.

(** The loop of lines 104-115: [None] when a selection raises. *)
Fixpoint extract_zones (ds_weekly : DataArray) (zs : list (string * Bounds))
  : option (list (string * list cell)) :=
  match zs with
  | [] => Some []
  | (zone_name, bounds) :: zs' =>
      match zone_series ds_weekly bounds with
      | None => None
      | Some time_series =>
          match extract_zones ds_weekly zs' with
          | None => None
          | Some results => Some ((zone_name, time_series) :: results)
          end
      end
  end.

(** The whole script. *)
Definition run (fs : Loader.FileSystem File)
  : Loader.Outcome Final * list Printed :=
  let (step1, log1) := Loader.load_and_merge_processing File concat_accepts fs in
  let log := map Loading log1 in
  match step1 with
  | Loader.Exited status => (Loader.Exited status, log)
  | Loader.Traceback => (Loader.Traceback, log)
  | Loader.Finished ds =>
      let log := log ++ [Aggregating] in
      match resample_weekly ds with
      | None => (Loader.Traceback, log)
      | Some ds_weekly =>
          let log := log ++ [Extracting] in
          match extract_zones ds_weekly zones with
          | None => (Loader.Traceback, log)
          | Some results =>
              (Loader.Finished (mkFinal ds ds_weekly results),
               log ++ [AnalysisReport]
                   ++ map Report
                        (flat_map (fun zr => zone_report (fst zr) (snd zr)) results)
                   ++ [ProcessingComplete])
          end
      end
  end.

End Run.

End Processing.

(* ================================================================== *)
(** * [output.py]: the fisheries forecast, in binary64 *)
(* ================================================================== *)

Module Forecast.
Import Calendar.
Local Open Scope float_scope.

(** Lines 22 and 26. *)
Definition BASELINE_CHL : float := 2.0.
Definition TROPHIC_SENSITIVITY : float := 0.8.

(** A zone's weekly series [ts]: one value per time step, NaN when missing. *)
Definition Series : Type := list (Timestamp * float).

(** [slice('2025-10-01', '2025-11-30')] on the (increasing) weekly index. *)
Definition bloom_start : Timestamp := mkTimestamp 2025 10 1.
Definition bloom_end : Timestamp := mkTimestamp 2025 11 30.

Definition in_bloom_window (t : Timestamp) : bool :=
  ts_leb bloom_start t && ts_leb t bloom_end.

Definition bloom_period (ts : Series) : Series :=
  filter (fun p => in_bloom_window (fst p)) ts.

Section WithMean.

(** [.mean()] of a series: the mean numpy computes of the values that are
    not NaN. *)
Variable mean : list float -> float.

(** Lines 83-86. *)
Definition avg_observed_chl (ts : Series) : float :=
  let bloom_period := bloom_period ts in
  if (0 <? List.length bloom_period)%nat
  then mean (map snd bloom_period)
  else 0.0.

(** Line 90. *)
Definition ppi_anomaly (avg_observed_chl : float) : float :=
  (avg_observed_chl - BASELINE_CHL) / BASELINE_CHL.

(** Lines 95-99. *)
Definition yield_gap_percent (ppi_anomaly : float) : float :=
  let yield_gap_percent := ppi_anomaly * TROPHIC_SENSITIVITY * 100 in
  if 0 <? yield_gap_percent
  then yield_gap_percent * 0.2
  else yield_gap_percent.

(** One entry of [prediction_report] (lines 102-107). *)
Record Row : Type := mkRow {
  Zone : string;
  Observed_Chl : float;
  PPI_Anomaly : float;
  Yield_Forecast : float
}.

Definition predict (zone_name : string) (ts : Series) : Row :=
  let obs := avg_observed_chl ts in
  let ppi := ppi_anomaly obs in
  mkRow zone_name obs (ppi * 100) (yield_gap_percent ppi).

End WithMean.

(** Lines 142-144: the status starts at STABLE and is overwritten. *)
Inductive Status : Type := STABLE | STRESSED | CRITICAL.

Definition status (ppi : float) : Status :=
  let status := STABLE in
  let status := if ppi <? -20 then STRESSED else status in
  let status := if ppi <? -50 then CRITICAL else status in
  status.

(** Lines 146-147: the wording of the forecast. *)
Inductive ForecastStr : Type :=
| Decline (forecast : float)
| Growth (forecast : float).

Definition forecast_str (forecast : float) : ForecastStr :=
  let forecast_str := Decline forecast in
  if 0 <? forecast then Growth forecast else forecast_str.

(** What the script prints. *)
Inductive Printed : Type :=
| Loading (m : Loader.Msg)      (* step 1 *)
| ModelHeader                   (* 64-66 *)
| ReportHeader                  (* 130-134 *)
| ReportRow (zone : string) (obs ppi : float) (s : Status) (f : ForecastStr)
                                (* 149 *)
| ReportFooter.                 (* 151-156 *)

(** Lines 136-149: the line of the report for one entry. *)
Definition report_row (row : Row) : Printed :=
  let obs := Observed_Chl row in
  let ppi := PPI_Anomaly row in
  let forecast := Yield_Forecast row in
  ReportRow (Zone row) obs ppi (status ppi) (forecast_str forecast).

Section Run.

Variable File : Type.
Variable concat_accepts : list File -> bool.

(** Line 61: the weekly chlorophyll field, [None] when xarray raises. *)
Variable Weekly : Type.
Variable resample_weekly : Loader.Dataset File -> option Weekly.

(** Lines 76-77: the sub-grid of a zone and its spatial mean per time step,
    [None] when the selection raises. *)
Variable zone_series : Weekly -> Selection.Bounds -> option Series.

Variable mean : list float -> float.

(** The script's variables when it reaches its end. *)
Record Final : Type := mkFinal {
  ds : Loader.Dataset File;
  prediction_report : list Row
}.

(** The loop of lines 74-110. *)
Fixpoint predict_zones (ds_weekly : Weekly) (zs : list (string * Selection.Bounds))
  : option (list Row) :=
  match zs with
  | [] => Some []
  | (zone_name, bounds) :: zs' =>
      match zone_series ds_weekly bounds with
      | None => None
      | Some ts =>
          match predict_zones ds_weekly zs' with
          | None => None
          | Some rows => Some (predict mean zone_name ts :: rows)
          end
      end
  end.

(** The whole script. *)
Definition run (fs : Loader.FileSystem File)
  : Loader.Outcome Final * list Printed :=
  let (step1, log1) := Loader.load_and_merge_output File concat_accepts fs in
  let log := map Loading log1 in
  match step1 with
  | Loader.Exited status => (Loader.Exited status, log)
  | Loader.Traceback => (Loader.Traceback, log)
  | Loader.Finished ds =>
      match resample_weekly ds with
      | None => (Loader.Traceback, log)
      | Some ds_weekly =>
          let log := log ++ [ModelHeader] in
          match predict_zones ds_weekly Selection.zones with
          | None => (Loader.Traceback, log)
          | Some prediction_report =>
              (Loader.Finished (mkFinal ds prediction_report),
               log ++ [ReportHeader] ++ map report_row prediction_report
                   ++ [ReportFooter])
          end
      end
  end.

End Run.

End Forecast.

(* ================================================================== *)
(** * [dec27_code.py]: the bloom assessment, in binary64 *)
(* ================================================================== *)

Module Bloom.
Local Open Scope float_scope.

(** Lines 251-266: [bloom] and [annual] are the two means read off
    [integrated_npp]; the anomaly is in percent. *)
Inductive BloomStatus : Type := STRONG_BLOOM | NORMAL_BLOOM | BLOOM_FAILURE.


Definition bloom_status (anomaly : float) : BloomStatus :=
  if 20 <? anomaly then STRONG_BLOOM
  else if 0 <? anomaly then NORMAL_BLOOM
  else BLOOM_FAILURE.

End Bloom.

(* ================================================================== *)
(** * [dec27_code.py]: the nutrient diagnosis, in binary64 *)
(* ================================================================== *)

Module Upwelling.
Local Open Scope float_scope.

(** Lines 280-294: [bloom_surf] and [bloom_deep] are the two means read off
    the nitrate series of the bloom window. *)
Inductive Diagnosis : Type :=
| EFFICIENT_UTILIZATION    (* 289-290 *)
| VERY_STRONG_UPWELLING    (* 292 *)
| NUTRIENT_LIMITATION      (* 294 *)
| NO_DIAGNOSIS.            (* no branch is taken: nothing is printed *)

(** Line 282. *)
Definition gradient (bloom_surf bloom_deep : float) : float :=
  bloom_deep - bloom_surf.

(** Lines 288-294. *)
Definition diagnosis (bloom_surf bloom_deep : float) : Diagnosis :=
  let gradient := gradient bloom_surf bloom_deep in
  if (bloom_surf <? 0.5) && (10 <? gradient) then EFFICIENT_UTILIZATION
  else if 15 <? gradient then VERY_STRONG_UPWELLING
  else if bloom_surf <? 0.5 then NUTRIENT_LIMITATION
  else NO_DIAGNOSIS.

End Upwelling.

(* ================================================================== *)
(** * [dec27_code.py]: the production assessment, in binary64 *)
(* ================================================================== *)

Module Production.
Import Calendar.
Local Open Scope float_scope.

Section WithMean.

(** [.mean()] of a series: the mean numpy computes of the values that are
    not NaN. *)
Variable mean : list float -> float.


End WithMean.

End Production.

(* ================================================================== *)
(** * [bio_3d.py]: the whole script *)
(* ================================================================== *)

Module Bio3dScript.
Import Calendar Selection Grid Loader.
Local Open Scope string_scope.
Local Open Scope list_scope.

(** [files] (lines 11-15), in the order of the dictionary. *)
Definition files : list string :=
  [Dec27.file_bio; Dec27.file_nut; Dec27.file_prod].

(** The lines the script prints. *)
Inductive Msg : Type :=
| LoadingData                                   (* 22 *)
| FileNotFound (fname : string)                 (* 28 *)
| Merged                                        (* 39 *)
| MergeError                                    (* 41 *)
| ExtractingZone                                (* 45 *)
| CalculatingMetrics                            (* 49 *)
| ReportHeader                                  (* 95-97 *)
| ProductionLine (bloom_prod avg_prod : cell)   (* 109 *)
| BloomFailureConfirmed                         (* 111-112 *)
| HiddenBloomDetected                           (* 114-115 *)
| NutrientLine (bloom_no3 : cell)               (* 117 *)
| NutrientLimitation                            (* 119 *)
| NutrientsAvailable                            (* 121 *)
| OxygenLine (min_o2 : cell)                    (* 123 *)
| HypoxicEventDetected                          (* 125 *)
| OxygenSafe                                    (* 127 *)
| ReportFooter.                                 (* 129 *)

(** The loop of lines 25-33: a missing file ends the script, a file that
    cannot be opened raises and nothing catches it. *)
Fixpoint open_all (disk : Dec27.Disk) (fnames : list string)
  : Outcome (list Dec27.NcDataset) * list Msg :=
  match fnames with
  | [] => (Finished [], [])
  | fname :: rest =>
      match disk fname with
      | Dec27.Absent => (exit_, [FileNotFound fname])
      | Dec27.Unreadable => (Traceback, [])
      | Dec27.Readable ds =>
          match open_all disk rest with
          | (Finished datasets, log) => (Finished (ds :: datasets), log)
          | other => other
          end
      end
  end.

(** Line 46: [.sel(latitude=lat_slice, longitude=lon_slice)] on every
    variable of the merged dataset; [None] when it raises. *)
Fixpoint sel_zone (ds : Dec27.NcDataset) : option Dec27.NcDataset :=
  match ds with
  | [] => Some []
  | (name, a) :: ds' =>
      match sel_lat_lon a lat_slice lon_slice, sel_zone ds' with
      | Some a', Some zone => Some ((name, a') :: zone)
      | _, _ => None
      end
  end.

(** [.sel(time=slice('2025-10-01', '2025-11-30'))] on a series over the
    (increasing) time index; [None]: the series has no time coordinate. *)
Definition sel_bloom (time : option (list Timestamp)) (series : list cell)
  : option (list cell) :=
  match time with
  | None => None
  | Some ts =>
      Some (map snd (filter (fun p => Forecast.in_bloom_window (fst p))
                            (combine ts series)))
  end.

(** [a < b] on two cells: false when either is NaN. *)
Definition cell_lt (a b : cell) : bool :=
  match a, b with
  | Some x, Some y => Qltb x y
  | _, _ => false
  end.

(** The four series of step 2, each with the time coordinate it carries. *)
Record Metrics : Type := mkMetrics {
  npp_time : option (list Timestamp);
  npp_integrated : list cell;
  no3_time : option (list Timestamp);
  no3_surface : list cell;
  no3_deep : list cell;
  o2_deep : list cell
}.

(** Step 4 (lines 95-129): how the report ends and what it prints. *)
Definition report (m : Metrics) : Outcome unit * list Msg :=
  let log := [ReportHeader] in
  match sel_bloom (npp_time m) (npp_integrated m) with
  | None => (Traceback, log)
  | Some bloom_npp =>
      let bloom_prod := nanmean bloom_npp in
      let avg_prod := nanmean (npp_integrated m) in
      match sel_bloom (no3_time m) (no3_surface m) with
      | None => (Traceback, log)
      | Some bloom_surface =>
          let bloom_no3 := nanmean bloom_surface in
          let min_o2 := nanmin (o2_deep m) in
          (Finished tt,
           log ++ [ProductionLine bloom_prod avg_prod;
                   if cell_lt bloom_prod avg_prod
                   then BloomFailureConfirmed else HiddenBloomDetected;
                   NutrientLine bloom_no3;
                   if Dec27.cell_ltb bloom_no3 0.5
                   then NutrientLimitation else NutrientsAvailable;
                   OxygenLine min_o2;
                   match Bio3d.oxygen_safety (o2_deep m) with
                   | Bio3d.HYPOXIC_EVENT => HypoxicEventDetected
                   | Bio3d.SAFE => OxygenSafe
                   end;
                   ReportFooter])
      end
  end.

Section Script.

(** [xr.merge]: the merged dataset, [None] when it raises. *)
Variable merge : list Dec27.NcDataset -> option Dec27.NcDataset.

(** [.sel(depth=d, method='nearest')]: the position of the level nearest to
    [d]; [None] on an empty axis. *)
Variable nearest : list Q -> Q -> option nat.

(** Step 2 (lines 54-62); [None]: an exception, which nothing catches. *)
Definition metrics (ratnagiri : Dec27.NcDataset) : option Metrics :=
  match Dec27.get_variable ratnagiri "nppv" with
  | None => None
  | Some nppv =>
      match sel_depth nppv (mkSlice 0 100) with
      | None => None
      | Some nppv_100 =>
          match Dec27.get_variable ratnagiri "no3" with
          | None => None
          | Some no3 =>
              match nearest (depth no3) 0.49, nearest (depth no3) 100 with
              | Some zs, Some zd =>
                  match Dec27.get_variable ratnagiri "o2" with
                  | None => None
                  | Some o2 =>
                      match nearest (depth o2) 50 with
                      | None => None
                      | Some z =>
                          Some (mkMetrics (time nppv) (sum_then_mean nppv_100)
                                          (time no3)
                                          (Dec27.level_mean no3 zs)
                                          (Dec27.level_mean no3 zd)
                                          (Dec27.level_mean o2 z))
                      end
                  end
              | _, _ => None
              end
          end
      end
  end.

(** The script, the plots left out: how it ends and everything it prints. *)
Definition run (disk : Dec27.Disk) : Outcome Metrics * list Msg :=
  let (opened, log) := open_all disk files in
  let log := [LoadingData] ++ log in
  match opened with
  | Exited status => (Exited status, log)
  | Traceback => (Traceback, log)
  | Finished datasets =>
      match merge datasets with
      | None => (exit_, log ++ [MergeError])
      | Some ds_merged =>
          let log := log ++ [Merged; ExtractingZone] in
          match sel_zone ds_merged with
          | None => (Traceback, log)
          | Some ratnagiri =>
              let log := log ++ [CalculatingMetrics] in
              match metrics ratnagiri with
              | None => (Traceback, log)
              | Some m =>
                  match report m with
                  | (Finished _, log4) => (Finished m, log ++ log4)
                  | (Exited status, log4) => (Exited status, log ++ log4)
                  | (Traceback, log4) => (Traceback, log ++ log4)
                  end
              end
          end
      end
  end.

End Script.

End Bio3dScript.

(* ================================================================== *)
(** * [reding.py]: one reading off one file *)
(* ================================================================== *)

Module Reding.
Import Selection Grid.

(** Line 19: the box of the reading. *)
Definition box : Bounds := mkBounds (mkSlice 17.5 16.5) (mkSlice 72.0 73.0).

(** Lines 19-20: the number that is printed, the mean of the cells of the
    box that hold a value; [None]: [.sel] raised. *)
Definition reading (chlor_a : DataArray) : option cell :=
  match sel_lat_lon chlor_a (lat box) (lon box) with
  | None => None
  | Some subset => Some (nanmean (all_cells subset))
  end.

End Reding.

(* ================================================================== *)
(** * Auxiliary notions the properties are stated with *)
(* ================================================================== *)

Module Aux.
Import Calendar Grid.

(** The path has a directory part. *)
Definition contains_slash (s : string) : bool :=
  existsb (Ascii.eqb "/"%char) (list_ascii_of_string s).

(** The order of two finite binary64 numbers of the same sign, by exponent
    and then by mantissa. *)
Definition magnitude (e : Z) (m : positive) (e' : Z) (m' : positive) : comparison :=
  match (e ?= e')%Z with
  | Eq => Pos.compare_cont Eq m m'
  | c => c
  end.

(** A depth profile that is linear in the depth: [a + b * x] at level [x]. *)
Definition linear_profile (a b : Q) (x : list Q) : list cell :=
  map (fun xi => Some (a + b * xi)%Q) x.

(** No cell holds a value. *)
Definition all_missing (l : list cell) : Prop := Forall (fun c => c = None) l.

(** A cell that is missing or holds zero. *)
Definition zero_or_missing (c : cell) : Prop :=
  match c with
  | None => True
  | Some q => (q == 0)%Q
  end.

End Aux.

(* ================================================================== *)
(** * Scenarios *)
(* ================================================================== *)

(** Concrete disks and grids the properties are run on. *)
Module Scenarios.
Import Calendar FileName Loader Selection Grid.
Local Open Scope string_scope.
Local Open Scope list_scope.

(** The content of a file is irrelevant to loading: one value stands for it. *)
Definition any_concat (l : list unit) : bool := true.

Definition disk_of (paths : list string) : FileSystem unit :=
  mkFileSystem (fun _ => false)
               (fun _ => map (fun p => mkEntry p true (Some tt) false) paths).

(** Nothing matches the pattern. *)
Definition fs_empty : FileSystem unit := disk_of [].

(** Two sensors, one day. *)
Definition fs_same_day : FileSystem unit :=
  disk_of ["Data/TERRA_MODIS.20250919.L3m.DAY.CHL.nc";
           "Data/AQUA_MODIS.20250919.L3m.DAY.CHL.nc"].

(** A file whose name carries no date, among dated ones. *)
Definition fs_stray_file : FileSystem unit :=
  disk_of ["Data/AQUA_MODIS.20250919.L3m.DAY.CHL.nc";
           "Data/notes.nc";
           "Data/AQUA_MODIS.20250920.L3m.DAY.CHL.nc"].

(** Alphabetical order is not chronological order. *)
Definition fs_unordered : FileSystem unit :=
  disk_of ["Data/b_A2025005.nc"; "Data/a_20250301.nc"; "Data/c_20250210.nc"].

(** A latitude axis stored north to south, as the chlorophyll rasters of
    [processing.py] are expected to be, and the same axis south to north. *)
Definition lat_north_to_south : list Q :=
  [20.25; 19.75; 19.25; 18.75; 18.25; 17.75; 17.25; 16.75; 16.25; 15.75]%Q.

Definition lat_south_to_north : list Q := rev lat_north_to_south.

(** A field on five depth levels from 0 to 100 m, two time steps, latitudes
    and longitudes in ascending order around the Ratnagiri zone. *)
Definition field (value : nat -> nat -> nat -> nat -> cell) : DataArray :=
  mkDataArray (Some [mkTimestamp 2025 10 5; mkTimestamp 2025 10 12])
              [0; 25; 50; 75; 100]%Q
              [16.25; 16.75; 17.25; 17.75]%Q
              [71.75; 72.25; 72.75; 73.25; 73.75]%Q
              value.

Definition uniform_field (v : Q) : DataArray := field (fun _ _ _ _ => Some v).

(** Nothing but land. *)
Definition land_field : DataArray := field (fun _ _ _ _ => None).


(** A disk for [dec27_code.py]: production is uniform, oxygen too. *)
Definition disk_uniform : Dec27.Disk :=
  fun fname =>
    if String.eqb fname Dec27.file_prod
    then Dec27.Readable [("nppv", uniform_field 2.5); ("o2", uniform_field 200)]
    else if String.eqb fname Dec27.file_nut
    then Dec27.Readable [("no3", uniform_field 3)]
    else Dec27.Absent.

(** The position lies in the Ratnagiri zone of [dec27_code.py] on the grid
    of [field]: rows 16.75 and 17.25, columns 72.25 to 73.25. *)
Definition in_zone (i j : nat) : bool :=
  (1 <=? i)%nat && (i <=? 2)%nat && (1 <=? j)%nat && (j <=? 3)%nat.

(** A field that holds [inside] in the zone and [outside] around it. *)
Definition zone_field (inside outside : cell) : DataArray :=
  field (fun _ _ i j => if in_zone i j then inside else outside).

(** Land in the zone, open sea around it. *)
Definition coast_field : DataArray := zone_field None (Some 4%Q).

(** A disk whose production file has values around the zone only. *)
Definition disk_coast : Dec27.Disk :=
  fun fname =>
    if String.eqb fname Dec27.file_prod
    then Dec27.Readable [("nppv", coast_field); ("o2", coast_field)]
    else if String.eqb fname Dec27.file_nut
    then Dec27.Readable [("no3", uniform_field 3)]
    else Dec27.Absent.


(** The first level at the least distance from [d]. *)
Fixpoint nearest_from (axis : list Q) (d : Q) (i : nat) (best : nat * Q) : nat :=
  match axis with
  | [] => fst best
  | x :: axis' =>
      let dist := Qabs (x - d) in
      nearest_from axis' d (S i)
                   (if Qle_bool (snd best) dist then best else (i, dist))
  end.

Definition nearest_level (axis : list Q) (d : Q) : option nat :=
  match axis with
  | [] => None
  | x :: axis' => Some (nearest_from axis' d 1 (O, Qabs (x - d)))
  end.

(** A weekly chlorophyll field with nothing but missing cells. *)
Definition weekly_land : DataArray :=
  mkDataArray (Some [mkTimestamp 2025 10 5; mkTimestamp 2025 10 12])
              [0]%Q lat_north_to_south [71.75; 72.25; 72.75; 73.25]%Q
              (fun _ _ _ _ => None).

(** A weekly chlorophyll field that is land in the Ratnagiri zone of
    [processing.py] (rows 17.25 and 16.75, columns 72.25 to 73.25) and open
    sea around it. *)
Definition weekly_coast : DataArray :=
  mkDataArray (Some [mkTimestamp 2025 10 5; mkTimestamp 2025 10 12])
              [0]%Q lat_north_to_south [71.75; 72.25; 72.75; 73.25]%Q
              (fun _ _ i j =>
                 if (6 <=? i)%nat && (i <=? 7)%nat && (1 <=? j)%nat
                 then None else Some 2%Q).

End Scenarios.

(** Further disks and grids. *)
Module MoreScenarios.
Import Calendar FileName Loader Selection Grid Scenarios.
Local Open Scope string_scope.
Local Open Scope list_scope.

(** Files whose names carry no date. *)
Definition fs_undated : FileSystem unit :=
  disk_of ["Data/notes.nc"; "Data/readme.nc"].

(** A field on one level only, with a value in every cell. *)
Definition surface_only_field (v : Q) : DataArray :=
  mkDataArray (Some [mkTimestamp 2025 10 5; mkTimestamp 2025 10 12])
              [0.5]%Q [16.75; 17.25]%Q [72.25; 72.75]%Q
              (fun _ _ _ _ => Some v).

(** Levels that are not evenly spaced. *)
Definition uneven_levels : list Q := [0.5; 10; 50; 90]%Q.

(** A field that grows linearly with the depth: [2 + depth / 10]. *)
Definition linear_field : DataArray :=
  mkDataArray (Some [mkTimestamp 2025 10 5])
              uneven_levels [16.75; 17.25]%Q [72.25; 72.75]%Q
              (fun _ z _ _ => Some (2 + (1 # 10) * nth z uneven_levels 0)%Q).

(** A field whose third level (50 m) and the ones below hold no value: the
    seabed of the zone is above 50 m. *)
Definition shelf_field (v : Q) : DataArray :=
  field (fun _ z _ _ => if (z <? 2)%nat then Some v else None).

(** The grid of [field], stored north to south. *)
Definition field_north_to_south (v : Q) : DataArray :=
  mkDataArray (Some [mkTimestamp 2025 10 5; mkTimestamp 2025 10 12])
              [0; 25; 50; 75; 100]%Q
              [17.75; 17.25; 16.75; 16.25]%Q
              [71.75; 72.25; 72.75; 73.25; 73.75]%Q
              (fun _ _ _ _ => Some v).

(** Disks for [dec27_code.py] and [bio_3d.py]. *)
Definition disk_with (prod nut bio : Dec27.NcDataset) : Dec27.Disk :=
  fun fname =>
    if String.eqb fname Dec27.file_prod then Dec27.Readable prod
    else if String.eqb fname Dec27.file_nut then Dec27.Readable nut
    else if String.eqb fname Dec27.file_bio then Dec27.Readable bio
    else Dec27.Absent.

(** Every variable holds values, every file is stored north to south. *)
Definition disk_north_to_south : Dec27.Disk :=
  disk_with [("nppv", field_north_to_south 2.5); ("o2", field_north_to_south 200)]
            [("no3", field_north_to_south 3)]
            [("chl", field_north_to_south 1.5)].

(** Production is zero everywhere, chlorophyll is not. *)
Definition disk_zero_production : Dec27.Disk :=
  disk_with [("nppv", uniform_field 0); ("o2", uniform_field 200)]
            [("no3", uniform_field 3)]
            [("chl", uniform_field 1.5)].

(** The three files cover nothing but land. *)
Definition disk_all_land : Dec27.Disk :=
  disk_with [("nppv", land_field); ("o2", land_field)]
            [("no3", land_field)]
            [("chl", land_field)].

(** The nitrate file is not there. *)
Definition disk_without_nitrate : Dec27.Disk :=
  fun fname =>
    if String.eqb fname Dec27.file_nut then Dec27.Absent
    else disk_all_land fname.

(** A merge that puts the variables of the files side by side. *)
Definition merge_all (datasets : list Dec27.NcDataset) : option Dec27.NcDataset :=
  Some (List.concat datasets).

(** A name occurs twice. *)
Fixpoint has_duplicate (names : list string) : bool :=
  match names with
  | [] => false
  | x :: names' => existsb (String.eqb x) names' || has_duplicate names'
  end.

(** A merge that refuses two variables of one name, as [xr.merge] does when
    the values of the two differ. *)
Definition merge_distinct (datasets : list Dec27.NcDataset) : option Dec27.NcDataset :=
  if has_duplicate (map fst (List.concat datasets)) then None
  else Some (List.concat datasets).

(** Chlorophyll is held by two files, with different values. *)
Definition disk_conflict : Dec27.Disk :=
  disk_with [("nppv", uniform_field 2.5); ("o2", uniform_field 200);
             ("chl", uniform_field 9)]
            [("no3", uniform_field 3)]
            [("chl", uniform_field 1.5)].


(** A file whose latitude axis is not sorted; the two bounds of the zone are
    among its labels. *)
Definition field_unsorted (v : Q) : DataArray :=
  mkDataArray (Some [mkTimestamp 2025 10 5])
              [0; 25]%Q
              [16.5; 18; 17.5; 17]%Q
              [72.25; 72.75]%Q
              (fun _ _ _ _ => Some v).

Definition disk_unsorted : Dec27.Disk :=
  disk_with [("nppv", field_unsorted 2.5)] [] [].

(** What [.sel] keeps of [field value] for the Ratnagiri zone of
    [dec27_code.py]: rows 16.75 and 17.25, columns 72.25 to 73.25. *)
Definition zone_of_field (value : nat -> nat -> nat -> nat -> cell) : DataArray :=
  mkDataArray (Some [mkTimestamp 2025 10 5; mkTimestamp 2025 10 12])
              [0; 25; 50; 75; 100]%Q
              [16.75; 17.25]%Q
              [72.25; 72.75; 73.25]%Q
              (fun t z i j => value t z (1 + i)%nat (1 + j)%nat).

(** Four files whose order by path is not their order by date, two dates;
    the content of each file is its tag. *)
Definition fs_interleaved : FileSystem string :=
  mkFileSystem (fun _ => false)
    (fun _ => [mkEntry "Data/a_20250920.nc" true (Some "a") false;
               mkEntry "Data/b_20250919.nc" true (Some "b") false;
               mkEntry "Data/c_20250920.nc" true (Some "c") false;
               mkEntry "Data/d_20250919.nc" true (Some "d") false]).

(** A file with a flux variable ahead of the nitrate variable. *)
Definition nitrate_file : Dec27.NcDataset :=
  [("no3_flux", uniform_field 9); ("no3", uniform_field 3)].


(** One day of chlorophyll around the box of [reding.py], stored north to
    south: 1 in the northern row of the box, 3 in the southern one, 50 in
    the rows outside. *)
Definition chlorophyll_day : DataArray :=
  mkDataArray None [0]%Q
              [17.75; 17.25; 16.75; 16.25]%Q [71.75; 72.25; 72.75; 73.25]%Q
              (fun _ _ i _ => match i with
                              | 1%nat => Some 1%Q
                              | 2%nat => Some 3%Q
                              | _ => Some 50%Q
                              end).

(** The same day stored south to north. *)
Definition chlorophyll_day_south_to_north : DataArray :=
  mkDataArray None [0]%Q
              [16.25; 16.75; 17.25; 17.75]%Q [71.75; 72.25; 72.75; 73.25]%Q
              (fun _ _ i _ => match i with
                              | 1%nat => Some 3%Q
                              | 2%nat => Some 1%Q
                              | _ => Some 50%Q
                              end).

(** A weekly chlorophyll field with a value in every cell, stored north to
    south. *)
Definition weekly_uniform (v : Q) : DataArray :=
  mkDataArray (Some [mkTimestamp 2025 10 5; mkTimestamp 2025 10 12])
              [0]%Q lat_north_to_south [71.75; 72.25; 72.75; 73.25]%Q
              (fun _ _ _ _ => Some v).

End MoreScenarios.

(* ================================================================== *)
(** * Properties *)
(* ================================================================== *)

(** Goals about what a run printed: every line of a log, a line in a log. *)
Ltac split_log :=
  repeat (rewrite Forall_app || apply conj || apply Forall_cons || apply Forall_nil).

Ltac in_log :=
  repeat (rewrite in_app_iff || cbn [In app]); intuition auto.

(** ** Comparison of binary64 numbers *)

Section FloatOrder.
Local Open Scope float_scope.

Lemma SFcompare_antisym (f1 f2 : spec_float) :
  SFcompare f2 f1 = option_map CompOpp (SFcompare f1 f2).
Proof.
  destruct f1 as [s1| s1 | | s1 m1 e1], f2 as [s2 | s2 | | s2 m2 e2]; simpl;
    try reflexivity;
    try (destruct s1; reflexivity);
    try (destruct s2; reflexivity);
    try (destruct s1, s2; reflexivity).
  destruct s1, s2; simpl; try reflexivity;
    rewrite (Z.compare_antisym e1 e2);
    destruct (e1 ?= e2)%Z; simpl; try reflexivity.
  - rewrite CompOpp_involutive.
    change PosDef.Pos.compare_cont with Pos.compare_cont.
    rewrite Pos.compare_cont_antisym. reflexivity.
  - change PosDef.Pos.compare_cont with Pos.compare_cont.
    rewrite Pos.compare_cont_antisym. reflexivity.
Qed.

(** Two numbers are comparable unless one of them is NaN. *)
Lemma SFcompare_defined (f1 f2 : spec_float) :
  f1 <> S754_nan -> f2 <> S754_nan -> SFcompare f1 f2 <> None.
Proof.
  destruct f1, f2; simpl; intros H1 H2; congruence.
Qed.

Lemma SFltb_not_nan (f1 f2 : spec_float) : SFltb f1 f2 = true -> f1 <> S754_nan.
Proof.
  unfold SFltb. destruct f1; simpl; congruence.
Qed.

Lemma leb_true_ltb_false (x y : float) : (x <=? y) = true -> (y <? x) = false.
Proof.
  rewrite FloatAxioms.leb_spec, FloatAxioms.ltb_spec. unfold SFleb, SFltb.
  rewrite (SFcompare_antisym (Prim2SF x) (Prim2SF y)).
  destruct (SFcompare (Prim2SF x) (Prim2SF y)) as [[]|]; simpl; congruence.
Qed.

(** A number below some bound is below, or not below, any number [c]. *)
Lemma ltb_false_leb_true (x y c : float) :
  Prim2SF c <> S754_nan ->
  (x <? y) = true -> (x <? c) = false -> (c <=? x) = true.
Proof.
  intros Hc. rewrite FloatAxioms.leb_spec, !FloatAxioms.ltb_spec.
  intros Hxy. apply SFltb_not_nan in Hxy.
  unfold SFleb, SFltb.
  rewrite (SFcompare_antisym (Prim2SF x) (Prim2SF c)).
  pose proof (SFcompare_defined _ _ Hxy Hc) as Hd.
  destruct (SFcompare (Prim2SF x) (Prim2SF c)) as [[]|]; simpl; congruence.
Qed.

End FloatOrder.

(** ** The forecast of [output.py] *)

Section ForecastFacts.
Import Calendar Forecast Bloom.
Local Open Scope float_scope.

Lemma bloom_period_nil (ts : Series) :
  Forall (fun p => in_bloom_window (fst p) = false) ts -> bloom_period ts = [].
Proof.
  induction 1 as [|p ts Hp _ IH]; simpl.
  - reflexivity.
  - rewrite Hp. exact IH.
Qed.

(** C5.  The forecast's status bands: an anomaly below -50 is CRITICAL,
    one in [-50, -20) is STRESSED, anything else (NaN included) is STABLE,
    so the most severe band wins.  In [dec27_code.py] a bloom anomaly of
    +25 % is a STRONG BLOOM and one of -60 % a BLOOM FAILURE; in the forecast
    -60 % is CRITICAL and a PPI anomaly of +25 % gives a growth forecast. *)
Theorem C5_threshold_bands : forall a : float,
  ((a <? -50) = true -> status a = CRITICAL)
  /\ ((-50 <=? a) = true -> (a <? -20) = true -> status a = STRESSED)
  /\ ((a <? -50) = false -> ((-50 <=? a) && (a <? -20)) = false -> status a = STABLE)
  /\ bloom_status 25 = STRONG_BLOOM
  /\ bloom_status (-60) = BLOOM_FAILURE
  /\ status (-60) = CRITICAL
  /\ forecast_str (yield_gap_percent 0.25) = Growth 4.
Proof.
  intros a. unfold status. repeat split; try reflexivity.
  - intros H. rewrite H. reflexivity.
  - intros H1 H2. rewrite H2. apply leb_true_ltb_false in H1. rewrite H1. reflexivity.
  - intros H1 H2. rewrite H1.
    destruct (a <? -20) eqn:H3; [|reflexivity].
    rewrite andb_true_r in H2.
    assert (Hc : Prim2SF (-50) <> S754_nan) by (vm_compute; discriminate).
    rewrite (ltb_false_leb_true a (-20) (-50) Hc H3 H1) in H2. discriminate.
Qed.

Lemma C5_threshold_bands_witness :
  status (-60) = CRITICAL /\ status (-50) = STRESSED /\ status (-35) = STRESSED
  /\ status (-20) = STABLE /\ status 25 = STABLE /\ status nan = STABLE.
Proof.
  refine (conj _ (conj _ (conj _ (conj _ (conj _ _))))).
  - exact (proj1 (C5_threshold_bands (-60)) eq_refl).
  - exact (proj1 (proj2 (C5_threshold_bands (-50))) eq_refl eq_refl).
  - exact (proj1 (proj2 (C5_threshold_bands (-35))) eq_refl eq_refl).
  - exact (proj1 (proj2 (proj2 (C5_threshold_bands (-20)))) eq_refl eq_refl).
  - exact (proj1 (proj2 (proj2 (C5_threshold_bands 25))) eq_refl eq_refl).
  - exact (proj1 (proj2 (proj2 (C5_threshold_bands nan))) eq_refl eq_refl).
Defined.

(** C9.  The yield-gap forecast is [a * 0.8 * 100] when that product is not
    positive, and the product dampened by 0.2 when it is positive. *)
Theorem C9_yield_gap_forecast : forall a : float,
  let product := a * TROPHIC_SENSITIVITY * 100 in
  TROPHIC_SENSITIVITY = 0.8
  /\ ((product <=? 0) = true -> yield_gap_percent a = product)
  /\ ((0 <? product) = true -> yield_gap_percent a = product * 0.2).
Proof.
  intros a product. unfold yield_gap_percent. fold product. repeat split.
  - intros H. rewrite (leb_true_ltb_false _ _ H). reflexivity.
  - intros H. rewrite H. reflexivity.
Qed.

Lemma C9_yield_gap_forecast_witness :
  yield_gap_percent (-0.5) = -40 /\ yield_gap_percent 0.25 = 4
  /\ yield_gap_percent 0 = 0.
Proof.
  refine (conj _ (conj _ _)).
  - exact (proj1 (proj2 (C9_yield_gap_forecast (-0.5))) eq_refl).
  - exact (proj2 (proj2 (C9_yield_gap_forecast 0.25)) eq_refl).
  - exact (proj1 (proj2 (C9_yield_gap_forecast 0)) eq_refl).
Defined.

(** C10.  A zone whose weekly series has no time step inside the bloom
    window gets the observed value 0.0, hence a PPI anomaly of exactly
    -100 %, the status CRITICAL and a forecast of -80.0 % decline. *)
Theorem C10_empty_bloom_window :
  forall (mean : list float -> float) (zone_name : string) (ts : Series),
  Forall (fun p => in_bloom_window (fst p) = false) ts ->
  predict mean zone_name ts = mkRow zone_name 0 (-100) (-80)
  /\ status (PPI_Anomaly (predict mean zone_name ts)) = CRITICAL
  /\ forecast_str (Yield_Forecast (predict mean zone_name ts)) = Decline (-80)
  /\ report_row (predict mean zone_name ts)
     = ReportRow zone_name 0 (-100) CRITICAL (Decline (-80)).
Proof.
  intros mean zone_name ts Hts.
  assert (E : predict mean zone_name ts = mkRow zone_name 0 (-100) (-80)).
  { unfold predict, avg_observed_chl. rewrite (bloom_period_nil ts Hts). reflexivity. }
  rewrite E. repeat split; reflexivity.
Qed.

(** A January-only series has nothing in the window. *)
Lemma C10_empty_bloom_window_witness :
  let ts := [(mkTimestamp 2025 1 5, 3.0); (mkTimestamp 2025 1 12, 2.5)] in
  predict (fun _ => 1.0) "Mumbai" ts = mkRow "Mumbai" 0 (-100) (-80)
  /\ status (PPI_Anomaly (predict (fun _ => 1.0) "Mumbai" ts)) = CRITICAL
  /\ forecast_str (Yield_Forecast (predict (fun _ => 1.0) "Mumbai" ts)) = Decline (-80)
  /\ report_row (predict (fun _ => 1.0) "Mumbai" ts)
     = ReportRow "Mumbai" 0 (-100) CRITICAL (Decline (-80)).
Proof.
  apply (C10_empty_bloom_window (fun _ => 1.0) "Mumbai").
  repeat constructor.
Defined.

End ForecastFacts.

(** ** Dates and file names *)

Section DateFacts.
Import Calendar FileName.
Local Open Scope Z_scope.

Lemma ts_compare_eq (a b : Timestamp) : ts_compare a b = Eq -> a = b.
Proof.
  destruct a as [ya ma da], b as [yb mb db]. unfold ts_compare. simpl.
  destruct (ya ?= yb) eqn:Hy; try discriminate.
  destruct (ma ?= mb) eqn:Hm; try discriminate.
  intros Hd. apply Z.compare_eq in Hy, Hm, Hd. congruence.
Qed.

Lemma ts_compare_antisym (a b : Timestamp) :
  ts_compare b a = CompOpp (ts_compare a b).
Proof.
  unfold ts_compare.
  rewrite (Z.compare_antisym (year a) (year b)).
  rewrite (Z.compare_antisym (month a) (month b)).
  rewrite (Z.compare_antisym (day a) (day b)).
  destruct (year a ?= year b); simpl; try reflexivity.
  destruct (month a ?= month b); simpl; reflexivity.
Qed.

Lemma ts_leb_total (a b : Timestamp) : ts_leb a b = false -> ts_leb b a = true.
Proof.
  unfold ts_leb. rewrite (ts_compare_antisym a b).
  destruct (ts_compare a b); simpl; congruence.
Qed.

Lemma ts_leb_neq_ltb (a b : Timestamp) :
  ts_leb a b = true -> a <> b -> ts_ltb a b = true.
Proof.
  unfold ts_leb, ts_ltb. intros H Hne.
  destruct (ts_compare a b) eqn:E; try reflexivity; try discriminate.
  elim Hne. apply ts_compare_eq. exact E.
Qed.

Lemma ts_ltb_leb (a b : Timestamp) : ts_ltb a b = true -> ts_leb a b = true.
Proof.
  unfold ts_leb, ts_ltb. destruct (ts_compare a b); congruence.
Qed.

Lemma yday_roundtrip_all :
  forallb yday_roundtrip (map Z.of_nat (seq 1 365)) = true.
Proof. vm_compute. reflexivity. Qed.

Lemma date_of_yday_2025 (j : Z) :
  1 <= j <= 365 ->
  let t := date_of_yday 2025 j in
  year t = 2025 /\ day_of_year t = j /\ valid_date (year t) (month t) (day t) = true.
Proof.
  intros Hj t.
  assert (Hin : In j (map Z.of_nat (seq 1 365))).
  { replace j with (Z.of_nat (Z.to_nat j)) by lia.
    apply in_map, in_seq. lia. }
  pose proof (proj1 (forallb_forall _ _) yday_roundtrip_all j Hin) as H.
  unfold yday_roundtrip in H. fold t in H.
  apply andb_prop in H. destruct H as [H Hv].
  apply andb_prop in H. destruct H as [Hy Hd].
  apply Z.eqb_eq in Hy, Hd. auto.
Qed.

(** What a match of a pattern looks like. *)
Lemma match_here_length (p : list atom) :
  forall s m, match_here p s = Some m -> String.length m = List.length p.
Proof.
  induction p as [|a p IH]; intros s m; simpl.
  - intros H. inversion H. reflexivity.
  - destruct s as [|c s]; try discriminate.
    destruct (atom_matches a c); try discriminate.
    destruct (match_here p s) as [m'|] eqn:E; try discriminate.
    intros H. inversion H. simpl. f_equal. eapply IH. exact E.
Qed.

Lemma match_here_atoms (p : list atom) :
  forall s m, match_here p s = Some m ->
  Forall2 (fun a c => atom_matches a c = true) p (list_ascii_of_string m).
Proof.
  induction p as [|a p IH]; intros s m; simpl.
  - intros H. inversion H. constructor.
  - destruct s as [|c s]; try discriminate.
    destruct (atom_matches a c) eqn:Ha; try discriminate.
    destruct (match_here p s) as [m'|] eqn:E; try discriminate.
    intros H. inversion H. simpl. constructor; [exact Ha | eapply IH; exact E].
Qed.

Lemma re_search_atoms (p : list atom) :
  forall s m, re_search p s = Some m ->
  Forall2 (fun a c => atom_matches a c = true) p (list_ascii_of_string m).
Proof.
  induction s as [|c s IH]; intros m; simpl.
  - destruct (match_here p EmptyString) eqn:E; try discriminate.
    intros H. inversion H. subst. eapply match_here_atoms. exact E.
  - destruct (match_here p (String c s)) eqn:E.
    + intros H. inversion H. subst. eapply match_here_atoms. exact E.
    + apply IH.
Qed.

Lemma digit_val_range (c : ascii) : is_digit c = true -> 0 <= digit_val c <= 9.
Proof.
  unfold is_digit, digit_val. intros H.
  apply andb_prop in H. destruct H as [H1 H2].
  apply Nat.leb_le in H1, H2. lia.
Qed.

Lemma list_ascii_inj (s : string) (l : list ascii) :
  list_ascii_of_string s = l -> s = string_of_list_ascii l.
Proof.
  intros <-. symmetry. apply string_of_list_ascii_of_string.
Qed.

(** A match of the first pattern is the text 2025 and four digits. *)
Lemma re_search_ymd_shape (s m : string) :
  re_search pat_ymd s = Some m ->
  exists a b c d,
    m = String "2" (String "0" (String "2" (String "5"
          (String a (String b (String c (String d EmptyString)))))))
    /\ is_digit a = true /\ is_digit b = true
    /\ is_digit c = true /\ is_digit d = true.
Proof.
  intros H. apply re_search_atoms in H. unfold pat_ymd, lit2025 in H. simpl in H.
  remember (list_ascii_of_string m) as l eqn:El. symmetry in El.
  apply list_ascii_inj in El.
  repeat match goal with
         | H : Forall2 _ (_ :: _) _ |- _ => inversion H; clear H; subst
         | H : Forall2 _ [] _ |- _ => inversion H; clear H; subst
         end.
  repeat match goal with
         | H : atom_matches (Chr _) _ = true |- _ =>
             unfold atom_matches in H; apply Ascii.eqb_eq in H; subst
         end.
  unfold atom_matches in *. simpl. eauto 10.
Qed.

(** A match of the second pattern is the text 2025 and three digits. *)
Lemma re_search_julian_shape (s m : string) :
  re_search pat_julian s = Some m ->
  exists a b c,
    m = String "2" (String "0" (String "2" (String "5"
          (String a (String b (String c EmptyString))))))
    /\ is_digit a = true /\ is_digit b = true /\ is_digit c = true.
Proof.
  intros H. apply re_search_atoms in H. unfold pat_julian, lit2025 in H. simpl in H.
  remember (list_ascii_of_string m) as l eqn:El. symmetry in El.
  apply list_ascii_inj in El.
  repeat match goal with
         | H : Forall2 _ (_ :: _) _ |- _ => inversion H; clear H; subst
         | H : Forall2 _ [] _ |- _ => inversion H; clear H; subst
         end.
  repeat match goal with
         | H : atom_matches (Chr _) _ = true |- _ =>
             unfold atom_matches in H; apply Ascii.eqb_eq in H; subst
         end.
  unfold atom_matches in *. simpl. eauto 10.
Qed.

End DateFacts.

(** ** Loading and assembly *)

Section LoaderFacts.
Import Calendar FileName Loader Scenarios.
Local Open Scope string_scope.
Local Open Scope list_scope.

Lemma recover_ymd_priority (filename s : string) :
  re_search pat_ymd filename = Some s ->
  recover_timestamp filename =
    match to_datetime_Ymd s with
    | Some t => Recovered t
    | None => DateError
    end.
Proof.
  intros H. unfold recover_timestamp. rewrite H. reflexivity.
Qed.

Lemma recover_ymd_exact (filename s : string) :
  re_search pat_ymd filename = Some s ->
  let m := int_of_digits (substring 4 2 s) in
  let d := int_of_digits (substring 6 2 s) in
  valid_date 2025 m d = true ->
  recover_timestamp filename = Recovered (mkTimestamp 2025 m d).
Proof.
  intros H m d Hv. rewrite (recover_ymd_priority _ _ H).
  destruct (re_search_ymd_shape _ _ H) as (a & b & c & e & -> & Ha & Hb & Hc & He).
  unfold to_datetime_Ymd.
  change (String.length _) with 8%nat.
  replace (all_digits _) with true
    by (simpl; rewrite Ha, Hb, Hc, He; reflexivity).
  simpl andb. cbv iota.
  change (int_of_digits (substring 0 4 _)) with 2025%Z.
  fold m d. rewrite Hv. reflexivity.
Qed.

Lemma recover_julian_exact (filename s : string) :
  re_search pat_ymd filename = None ->
  re_search pat_julian filename = Some s ->
  let j := int_of_digits (substring 4 3 s) in
  (1 <= j <= 365)%Z ->
  exists t, recover_timestamp filename = Recovered t
            /\ year t = 2025%Z /\ day_of_year t = j
            /\ valid_date (year t) (month t) (day t) = true.
Proof.
  intros H1 H2 j Hj. unfold recover_timestamp. rewrite H1, H2.
  destruct (re_search_julian_shape _ _ H2) as (a & b & c & -> & Ha & Hb & Hc).
  change (int_of_digits (substring 0 4 _)) with 2025%Z.
  fold j.
  unfold to_datetime_Yj.
  assert (Hq : ((2025 * 1000 + j) / 1000 = 2025)%Z)
    by (symmetry; apply Z.div_unique with j; lia).
  assert (Hr : ((2025 * 1000 + j) mod 1000 = j)%Z)
    by (symmetry; apply Z.mod_unique with 2025%Z; lia).
  rewrite Hq, Hr.
  replace ((1000 <=? 2025)%Z && (2025 <=? 9999)%Z && (1 <=? j)%Z && (j <=? 366)%Z)
    with true.
  - exists (date_of_yday 2025 j). split; [reflexivity|].
    apply date_of_yday_2025. exact Hj.
  - symmetry. simpl.
    apply andb_true_intro; split; [apply Z.leb_le | apply Z.leb_le]; lia.
Qed.

Lemma recover_neither (filename : string) :
  re_search pat_ymd filename = None ->
  re_search pat_julian filename = None ->
  recover_timestamp filename = NoDate.
Proof.
  intros H1 H2. unfold recover_timestamp. rewrite H1, H2. reflexivity.
Qed.

(** Names on which the first pattern takes digits that were meant for the
    second: a day of year followed by a time of day is no month and day, and
    the file is skipped as an error; the two day numbers of a composite can
    read as a month and a day. *)
Example julian_name_with_time_of_day :
  re_search pat_julian "A2025262034500.L2_LAC_OC.nc" = Some "2025262"
  /\ recover_timestamp "A2025262034500.L2_LAC_OC.nc" = DateError.
Proof. split; reflexivity. Qed.

Example composite_name_read_as_month_and_day :
  re_search pat_julian "A20251212025128.L3m_8D_CHL.nc" = Some "2025121"
  /\ recover_timestamp "A20251212025128.L3m_8D_CHL.nc"
     = Recovered (mkTimestamp 2025 12 12).
Proof. split; reflexivity. Qed.

Section Loops.
Variable Grid : Type.

(** The two loaders keep the same datasets; only what they print differs. *)
Lemma load_one_processing_fst (d : Dataset Grid) (log : list Msg) (e : Entry Grid) :
  fst (load_one_processing (d, log) e) = load_one_output d e.
Proof.
  unfold load_one_processing, load_one_output.
  destruct (content e); [destruct (recover_timestamp _)|];
    try destruct (has_time_dim e); reflexivity.
Qed.

Lemma load_loop_fst (files : list (Entry Grid)) :
  forall d log,
  fst (fold_left load_one_processing files (d, log)) = fold_left load_one_output files d.
Proof.
  induction files as [|e files IH]; intros d log; cbn [fold_left].
  - reflexivity.
  - rewrite <- (load_one_processing_fst d log e).
    destruct (load_one_processing (d, log) e) as [d' log']. apply IH.
Qed.

Lemma load_loop_processing_datasets (files : list (Entry Grid)) (log : list Msg) :
  fst (load_loop_processing files log) = load_loop_output files.
Proof. apply load_loop_fst. Qed.

(** The log only grows. *)
Lemma load_loop_log_grows (files : list (Entry Grid)) :
  forall d log, exists more,
  snd (fold_left load_one_processing files (d, log)) = log ++ more.
Proof.
  induction files as [|e files IH]; intros d log; cbn [fold_left].
  - exists []. rewrite app_nil_r. reflexivity.
  - assert (H : exists d' more', load_one_processing (d, log) e = (d', log ++ more')).
    { unfold load_one_processing.
      destruct (content e); [destruct (recover_timestamp _)|];
        try destruct (has_time_dim e); eauto.
      exists (d ++ [(t, g)]), []. rewrite app_nil_r. reflexivity. }
    destruct H as (d' & more' & ->).
    destruct (IH d' (log ++ more')) as (more & ->).
    exists (more' ++ more). rewrite app_assoc. reflexivity.
Qed.

(** A file that opens and whose name carries no date changes nothing in the
    datasets; [processing.py] prints its warning, [output.py] nothing. *)
Lemma undated_file_skipped (e : Entry Grid) (g : Grid) :
  content e = Some g ->
  recover_timestamp (basename (path e)) = NoDate ->
  forall pre post log,
  load_loop_output (pre ++ e :: post) = load_loop_output (pre ++ post)
  /\ fst (load_loop_processing (pre ++ e :: post) log)
     = fst (load_loop_processing (pre ++ post) log)
  /\ In (WarnNoDate (basename (path e)))
        (snd (load_loop_processing (pre ++ e :: post) log)).
Proof.
  intros Hc Hr pre post log.
  assert (E : load_loop_output (pre ++ e :: post) = load_loop_output (pre ++ post)).
  { unfold load_loop_output. rewrite !fold_left_app. cbn [fold_left].
    unfold load_one_output at 2. rewrite Hc, Hr. reflexivity. }
  split; [exact E|]. split.
  - rewrite !load_loop_processing_datasets. exact E.
  - unfold load_loop_processing. rewrite fold_left_app. cbn [fold_left].
    destruct (fold_left load_one_processing pre ([], log)) as [d1 log1].
    unfold load_one_processing at 2. rewrite Hc, Hr.
    destruct (load_loop_log_grows post d1 (log1 ++ [WarnNoDate (basename (path e))]))
      as (more & ->).
    apply in_or_app. left. apply in_or_app. right. left. reflexivity.
Qed.

End Loops.

End LoaderFacts.

(** ** Sorting *)

Section SortFacts.
Import Loader.
Variable A : Type.
Variable leb : A -> A -> bool.
Hypothesis leb_total : forall a b, leb a b = false -> leb b a = true.

Let le (a b : A) : Prop := leb a b = true.

Lemma insert_by_perm (x : A) (l : list A) : Permutation (x :: l) (insert_by leb x l).
Proof.
  induction l as [|y l IH]; simpl.
  - apply Permutation_refl.
  - destruct (leb x y).
    + apply Permutation_refl.
    + eapply perm_trans; [apply perm_swap|]. apply perm_skip. exact IH.
Qed.

Lemma sort_by_perm (l : list A) : Permutation l (sort_by leb l).
Proof.
  induction l as [|x l IH]; simpl.
  - apply perm_nil.
  - eapply perm_trans; [apply perm_skip; exact IH|]. apply insert_by_perm.
Qed.

Lemma insert_by_hdrel (a x : A) (l : list A) :
  le a x -> HdRel le a l -> HdRel le a (insert_by leb x l).
Proof.
  intros Hax Hl. destruct l as [|y l]; simpl.
  - constructor. exact Hax.
  - destruct (leb x y); constructor.
    + exact Hax.
    + inversion Hl. assumption.
Qed.

Lemma insert_by_sorted (x : A) (l : list A) :
  Sorted le l -> Sorted le (insert_by leb x l).
Proof.
  induction 1 as [|y l Hs IH Hhd]; simpl.
  - repeat constructor.
  - destruct (leb x y) eqn:E.
    + constructor; [constructor; assumption | constructor; exact E].
    + constructor; [exact IH|].
      apply insert_by_hdrel; [apply leb_total; exact E | exact Hhd].
Qed.

Lemma sort_by_sorted (l : list A) : Sorted le (sort_by leb l).
Proof.
  induction l as [|x l IH]; simpl.
  - constructor.
  - apply insert_by_sorted. exact IH.
Qed.

End SortFacts.

Section AssemblyFacts.
Import Calendar FileName Loader Scenarios.

Lemma ts_ltb_trans (a b c : Timestamp) :
  ts_ltb a b = true -> ts_ltb b c = true -> ts_ltb a c = true.
Proof.
  destruct a as [ya ma da], b as [yb mb db], c as [yc mc dc].
  unfold ts_ltb, ts_compare. simpl.
  destruct (Z.compare_spec ya yb), (Z.compare_spec yb yc),
           (Z.compare_spec ma mb), (Z.compare_spec mb mc),
           (Z.compare_spec da db), (Z.compare_spec db dc);
    try discriminate; intros _ _;
    destruct (Z.compare_spec ya yc), (Z.compare_spec ma mc), (Z.compare_spec da dc);
    try reflexivity; exfalso; lia.
Qed.

Lemma ts_ltb_irrefl (a : Timestamp) : ts_ltb a a = false.
Proof.
  unfold ts_ltb, ts_compare. rewrite !Z.compare_refl. reflexivity.
Qed.

Lemma strictly_increasing_nodup (l : list Timestamp) :
  strictly_increasing l -> NoDup l.
Proof.
  intros H. apply Sorted_StronglySorted in H.
  - induction H as [|a l Hs IH Hall]; constructor; [|exact IH].
    intros Hin. rewrite Forall_forall in Hall.
    specialize (Hall a Hin). rewrite ts_ltb_irrefl in Hall. discriminate.
  - intros a b c. apply ts_ltb_trans.
Qed.

Lemma nondecreasing_nodup (l : list Timestamp) :
  nondecreasing l -> NoDup l -> strictly_increasing l.
Proof.
  induction 1 as [|a l Hs IH Hhd]; intros Hnd.
  - constructor.
  - inversion Hnd as [|? ? Hnotin Hnd']; subst.
    constructor; [apply IH; exact Hnd'|].
    destruct Hhd as [|b l Hab]; constructor.
    apply ts_leb_neq_ltb; [exact Hab|].
    intros ->. apply Hnotin. left. reflexivity.
Qed.

Section Assembly.
Variable Grid : Type.
Variable concat_accepts : list Grid -> bool.

Lemma sortby_time_nondecreasing (d : Dataset Grid) :
  nondecreasing (time_index (sortby_time d)).
Proof.
  unfold nondecreasing, time_index, sortby_time.
  assert (H : Sorted (fun a b => time_leb Grid a b = true) (sort_by (time_leb Grid) d)).
  { apply sort_by_sorted. intros a b. unfold time_leb. apply ts_leb_total. }
  induction H as [|a l Hs IH Hhd]; simpl.
  - constructor.
  - constructor; [exact IH|].
    destruct Hhd as [|b l Hab]; simpl; constructor. exact Hab.
Qed.

Lemma sortby_time_perm (d : Dataset Grid) : Permutation d (sortby_time d).
Proof. apply sort_by_perm. Qed.

Lemma concat_some (d ds : Dataset Grid) :
  concat Grid concat_accepts d = Some ds -> ds = d /\ d <> [].
Proof.
  unfold concat. destruct d as [|x d]; [discriminate|].
  destruct (concat_accepts _); [|discriminate].
  intros H. inversion H. split; [reflexivity | discriminate].
Qed.

(** A loader that finishes hands over the loaded datasets, sorted by time. *)
Lemma finished_processing (fs : FileSystem Grid) (ds : Dataset Grid) (log : list Msg) :
  load_and_merge_processing Grid concat_accepts fs = (Finished ds, log) ->
  ds = sortby_time (load_loop_output (file_list fs data_folder_processing)).
Proof.
  unfold load_and_merge_processing.
  destruct (file_list fs data_folder_processing) as [|e files] eqn:Ef; [discriminate|].
  match goal with
  | |- context [load_loop_processing ?fl ?l] =>
      pose proof (load_loop_processing_datasets Grid fl l) as Hd;
      destruct (load_loop_processing fl l) as [d log1]
  end.
  simpl in Hd.
  destruct d as [|x d]; [discriminate|].
  destruct (concat Grid concat_accepts (x :: d)) as [ds'|] eqn:Ec; [|discriminate].
  apply concat_some in Ec. destruct Ec as [-> _].
  intros H. inversion H. rewrite <- Hd. reflexivity.
Qed.

Lemma finished_output (fs : FileSystem Grid) (ds : Dataset Grid) (log : list Msg) :
  load_and_merge_output Grid concat_accepts fs = (Finished ds, log) ->
  ds = sortby_time (load_loop_output (file_list fs data_folder_output)).
Proof.
  unfold load_and_merge_output.
  destruct (file_list fs data_folder_output) as [|e files] eqn:Ef; [discriminate|].
  destruct (concat Grid concat_accepts _) as [ds'|] eqn:Ec; [|discriminate].
  apply concat_some in Ec. destruct Ec as [-> _].
  intros H. inversion H. reflexivity.
Qed.

End Assembly.

End AssemblyFacts.

(** ** File discovery, date recovery, assembly: the claims *)

Section LoaderClaims.
Import Calendar FileName Loader Scenarios.
Local Open Scope string_scope.
Local Open Scope list_scope.

(** The refutation of C1 as stated: with nothing on disk both scripts stop,
    and the exit status is 0, not a nonzero one. *)
Lemma C1_counterexample_status_zero :
  file_list fs_empty data_folder_processing = []
  /\ load_and_merge_processing unit any_concat fs_empty
     = (Exited 0, [LoadingFiles; ErrNoNcFiles "Data/*.nc"; TipCheckPath])
  /\ exit_status (fst (load_and_merge_processing unit any_concat fs_empty)) = 0%Z
  /\ file_list fs_empty data_folder_output = []
  /\ exit_status (fst (load_and_merge_output unit any_concat fs_empty)) = 0%Z.
Proof. repeat split. Qed.

(** C1 (amended).  When the resolved file list is empty, each script prints
    its error message and calls [exit()] before anything is loaded or
    assembled, and nothing else is printed: [processing.py] prints the
    pattern that matched nothing and a tip, [output.py] prints that no files
    were found.  The exit status is 0 in both. *)
Theorem C1_empty_file_list_exits :
  forall (Grid : Type) (concat_accepts : list Grid -> bool)
         (resample_weekly : Dataset Grid -> option Grid.DataArray)
         (Weekly : Type) (resample_output : Dataset Grid -> option Weekly)
         (zone_series : Weekly -> Selection.Bounds -> option Forecast.Series)
         (mean : list float -> float)
         (fs : FileSystem Grid),
  (file_list fs data_folder_processing = [] ->
   let log := [LoadingFiles]
              ++ (if isdir fs data_folder_processing
                  then [NoteDirectory data_folder_processing] else [])
              ++ [ErrNoNcFiles (resolve_pattern fs data_folder_processing);
                  TipCheckPath] in
   load_and_merge_processing Grid concat_accepts fs = (Exited 0, log)
   /\ Processing.run Grid concat_accepts resample_weekly fs
      = (Exited 0, map Processing.Loading log))
  /\ (file_list fs data_folder_output = [] ->
      let log := [LoadingSatellite; ErrNoFilesFound] in
      load_and_merge_output Grid concat_accepts fs = (Exited 0, log)
      /\ Forecast.run Grid concat_accepts Weekly resample_output zone_series mean fs
         = (Exited 0, map Forecast.Loading log)).
Proof.
  intros Grid concat_accepts resample_weekly Weekly resample_output zone_series
         mean fs.
  split.
  - intros H log.
    assert (E : load_and_merge_processing Grid concat_accepts fs = (Exited 0, log)).
    { unfold load_and_merge_processing. rewrite H. subst log.
      destruct (isdir fs data_folder_processing); reflexivity. }
    split; [exact E|].
    unfold Processing.run. rewrite E. reflexivity.
  - intros H log.
    assert (E : load_and_merge_output Grid concat_accepts fs = (Exited 0, log)).
    { unfold load_and_merge_output. rewrite H. reflexivity. }
    split; [exact E|].
    unfold Forecast.run. rewrite E. reflexivity.
Qed.

Lemma C1_empty_file_list_exits_witness :
  load_and_merge_processing unit any_concat fs_empty
  = (Exited 0, [LoadingFiles; ErrNoNcFiles "Data/*.nc"; TipCheckPath])
  /\ load_and_merge_output unit any_concat fs_empty
     = (Exited 0, [LoadingSatellite; ErrNoFilesFound]).
Proof.
  pose proof (C1_empty_file_list_exits unit any_concat (fun _ => None)
                unit (fun _ => None) (fun _ _ => None) (fun _ => 0%float)
                fs_empty) as [Hp Ho].
  split.
  - exact (proj1 (Hp eq_refl)).
  - exact (proj1 (Ho eq_refl)).
Defined.

(** The refutation of C2 as stated: [output.py] skips a file whose name
    carries no date without printing anything; the run goes on with the
    other files. *)
Lemma C2_counterexample_silent_skip :
  recover_timestamp (basename "Data/notes.nc") = NoDate
  /\ load_and_merge_output unit any_concat fs_stray_file
     = (Finished [(mkTimestamp 2025 9 19, tt); (mkTimestamp 2025 9 20, tt)],
        [LoadingSatellite])
  /\ In (WarnNoDate "notes.nc")
        (snd (load_and_merge_processing unit any_concat fs_stray_file)).
Proof.
  split; [reflexivity|]. split; [reflexivity|].
  vm_compute. right. right. left. reflexivity.
Qed.

(** C2 (amended).  The eight-digit pattern is tried first and decides alone
    when it matches; the seven-digit pattern is read only when the first
    matches nowhere.  When the digits read are a date of 2025 the recovered
    timestamp is exactly that date.  A file that opens and whose name matches
    neither pattern is left out and the loop goes on with the other files;
    [processing.py] prints a warning naming it, [output.py] prints nothing. *)
Theorem C2_date_recovery :
  forall filename : string,
  (forall s, re_search pat_ymd filename = Some s ->
     recover_timestamp filename =
       match to_datetime_Ymd s with
       | Some t => Recovered t
       | None => DateError
       end)
  /\ (forall s, re_search pat_ymd filename = Some s ->
        let m := int_of_digits (substring 4 2 s) in
        let d := int_of_digits (substring 6 2 s) in
        valid_date 2025 m d = true ->
        recover_timestamp filename = Recovered (mkTimestamp 2025 m d))
  /\ (forall s, re_search pat_ymd filename = None ->
        re_search pat_julian filename = Some s ->
        let j := int_of_digits (substring 4 3 s) in
        (1 <= j <= 365)%Z ->
        exists t, recover_timestamp filename = Recovered t
                  /\ year t = 2025%Z /\ day_of_year t = j
                  /\ valid_date (year t) (month t) (day t) = true)
  /\ (re_search pat_ymd filename = None ->
      re_search pat_julian filename = None ->
      recover_timestamp filename = NoDate
      /\ forall (Grid : Type) (e : Entry Grid) (g : Grid) pre post log,
           basename (path e) = filename ->
           content e = Some g ->
           load_loop_output (pre ++ e :: post) = load_loop_output (pre ++ post)
           /\ fst (load_loop_processing (pre ++ e :: post) log)
              = fst (load_loop_processing (pre ++ post) log)
           /\ In (WarnNoDate filename)
                 (snd (load_loop_processing (pre ++ e :: post) log))).
Proof.
  intros filename. split; [|split; [|split]].
  - intros s H. apply recover_ymd_priority. exact H.
  - intros s H m d Hv. apply recover_ymd_exact; assumption.
  - intros s H1 H2 j Hj. apply recover_julian_exact; assumption.
  - intros H1 H2. split; [apply recover_neither; assumption|].
    intros Grid e g pre post log Hn Hc. subst filename.
    apply (undated_file_skipped Grid e g Hc).
    apply recover_neither; assumption.
Qed.

Lemma C2_date_recovery_witness :
  recover_timestamp "AQUA_MODIS.20250919.L3m.DAY.CHL.x_chlor_a.nc"
  = Recovered (mkTimestamp 2025 9 19)
  /\ (exists t, recover_timestamp "A2025262.L3m_DAY_CHL_chlor_a_4km.nc" = Recovered t
                /\ year t = 2025%Z /\ day_of_year t = 262%Z
                /\ valid_date (year t) (month t) (day t) = true)
  /\ recover_timestamp "notes.nc" = NoDate.
Proof.
  split; [|split].
  - exact (proj1 (proj2 (C2_date_recovery "AQUA_MODIS.20250919.L3m.DAY.CHL.x_chlor_a.nc"))
             "20250919" eq_refl eq_refl).
  - refine (proj1 (proj2 (proj2 (C2_date_recovery "A2025262.L3m_DAY_CHL_chlor_a_4km.nc")))
              "2025262" eq_refl eq_refl _).
    change (1 <= 262 <= 365)%Z. lia.
  - exact (proj1 (proj2 (proj2 (proj2 (C2_date_recovery "notes.nc"))) eq_refl eq_refl)).
Defined.

(** The refutation of C4 as stated: two files of the same day give a time
    index that holds that day twice, which is not strictly increasing. *)
Lemma C4_counterexample_same_day :
  exists ds log,
    load_and_merge_processing unit any_concat fs_same_day = (Finished ds, log)
    /\ time_index ds = [mkTimestamp 2025 9 19; mkTimestamp 2025 9 19]
    /\ ~ strictly_increasing (time_index ds).
Proof.
  eexists. eexists. split; [reflexivity|]. split; [reflexivity|].
  simpl. intros H. inversion H as [|? ? _ Hhd]; subst.
  inversion Hhd as [|? ? Hlt]; subst. discriminate Hlt.
Qed.

(** C4 (amended).  Whatever order the files come in, the time index of the
    assembled dataset is in chronological order, each step not before the
    one it follows, and the sort neither drops nor adds a time step; the
    index is strictly increasing exactly when no date occurs twice.  [ds] is
    bound once: the dataset a script holds when it ends is the assembled
    one. *)
Theorem C4_time_index_sorted :
  forall (Grid : Type) (concat_accepts : list Grid -> bool)
         (resample_weekly : Dataset Grid -> option Grid.DataArray)
         (Weekly : Type) (resample_output : Dataset Grid -> option Weekly)
         (zone_series : Weekly -> Selection.Bounds -> option Forecast.Series)
         (mean : list float -> float)
         (fs : FileSystem Grid),
  (forall ds log,
     load_and_merge_processing Grid concat_accepts fs = (Finished ds, log) ->
     Permutation (load_loop_output (file_list fs data_folder_processing)) ds
     /\ nondecreasing (time_index ds)
     /\ (NoDup (time_index ds) <-> strictly_increasing (time_index ds)))
  /\ (forall ds log,
        load_and_merge_output Grid concat_accepts fs = (Finished ds, log) ->
        Permutation (load_loop_output (file_list fs data_folder_output)) ds
        /\ nondecreasing (time_index ds)
        /\ (NoDup (time_index ds) <-> strictly_increasing (time_index ds)))
  /\ (forall final log,
        Processing.run Grid concat_accepts resample_weekly fs = (Finished final, log) ->
        exists log1,
          load_and_merge_processing Grid concat_accepts fs
          = (Finished (Processing.ds Grid final), log1))
  /\ (forall final log,
        Forecast.run Grid concat_accepts Weekly resample_output zone_series mean fs
        = (Finished final, log) ->
        exists log1,
          load_and_merge_output Grid concat_accepts fs
          = (Finished (Forecast.ds Grid final), log1)).
Proof.
  intros Grid concat_accepts resample_weekly Weekly resample_output zone_series
         mean fs.
  assert (Hsorted : forall d : Dataset Grid,
            Permutation d (sortby_time d)
            /\ nondecreasing (time_index (sortby_time d))
            /\ (NoDup (time_index (sortby_time d))
                <-> strictly_increasing (time_index (sortby_time d)))).
  { intros d. split; [apply sortby_time_perm|].
    pose proof (sortby_time_nondecreasing Grid d) as Hs.
    split; [exact Hs|]. split.
    - apply nondecreasing_nodup. exact Hs.
    - apply strictly_increasing_nodup. }
  split; [|split; [|split]].
  - intros ds log H. apply finished_processing in H. subst ds. apply Hsorted.
  - intros ds log H. apply finished_output in H. subst ds. apply Hsorted.
  - intros final log. unfold Processing.run.
    destruct (load_and_merge_processing Grid concat_accepts fs) as [[ds| |] log1];
      try discriminate.
    destruct (resample_weekly ds); try discriminate.
    destruct (Processing.extract_zones _ _); try discriminate.
    intros H. inversion H. simpl. eauto.
  - intros final log. unfold Forecast.run.
    destruct (load_and_merge_output Grid concat_accepts fs) as [[ds| |] log1];
      try discriminate.
    destruct (resample_output ds); try discriminate.
    destruct (Forecast.predict_zones _ _ _ _ _); try discriminate.
    intros H. inversion H. simpl. eauto.
Qed.

Lemma C4_time_index_sorted_witness :
  exists ds log,
    load_and_merge_processing unit any_concat fs_unordered = (Finished ds, log)
    /\ time_index ds
       = [mkTimestamp 2025 1 5; mkTimestamp 2025 2 10; mkTimestamp 2025 3 1]
    /\ nondecreasing (time_index ds)
    /\ (NoDup (time_index ds) <-> strictly_increasing (time_index ds)).
Proof.
  eexists. eexists. split; [reflexivity|]. split; [reflexivity|].
  refine (proj2 (proj1 (C4_time_index_sorted unit any_concat (fun _ => None)
                          unit (fun _ => None) (fun _ _ => None)
                          (fun _ => 0%float) fs_unordered) _ _ _)).
  reflexivity.
Defined.

End LoaderClaims.

(** ** Label-based selection *)

Section SelectionFacts.
Import Selection.
Local Open Scope Q_scope.

Lemma Qltb_lt (x y : Q) : Qltb x y = true <-> x < y.
Proof.
  unfold Qltb. rewrite negb_true_iff. split.
  - intros H. destruct (Qlt_le_dec x y) as [Hlt|Hle]; [exact Hlt|].
    apply Qle_bool_iff in Hle. congruence.
  - intros H. destruct (Qle_bool y x) eqn:E; [|reflexivity].
    apply Qle_bool_iff in E. lra.
Qed.

Lemma Qle_bool_false (x y : Q) : Qle_bool x y = false <-> y < x.
Proof.
  rewrite <- Qltb_lt. unfold Qltb. rewrite negb_true_iff. reflexivity.
Qed.

Lemma count_rev (f : Q -> bool) (l : list Q) : count f (rev l) = count f l.
Proof.
  assert (Happ : forall l1 l2, count f (l1 ++ l2) = (count f l1 + count f l2)%nat).
  { induction l1 as [|x l1 IH]; intros l2; simpl; [reflexivity|].
    rewrite IH. destruct (f x); reflexivity. }
  induction l as [|x l IH]; simpl; [reflexivity|].
  rewrite Happ, IH. simpl. destruct (f x); lia.
Qed.

Lemma count_compl (f : Q -> bool) (l : list Q) :
  (List.length l - count f l)%nat = count (fun x => negb (f x)) l.
Proof.
  assert (H : (count f l + count (fun x => negb (f x)) l)%nat = List.length l).
  { induction l as [|x l IH]; simpl; [reflexivity|]. destruct (f x); simpl; lia. }
  lia.
Qed.

Lemma count_ext (f g : Q -> bool) (l : list Q) :
  (forall x, f x = g x) -> count f l = count g l.
Proof.
  intros H. induction l as [|x l IH]; simpl; [reflexivity|].
  rewrite H, IH. reflexivity.
Qed.

Lemma count_le (f g : Q -> bool) (l : list Q) :
  (forall x, f x = true -> g x = true) -> (count f l <= count g l)%nat.
Proof.
  intros H. induction l as [|x l IH]; simpl; [lia|].
  destruct (f x) eqn:E.
  - rewrite (H x E). lia.
  - destruct (g x); lia.
Qed.

Lemma count_none (f : Q -> bool) (l : list Q) :
  Forall (fun x => f x = false) l -> count f l = O.
Proof.
  induction 1 as [|x l Hx _ IH]; simpl; [reflexivity|]. rewrite Hx. exact IH.
Qed.

Lemma py_slice_empty {A : Type} (i j : nat) (a : list A) :
  (j <= i)%nat -> py_slice i j a = [].
Proof.
  intros H. unfold py_slice. replace (j - i)%nat with O by lia. reflexivity.
Qed.

(** Cutting a list between two such prefixes keeps what is in the second
    prefix and not in the first. *)
Lemma slice_between_prefixes (p q : Q -> bool) (l : list Q) :
  (forall x, p x = true -> q x = true) ->
  prefix_closed p l -> prefix_closed q l ->
  py_slice (count p l) (count q l) l = filter (fun x => negb (p x) && q x) l.
Proof.
  intros Hpq. induction l as [|x l IH]; intros Hp Hq.
  - reflexivity.
  - destruct Hp as [Hpx Hp], Hq as [Hqx Hq]. specialize (IH Hp Hq).
    simpl. destruct (p x) eqn:Ep.
    + rewrite (Hpq x Ep). simpl. exact IH.
    + specialize (Hpx eq_refl). rewrite (count_none p l Hpx) in *.
      destruct (q x) eqn:Eq; simpl.
      * unfold py_slice in *. simpl in *. rewrite Nat.sub_0_r in IH.
        rewrite IH. reflexivity.
      * specialize (Hqx eq_refl). rewrite (count_none q l Hqx) in *.
        rewrite <- IH. reflexivity.
Qed.

Lemma decreasing_tail (x : Q) (l : list Q) :
  is_monotonic_decreasing (x :: l) = true ->
  Forall (fun y => y <= x) l /\ is_monotonic_decreasing l = true.
Proof.
  revert x. induction l as [|y l IH]; intros x H.
  - split; [constructor | reflexivity].
  - change (Qle_bool y x && is_monotonic_decreasing (y :: l) = true) in H.
    apply andb_prop in H. destruct H as [Hyx Hl].
    apply Qle_bool_iff in Hyx. split; [|exact Hl].
    constructor; [exact Hyx|].
    destruct (IH y Hl) as [Hall _].
    eapply Forall_impl; [|exact Hall]. simpl. intros z Hz. lra.
Qed.

Lemma increasing_tail (x : Q) (l : list Q) :
  is_monotonic_increasing (x :: l) = true ->
  Forall (fun y => x <= y) l /\ is_monotonic_increasing l = true.
Proof.
  revert x. induction l as [|y l IH]; intros x H.
  - split; [constructor | reflexivity].
  - change (Qle_bool x y && is_monotonic_increasing (y :: l) = true) in H.
    apply andb_prop in H. destruct H as [Hxy Hl].
    apply Qle_bool_iff in Hxy. split; [|exact Hl].
    constructor; [exact Hxy|].
    destruct (IH y Hl) as [Hall _].
    eapply Forall_impl; [|exact Hall]. simpl. intros z Hz. lra.
Qed.

(** On a descending axis, being above a bound is prefix-closed. *)
Lemma decreasing_prefix_gt (a : Q) (l : list Q) :
  is_monotonic_decreasing l = true -> prefix_closed (fun x => Qltb a x) l.
Proof.
  induction l as [|x l IH]; intros H; simpl; [exact I|].
  destruct (decreasing_tail x l H) as [Hall Hl]. split; [|apply IH; exact Hl].
  intros Hx. eapply Forall_impl; [|exact Hall]. simpl. intros y Hy.
  destruct (Qltb a y) eqn:E; [|reflexivity].
  apply Qltb_lt in E.
  assert (a < x) by lra. apply Qltb_lt in H0. congruence.
Qed.

Lemma decreasing_prefix_ge (b : Q) (l : list Q) :
  is_monotonic_decreasing l = true -> prefix_closed (fun x => Qle_bool b x) l.
Proof.
  induction l as [|x l IH]; intros H; simpl; [exact I|].
  destruct (decreasing_tail x l H) as [Hall Hl]. split; [|apply IH; exact Hl].
  intros Hx. apply Qle_bool_false in Hx.
  eapply Forall_impl; [|exact Hall]. simpl. intros y Hy.
  apply Qle_bool_false. lra.
Qed.

Lemma increasing_prefix_lt (a : Q) (l : list Q) :
  is_monotonic_increasing l = true -> prefix_closed (fun x => Qltb x a) l.
Proof.
  induction l as [|x l IH]; intros H; simpl; [exact I|].
  destruct (increasing_tail x l H) as [Hall Hl]. split; [|apply IH; exact Hl].
  intros Hx. eapply Forall_impl; [|exact Hall]. simpl. intros y Hy.
  destruct (Qltb y a) eqn:E; [|reflexivity].
  apply Qltb_lt in E.
  assert (x < a) by lra. apply Qltb_lt in H0. congruence.
Qed.

Lemma increasing_prefix_le (b : Q) (l : list Q) :
  is_monotonic_increasing l = true -> prefix_closed (fun x => Qle_bool x b) l.
Proof.
  induction l as [|x l IH]; intros H; simpl; [exact I|].
  destruct (increasing_tail x l H) as [Hall Hl]. split; [|apply IH; exact Hl].
  intros Hx. apply Qle_bool_false in Hx.
  eapply Forall_impl; [|exact Hall]. simpl. intros y Hy.
  apply Qle_bool_false. lra.
Qed.

(** Where a label occurs on a monotonic axis, its positions follow one
    another, so that looking the label up first gives the same bound as the
    monotonic search. *)
Lemma consecutive_seq (a n : nat) : consecutive a (seq (S a) n) = true.
Proof.
  revert a. induction n as [|n IH]; intros a; simpl; [reflexivity|].
  rewrite Nat.eqb_refl. apply IH.
Qed.

Lemma last_seq (a n : nat) : last (seq (S a) n) a = (a + n)%nat.
Proof.
  revert a. induction n as [|n IH]; intros a; [simpl; lia|].
  change (seq (S a) (S n)) with (S a :: seq (S (S a)) n).
  transitivity (last (seq (S (S a)) n) (S a)); [|rewrite IH; lia].
  destruct (seq (S (S a)) n) as [|y l] eqn:E; [reflexivity|].
  cbn [last]. clear. revert y. induction l as [|z l IHl]; intros y; [reflexivity|].
  cbn [last]. apply IHl.
Qed.

Lemma Qltb_false (x y : Q) : Qltb x y = false <-> y <= x.
Proof.
  unfold Qltb. rewrite negb_false_iff. apply Qle_bool_iff.
Qed.

Lemma Qeq_bool_false (x y : Q) : Qeq_bool x y = false <-> ~ x == y.
Proof.
  split; [apply Qeq_bool_neq|].
  intros H. destruct (Qeq_bool x y) eqn:E; [|reflexivity].
  apply Qeq_bool_iff in E. contradiction.
Qed.

Lemma count_le_split (label : Q) (l : list Q) :
  count (fun x => Qle_bool x label) l
  = (count (fun x => Qltb x label) l + count (fun x => Qeq_bool x label) l)%nat.
Proof.
  induction l as [|x l IH]; simpl; [reflexivity|]. rewrite IH.
  destruct (Qle_bool x label) eqn:Ele, (Qltb x label) eqn:Elt,
           (Qeq_bool x label) eqn:Eeq; try lia; exfalso;
    rewrite ?Qle_bool_iff, ?Qle_bool_false, ?Qltb_lt, ?Qltb_false,
            ?Qeq_bool_iff, ?Qeq_bool_false in *;
    try lra; apply Eeq; lra.
Qed.

Lemma count_ge_split (label : Q) (l : list Q) :
  count (fun x => Qle_bool label x) l
  = (count (fun x => Qltb label x) l + count (fun x => Qeq_bool x label) l)%nat.
Proof.
  induction l as [|x l IH]; simpl; [reflexivity|]. rewrite IH.
  destruct (Qle_bool label x) eqn:Ele, (Qltb label x) eqn:Elt,
           (Qeq_bool x label) eqn:Eeq; try lia; exfalso;
    rewrite ?Qle_bool_iff, ?Qle_bool_false, ?Qltb_lt, ?Qltb_false,
            ?Qeq_bool_iff, ?Qeq_bool_false in *;
    try lra; apply Eeq; lra.
Qed.

Lemma get_loc_from_increasing (k : nat) (idx : list Q) (label : Q) :
  is_monotonic_increasing idx = true ->
  get_loc_from k idx label
  = seq (k + count (fun x => Qltb x label) idx) (count (fun x => Qeq_bool x label) idx).
Proof.
  revert k. induction idx as [|x l IH]; intros k H; [reflexivity|].
  destruct (increasing_tail x l H) as [Hall Hl]. cbn [get_loc_from count].
  rewrite (IH (S k) Hl).
  destruct (Qeq_bool x label) eqn:Eeq.
  - apply Qeq_bool_iff in Eeq.
    assert (Elt : Qltb x label = false) by (apply Qltb_false; lra).
    rewrite Elt.
    rewrite (count_none (fun y => Qltb y label) l).
    + cbn [seq]. rewrite !Nat.add_0_r. reflexivity.
    + eapply Forall_impl; [|exact Hall]. cbn beta. intros y Hy. apply Qltb_false. lra.
  - apply Qeq_bool_false in Eeq. destruct (Qltb x label) eqn:Elt.
    + rewrite Nat.add_succ_r. reflexivity.
    + apply Qltb_false in Elt.
      assert (Hgt : label < x).
      { destruct (Qlt_le_dec label x) as [Hlt|Hle]; [exact Hlt|].
        exfalso. apply Eeq. lra. }
      rewrite (count_none (fun y => Qltb y label) l),
              (count_none (fun y => Qeq_bool y label) l).
      * reflexivity.
      * eapply Forall_impl; [|exact Hall]. cbn beta. intros y Hy.
        destruct (Qeq_bool y label) eqn:E; [|reflexivity].
        apply Qeq_bool_iff in E. lra.
      * eapply Forall_impl; [|exact Hall]. cbn beta. intros y Hy.
        apply Qltb_false. lra.
Qed.

Lemma get_loc_from_decreasing (k : nat) (idx : list Q) (label : Q) :
  is_monotonic_decreasing idx = true ->
  get_loc_from k idx label
  = seq (k + count (fun x => Qltb label x) idx) (count (fun x => Qeq_bool x label) idx).
Proof.
  revert k. induction idx as [|x l IH]; intros k H; [reflexivity|].
  destruct (decreasing_tail x l H) as [Hall Hl]. cbn [get_loc_from count].
  rewrite (IH (S k) Hl).
  destruct (Qeq_bool x label) eqn:Eeq.
  - apply Qeq_bool_iff in Eeq.
    assert (Elt : Qltb label x = false) by (apply Qltb_false; lra).
    rewrite Elt.
    rewrite (count_none (fun y => Qltb label y) l).
    + cbn [seq]. rewrite !Nat.add_0_r. reflexivity.
    + eapply Forall_impl; [|exact Hall]. cbn beta. intros y Hy. apply Qltb_false. lra.
  - apply Qeq_bool_false in Eeq. destruct (Qltb label x) eqn:Elt.
    + rewrite Nat.add_succ_r. reflexivity.
    + apply Qltb_false in Elt.
      assert (Hgt : x < label).
      { destruct (Qlt_le_dec x label) as [Hlt|Hle]; [exact Hlt|].
        exfalso. apply Eeq. lra. }
      rewrite (count_none (fun y => Qltb label y) l),
              (count_none (fun y => Qeq_bool y label) l).
      * reflexivity.
      * eapply Forall_impl; [|exact Hall]. cbn beta. intros y Hy.
        destruct (Qeq_bool y label) eqn:E; [|reflexivity].
        apply Qeq_bool_iff in E. lra.
      * eapply Forall_impl; [|exact Hall]. cbn beta. intros y Hy.
        apply Qltb_false. lra.
Qed.

Lemma get_slice_bound_increasing (idx : list Q) (label : Q) (s : side) :
  is_monotonic_increasing idx = true ->
  get_slice_bound idx label s = Some (searchsorted idx label s).
Proof.
  intros H. unfold get_slice_bound, get_loc.
  rewrite (get_loc_from_increasing 0 idx label H). cbn [Nat.add].
  destruct (count (fun x => Qeq_bool x label) idx) as [|n] eqn:E.
  - cbn [seq]. unfold searchsorted_monotonic. rewrite H. reflexivity.
  - cbn [seq]. rewrite consecutive_seq, last_seq. f_equal.
    destruct s; cbn [searchsorted]; [reflexivity|].
    rewrite count_le_split, E. lia.
Qed.

Lemma get_slice_bound_decreasing (idx : list Q) (label : Q) (s : side) :
  is_monotonic_increasing idx = false ->
  is_monotonic_decreasing idx = true ->
  get_slice_bound idx label s
  = Some (match s with
          | Left => count (fun x => Qltb label x) idx
          | Right => count (fun x => Qle_bool label x) idx
          end).
Proof.
  intros H1 H2. unfold get_slice_bound, get_loc.
  rewrite (get_loc_from_decreasing 0 idx label H2). cbn [Nat.add].
  destruct (count (fun x => Qeq_bool x label) idx) as [|n] eqn:E.
  - cbn [seq]. unfold searchsorted_monotonic. rewrite H1, H2.
    destruct s; cbn [flip searchsorted]; rewrite count_rev, count_compl;
      f_equal; apply count_ext; intros x; unfold Qltb;
      rewrite ?negb_involutive; reflexivity.
  - cbn [seq]. rewrite consecutive_seq, last_seq. f_equal.
    destruct s; [reflexivity|].
    rewrite count_ge_split, E. lia.
Qed.

(** The positions [slice_locs] computes, by orientation of the axis. *)
Lemma slice_locs_increasing (idx : list Q) (a b : Q) :
  is_monotonic_increasing idx = true ->
  slice_locs idx a b
  = Some (count (fun x => Qltb x a) idx, count (fun x => Qle_bool x b) idx).
Proof.
  intros H. unfold slice_locs. rewrite !(get_slice_bound_increasing _ _ _ H).
  reflexivity.
Qed.

Lemma slice_locs_decreasing (idx : list Q) (a b : Q) :
  is_monotonic_increasing idx = false ->
  is_monotonic_decreasing idx = true ->
  slice_locs idx a b
  = Some (count (fun x => Qltb a x) idx, count (fun x => Qle_bool b x) idx).
Proof.
  intros H1 H2. unfold slice_locs. rewrite !(get_slice_bound_decreasing _ _ _ H1 H2).
  reflexivity.
Qed.

Lemma within_ordered (b : LabelSlice) (x : Q) :
  start b <= stop b ->
  within b x = negb (Qltb x (start b)) && Qle_bool x (stop b).
Proof.
  intros H. unfold within, Qltb. rewrite negb_involutive.
  rewrite (Qleb_comp _ _ (Q.min_l _ _ H) x x (Qeq_refl x)).
  rewrite (Qleb_comp x x (Qeq_refl x) _ _ (Q.max_r _ _ H)).
  reflexivity.
Qed.

Lemma within_reversed (b : LabelSlice) (x : Q) :
  stop b <= start b ->
  within b x = negb (Qltb (start b) x) && Qle_bool (stop b) x.
Proof.
  intros H. unfold within, Qltb. rewrite negb_involutive.
  rewrite (Qleb_comp _ _ (Q.min_r _ _ H) x x (Qeq_refl x)).
  rewrite (Qleb_comp x x (Qeq_refl x) _ _ (Q.max_l _ _ H)).
  apply andb_comm.
Qed.

Lemma sel_slice_increasing (idx : list Q) (b : LabelSlice) :
  is_monotonic_increasing idx = true ->
  (start b <= stop b ->
   sel_slice idx (start b) (stop b) = Some (filter (within b) idx))
  /\ (stop b < start b -> sel_slice idx (start b) (stop b) = Some []).
Proof.
  intros H. unfold sel_slice. rewrite (slice_locs_increasing _ _ _ H). split.
  - intros Hb. f_equal.
    rewrite slice_between_prefixes.
    + apply filter_ext. intros x. symmetry. apply within_ordered. exact Hb.
    + intros x Hx. apply Qltb_lt in Hx. apply Qle_bool_iff. lra.
    + apply increasing_prefix_lt. exact H.
    + apply increasing_prefix_le. exact H.
  - intros Hb. f_equal. apply py_slice_empty. apply count_le.
    intros x Hx. apply Qle_bool_iff in Hx. apply Qltb_lt. lra.
Qed.

Lemma sel_slice_decreasing (idx : list Q) (b : LabelSlice) :
  is_monotonic_increasing idx = false ->
  is_monotonic_decreasing idx = true ->
  (stop b <= start b ->
   sel_slice idx (start b) (stop b) = Some (filter (within b) idx))
  /\ (start b < stop b -> sel_slice idx (start b) (stop b) = Some []).
Proof.
  intros H1 H2. unfold sel_slice. rewrite (slice_locs_decreasing _ _ _ H1 H2). split.
  - intros Hb. f_equal.
    rewrite slice_between_prefixes.
    + apply filter_ext. intros x. symmetry. apply within_reversed. exact Hb.
    + intros x Hx. apply Qltb_lt in Hx. apply Qle_bool_iff. lra.
    + apply decreasing_prefix_gt. exact H2.
    + apply decreasing_prefix_ge. exact H2.
  - intros Hb. f_equal. apply py_slice_empty. apply count_le.
    intros x Hx. apply Qle_bool_iff in Hx. apply Qltb_lt. lra.
Qed.

End SelectionFacts.

Section SelectionClaims.
Import Selection Grid Scenarios.
Local Open Scope Q_scope.

(** The refutation of C3 as stated: the Mumbai bounds of [processing.py] on
    a latitude axis stored south to north, and the bounds of
    [dec27_code.py] on one stored north to south, select nothing although
    the grid has rows inside the bounds; no error is raised. *)
Lemma C3_counterexample_reversed_bounds :
  (exists bounds, In ("Mumbai"%string, bounds) zones
     /\ existsb (within (lat bounds)) lat_south_to_north = true
     /\ sel_slice lat_south_to_north (start (lat bounds)) (stop (lat bounds)) = Some [])
  /\ existsb (within lat_slice) lat_north_to_south = true
  /\ sel_slice lat_north_to_south (start lat_slice) (stop lat_slice) = Some [].
Proof.
  split; [|split; reflexivity].
  eexists. split; [left; reflexivity|]. split; reflexivity.
Qed.

Lemma sel_lat_lon_axes (a : DataArray) (lat_s lon_s : LabelSlice) (lats lons : list Q) :
  sel_slice (latitude a) (start lat_s) (stop lat_s) = Some lats ->
  sel_slice (longitude a) (start lon_s) (stop lon_s) = Some lons ->
  exists a', sel_lat_lon a lat_s lon_s = Some a'
             /\ latitude a' = lats /\ longitude a' = lons.
Proof.
  unfold sel_slice, sel_lat_lon.
  destruct (slice_locs (latitude a) _ _) as [[i0 i1]|]; [|discriminate].
  destruct (slice_locs (longitude a) _ _) as [[j0 j1]|]; [|discriminate].
  intros H1 H2. inversion H1. inversion H2. eexists. repeat split.
Qed.

Lemma zones_orientation (name : string) (b : Bounds) :
  In (name, b) zones ->
  stop (lat b) < start (lat b) /\ start (lon b) < stop (lon b).
Proof.
  intros [H|[H|[H|[]]]]; inversion H; split; reflexivity.
Qed.

(** C3 (amended).  Selection follows the orientation of the coordinate
    axis.  With the bounds given in the order of the axis the selection is
    exactly the coordinates that lie within them; with the bounds given the
    other way round it is empty, without an error.  The zones of
    [processing.py] and [output.py] give latitudes north to south and
    longitudes west to east: on a grid stored north to south they select the
    rows within the bounds, on a grid stored south to north they select no
    row.  [dec27_code.py] and [bio_3d.py] give both bounds in ascending
    order, with the opposite outcome. *)
Theorem C3_selection_follows_axis :
  forall (axis : list Q) (b : LabelSlice),
  (is_monotonic_increasing axis = true ->
     (start b <= stop b ->
      sel_slice axis (start b) (stop b) = Some (filter (within b) axis))
     /\ (stop b < start b -> sel_slice axis (start b) (stop b) = Some []))
  /\ (is_monotonic_increasing axis = false ->
      is_monotonic_decreasing axis = true ->
      (stop b <= start b ->
       sel_slice axis (start b) (stop b) = Some (filter (within b) axis))
      /\ (start b < stop b -> sel_slice axis (start b) (stop b) = Some []))
  /\ (forall (a : DataArray) (name : string) (z : Bounds),
        In (name, z) zones ->
        is_monotonic_increasing (longitude a) = true ->
        (is_monotonic_increasing (latitude a) = false ->
         is_monotonic_decreasing (latitude a) = true ->
         exists zone_data,
           sel_lat_lon a (lat z) (lon z) = Some zone_data
           /\ latitude zone_data = filter (within (lat z)) (latitude a)
           /\ longitude zone_data = filter (within (lon z)) (longitude a))
        /\ (is_monotonic_increasing (latitude a) = true ->
            exists zone_data,
              sel_lat_lon a (lat z) (lon z) = Some zone_data
              /\ latitude zone_data = []))
  /\ (forall a : DataArray,
        is_monotonic_increasing (longitude a) = true ->
        (is_monotonic_increasing (latitude a) = true ->
         exists subset,
           sel_lat_lon a lat_slice lon_slice = Some subset
           /\ latitude subset = filter (within lat_slice) (latitude a)
           /\ longitude subset = filter (within lon_slice) (longitude a))
        /\ (is_monotonic_increasing (latitude a) = false ->
            is_monotonic_decreasing (latitude a) = true ->
            exists subset,
              sel_lat_lon a lat_slice lon_slice = Some subset
              /\ latitude subset = [])).
Proof.
  intros axis b. split; [|split; [|split]].
  - apply sel_slice_increasing.
  - apply sel_slice_decreasing.
  - intros a name z Hz Hlon.
    destruct (zones_orientation name z Hz) as [Hlat_o Hlon_o].
    destruct (sel_slice_increasing (longitude a) (lon z) Hlon) as [Hlon_sel _].
    specialize (Hlon_sel (Qlt_le_weak _ _ Hlon_o)). split.
    + intros H1 H2.
      destruct (sel_slice_decreasing (latitude a) (lat z) H1 H2) as [Hlat_sel _].
      specialize (Hlat_sel (Qlt_le_weak _ _ Hlat_o)).
      destruct (sel_lat_lon_axes a _ _ _ _ Hlat_sel Hlon_sel) as (a' & E & E1 & E2).
      exists a'. auto.
    + intros H1.
      destruct (sel_slice_increasing (latitude a) (lat z) H1) as [_ Hlat_sel].
      specialize (Hlat_sel Hlat_o).
      destruct (sel_lat_lon_axes a _ _ _ _ Hlat_sel Hlon_sel) as (a' & E & E1 & E2).
      exists a'. auto.
  - intros a Hlon.
    assert (Hlat_o : start lat_slice < stop lat_slice) by reflexivity.
    assert (Hlon_o : start lon_slice <= stop lon_slice) by (simpl; lra).
    destruct (sel_slice_increasing (longitude a) lon_slice Hlon) as [Hlon_sel _].
    specialize (Hlon_sel Hlon_o). split.
    + intros H1.
      destruct (sel_slice_increasing (latitude a) lat_slice H1) as [Hlat_sel _].
      specialize (Hlat_sel (Qlt_le_weak _ _ Hlat_o)).
      destruct (sel_lat_lon_axes a _ _ _ _ Hlat_sel Hlon_sel) as (a' & E & E1 & E2).
      exists a'. auto.
    + intros H1 H2.
      destruct (sel_slice_decreasing (latitude a) lat_slice H1 H2) as [_ Hlat_sel].
      specialize (Hlat_sel Hlat_o).
      destruct (sel_lat_lon_axes a _ _ _ _ Hlat_sel Hlon_sel) as (a' & E & E1 & E2).
      exists a'. auto.
Qed.

Lemma C3_selection_follows_axis_witness :
  sel_slice lat_north_to_south 19.5 18.5 = Some [19.25; 18.75]
  /\ sel_slice lat_south_to_north 16.5 17.5 = Some [16.75; 17.25]
  /\ sel_slice lat_south_to_north 19.5 18.5 = Some []
  /\ sel_slice lat_north_to_south 16.5 17.5 = Some [].
Proof.
  pose proof (C3_selection_follows_axis lat_north_to_south (mkSlice 19.5 18.5))
    as (_ & Hd1 & _).
  pose proof (C3_selection_follows_axis lat_south_to_north (mkSlice 16.5 17.5))
    as (Hi1 & _).
  pose proof (C3_selection_follows_axis lat_south_to_north (mkSlice 19.5 18.5))
    as (Hi2 & _).
  pose proof (C3_selection_follows_axis lat_north_to_south (mkSlice 16.5 17.5))
    as (_ & Hd2 & _).
  assert (Hle1 : 18.5 <= 19.5) by lra.
  assert (Hle2 : 16.5 <= 17.5) by lra.
  assert (Hlt1 : 18.5 < 19.5) by lra.
  assert (Hlt2 : 16.5 < 17.5) by lra.
  split; [|split; [|split]].
  - exact (proj1 (Hd1 eq_refl eq_refl) Hle1).
  - exact (proj1 (Hi1 eq_refl) Hle2).
  - exact (proj2 (Hi2 eq_refl) Hlt1).
  - exact (proj2 (Hd2 eq_refl eq_refl) Hlt2).
Defined.

End SelectionClaims.

(** ** Reductions of a grid *)

Section GridFacts.
Import Selection Grid.
Local Open Scope Q_scope.

Lemma cell_eq_refl (c : cell) : cell_eq c c.
Proof. destruct c; simpl; [apply Qeq_refl | exact I]. Qed.


(** The positions the reductions visit lie on the axes of the array. *)
Lemma in_positions (axis : list Q) (z : nat) :
  In z (positions axis) <-> (z < List.length axis)%nat.
Proof.
  unfold positions. rewrite in_seq. lia.
Qed.

Lemma in_columns (a : DataArray) (ij : nat * nat) :
  In ij (columns a) <->
  (fst ij < List.length (latitude a))%nat /\ (snd ij < List.length (longitude a))%nat.
Proof.
  unfold columns. rewrite in_flat_map. split.
  - intros (i & Hi & Hij). apply in_map_iff in Hij. destruct Hij as (j & <- & Hj).
    apply in_positions in Hi. apply in_positions in Hj. split; assumption.
  - intros [Hi Hj]. exists (fst ij). split; [apply in_positions; exact Hi|].
    apply in_map_iff. exists (snd ij). split; [destruct ij; reflexivity|].
    apply in_positions. exact Hj.
Qed.

Lemma in_steps (a : DataArray) (t : nat) :
  In t (seq 0 (ntime a)) <-> (t < ntime a)%nat.
Proof.
  rewrite in_seq. lia.
Qed.

(** A position of [a[i0:i1]] is a position of [a], [i0] further on. *)
Lemma py_slice_index {A : Type} (i0 i1 : nat) (l : list A) (i : nat) :
  (i < List.length (py_slice i0 i1 l))%nat -> (i0 + i < List.length l)%nat.
Proof.
  unfold py_slice. rewrite length_firstn, length_skipn. lia.
Qed.

Lemma profile_uniform (a : DataArray) (v : Q) (t i j : nat) :
  uniform a v ->
  (t < ntime a)%nat ->
  (i < List.length (latitude a))%nat -> (j < List.length (longitude a))%nat ->
  profile a t i j = map (fun _ => Some v) (positions (depth a)).
Proof.
  intros H Ht Hi Hj. unfold profile. apply map_ext_in. intros z Hz.
  apply in_positions in Hz. apply H; assumption.
Qed.

(** The trapezoids of a constant telescope. *)
Lemma trapz_constant (v : Q) (x : list Q) (ps : list nat) :
  List.length ps = List.length x -> x <> [] ->
  cell_eq (trapz x (map (fun _ => Some v) ps))
          (Some (v * (last x 0 - hd 0 x))).
Proof.
  revert ps. induction x as [|x0 x IH]; intros ps Hlen Hne; [congruence|].
  destruct ps as [|p0 ps]; [discriminate|].
  destruct x as [|x1 x].
  - destruct ps; [|discriminate]. simpl. ring.
  - destruct ps as [|p1 ps]; [discriminate|].
    assert (IH' := IH (p1 :: ps) ltac:(simpl in *; lia) ltac:(discriminate)).
    change (trapz (x0 :: x1 :: x) (map (fun _ => Some v) (p0 :: p1 :: ps)))
      with (cell_add (cell_scale ((x1 - x0) * 0.5) (cell_add (Some v) (Some v)))
                     (trapz (x1 :: x) (map (fun _ => Some v) (p1 :: ps)))).
    destruct (trapz (x1 :: x) (map (fun _ => Some v) (p1 :: ps))) as [q|];
      [|contradiction].
    simpl in IH'. simpl cell_add. simpl cell_scale. simpl cell_eq.
    change (last (x0 :: x1 :: x) 0) with (last (x1 :: x) 0).
    change (hd 0 (x0 :: x1 :: x)) with x0.
    change (hd 0 (x1 :: x)) with x1 in IH'.
    rewrite IH'. ring.
Qed.

Lemma Qsum_constant (q : Q) (l : list Q) :
  Forall (fun x => x == q) l ->
  Qsum l == inject_Z (Z.of_nat (List.length l)) * q.
Proof.
  induction 1 as [|x l Hx _ IH].
  - simpl. ring.
  - change (Qsum (x :: l)) with (x + Qsum l).
    change (List.length (x :: l)) with (S (List.length l)).
    cbv beta in Hx. rewrite IH, Hx.
    rewrite Nat2Z.inj_succ. unfold Z.succ. rewrite inject_Z_plus. ring.
Qed.

Lemma valid_all_some (q : Q) (l : list cell) :
  Forall (fun c => cell_eq c (Some q)) l ->
  Forall (fun x => x == q) (valid l) /\ List.length (valid l) = List.length l.
Proof.
  induction 1 as [|c l Hc _ [IH1 IH2]]; simpl.
  - split; [constructor | reflexivity].
  - destruct c as [x|]; [|contradiction]. simpl in Hc. split.
    + constructor; assumption.
    + simpl. f_equal. exact IH2.
Qed.

(** The mean of cells that all carry the same value is that value. *)
Lemma nanmean_constant (q : Q) (l : list cell) :
  l <> [] -> Forall (fun c => cell_eq c (Some q)) l -> cell_eq (nanmean l) (Some q).
Proof.
  intros Hne H. destruct (valid_all_some q l H) as [Hv Hlen].
  unfold nanmean. destruct (valid l) as [|x v] eqn:E.
  - destruct l; [congruence | discriminate].
  - rewrite <- E in *. simpl. rewrite (Qsum_constant q _ Hv).
    assert (Hn : ~ inject_Z (Z.of_nat (List.length (valid l))) == 0).
    { rewrite E. simpl List.length. rewrite Nat2Z.inj_succ.
      unfold Qeq. simpl. lia. }
    field. exact Hn.
Qed.

(** The mean of nothing but missing cells is missing. *)
Lemma valid_all_missing (l : list cell) :
  Forall (fun c => c = None) l -> valid l = [].
Proof.
  induction 1 as [|c l Hc _ IH]; simpl; [reflexivity|]. rewrite Hc. exact IH.
Qed.

Lemma columns_nonempty (a : DataArray) :
  latitude a <> [] -> longitude a <> [] -> columns a <> [].
Proof.
  unfold columns, positions.
  destruct (latitude a) as [|y ys]; [congruence|].
  destruct (longitude a) as [|x xs]; [congruence|].
  intros _ _. simpl. discriminate.
Qed.

Lemma sel_depth_axes (a a' : DataArray) (d : LabelSlice) :
  sel_depth a d = Some a' ->
  time a' = time a /\ latitude a' = latitude a /\ longitude a' = longitude a
  /\ (forall v, uniform a v -> uniform a' v).
Proof.
  unfold sel_depth. destruct (slice_locs _ _ _) as [[z0 z1]|]; [|discriminate].
  intros H. inversion H. simpl. repeat split.
  intros v Hu t z i j Ht Hz Hi Hj. cbn in *.
  apply Hu; try assumption. apply (py_slice_index _ _ _ _ Hz).
Qed.

(** Selecting levels keeps what is missing missing. *)
Lemma sel_depth_missing (a a' : DataArray) (d : LabelSlice) :
  sel_depth a d = Some a' ->
  (forall t, missing_at a t) -> forall t, missing_at a' t.
Proof.
  unfold sel_depth. destruct (slice_locs _ _ _) as [[z0 z1]|]; [|discriminate].
  intros H. inversion H. intros Hm t z i j Ht Hi Hj. cbn in *.
  apply Hm; assumption.
Qed.

(** Both reductions give one value per time step. *)
Lemma integrate_then_mean_steps (a : DataArray) :
  List.length (integrate_then_mean a) = ntime a.
Proof.
  unfold integrate_then_mean. rewrite length_map. apply length_seq.
Qed.



(** Integrating a uniform field over its depth levels and averaging over
    the columns gives the value times the span of the levels. *)
Lemma integrate_uniform (a : DataArray) (v : Q) :
  uniform a v -> latitude a <> [] -> longitude a <> [] -> depth a <> [] ->
  Forall (fun c => cell_eq c (Some (v * (last (depth a) 0 - hd 0 (depth a)))))
         (integrate_then_mean a).
Proof.
  intros Hu Hlat Hlon Hd. unfold integrate_then_mean.
  apply Forall_forall. intros c Hc. apply in_map_iff in Hc.
  destruct Hc as (t & <- & Ht). apply in_steps in Ht.
  apply nanmean_constant.
  - intros E. apply map_eq_nil in E. revert E. apply columns_nonempty; assumption.
  - apply Forall_forall. intros c Hc. apply in_map_iff in Hc.
    destruct Hc as (ij & <- & Hij). apply in_columns in Hij. destruct Hij as [Hi Hj].
    rewrite (profile_uniform a v t _ _ Hu Ht Hi Hj).
    apply trapz_constant; [|exact Hd].
    unfold positions. apply length_seq.
Qed.


End GridFacts.

(** ** Depth integration: the claim *)

Section IntegrationClaims.
Import Selection Grid Scenarios MoreScenarios.
Local Open Scope Q_scope.

Lemma all_cells_uniform (a : DataArray) (v : Q) :
  uniform a v -> Forall (fun c => cell_eq c (Some v)) (all_cells a).
Proof.
  intros Hu. unfold all_cells, cells_at, profile.
  apply Forall_forall. intros c Hc.
  apply in_flat_map in Hc. destruct Hc as (t & Ht & Hc). apply in_steps in Ht.
  apply in_flat_map in Hc. destruct Hc as (ij & Hij & Hc).
  apply in_columns in Hij. destruct Hij as [Hi Hj].
  apply in_map_iff in Hc. destruct Hc as (z & <- & Hz). apply in_positions in Hz.
  rewrite (Hu t z _ _ Ht Hz Hi Hj). simpl. reflexivity.
Qed.






End IntegrationClaims.

(** ** Availability of a zone *)

Section AvailabilityFacts.
Import Selection Grid Loader Dec27 Aux Scenarios.
Local Open Scope list_scope.

Lemma valid_nil_iff (l : list cell) : valid l = [] <-> all_missing l.
Proof.
  unfold all_missing. split.
  - induction l as [|[x|] l IH]; simpl; intros H.
    + constructor.
    + discriminate.
    + constructor; [reflexivity | apply IH; exact H].
  - apply valid_all_missing.
Qed.

Lemma cells_at_missing (a : DataArray) (t : nat) :
  missing_at a t -> (t < ntime a)%nat -> all_missing (cells_at a t).
Proof.
  intros H Ht. unfold all_missing, cells_at, profile.
  apply Forall_forall. intros c Hc.
  apply in_flat_map in Hc. destruct Hc as (ij & Hij & Hc).
  apply in_columns in Hij. destruct Hij as [Hi Hj].
  apply in_map_iff in Hc. destruct Hc as (z & <- & _).
  apply H; assumption.
Qed.

Lemma nanmean_missing (l : list cell) : valid l = [] -> nanmean l = None.
Proof. intros H. unfold nanmean. rewrite H. reflexivity. Qed.

Lemma nanmax_missing (l : list cell) : valid l = [] -> nanmax l = None.
Proof. intros H. unfold nanmax. rewrite H. reflexivity. Qed.

Lemma find_variable_reports_nothing (ds : NcDataset) (var_name : string) (k : Metric) :
  Forall (fun m => reports k m = false) (snd (find_variable ds var_name)).
Proof.
  unfold find_variable.
  destruct (existsb _ _); [constructor|].
  destruct (find _ _); simpl; repeat constructor. destruct k; reflexivity.
Qed.

(** What [extract_and_process] prints reports no metric. *)
Lemma extract_reports_nothing (disk : Disk) (fname var_name label : string) (k : Metric) :
  Forall (fun m => reports k m = false)
         (snd (extract_and_process disk fname var_name label)).
Proof.
  unfold extract_and_process.
  destruct (disk fname) as [| |ds]; simpl;
    try (repeat constructor; destruct k; reflexivity).
  pose proof (find_variable_reports_nothing ds var_name k) as Hf.
  destruct (find_variable ds var_name) as [target log]. simpl in Hf.
  repeat match goal with
         | |- context [match ?x with _ => _ end] => destruct x
         end;
    simpl; split_log; auto; destruct k; reflexivity.
Qed.

(** Step 1 reports production only when it has a series. *)
Lemma process_npp_reports (disk : Disk) (k : Metric) :
  (k <> Production \/ fst (process_npp disk) = None) ->
  Forall (fun m => reports k m = false) (snd (process_npp disk)).
Proof.
  intros Hk. unfold process_npp in *.
  pose proof (extract_reports_nothing disk file_prod "nppv" "NPP" k) as H1.
  pose proof (extract_reports_nothing disk file_bio "chl" "Chlorophyll" k) as H2.
  destruct (extract_and_process disk file_prod "nppv" "NPP") as [[npp|] log1];
    simpl in H1; [|exact H1].
  destruct (sel_depth npp photic) as [a|]; [|simpl; split_log; auto; destruct k; reflexivity].
  destruct (zero_or_nan _).
  - destruct (extract_and_process disk file_bio "chl" "Chlorophyll") as [[chl|] log2];
      simpl in H2.
    + destruct (sel_depth chl photic); simpl in *; split_log; auto;
        try (destruct k; reflexivity).
      destruct Hk as [Hk|Hk]; [|discriminate]. destruct k; try reflexivity; congruence.
    + simpl in *. split_log; auto; try (destruct k; reflexivity).
      destruct Hk as [Hk|Hk]; [|discriminate]. destruct k; try reflexivity; congruence.
  - simpl in *. split_log; auto.
    destruct Hk as [Hk|Hk]; [|discriminate]. destruct k; try reflexivity; congruence.
Qed.

Section WithNearest.
Variable nearest : list Q -> Q -> option nat.

Lemma process_no3_reports (disk : Disk) (k : Metric) :
  (k <> Nutrients \/ fst (fst (process_no3 nearest disk)) = None) ->
  Forall (fun m => reports k m = false) (snd (process_no3 nearest disk)).
Proof.
  intros Hk. unfold process_no3 in *.
  pose proof (extract_reports_nothing disk file_nut "no3" "Nitrate" k) as H1.
  destruct (extract_and_process disk file_nut "no3" "Nitrate") as [[no3|] log1];
    simpl in H1; [|exact H1].
  destruct (axis_min (depth no3)) as [mn|];
    destruct (axis_max (depth no3)) as [mx|];
    try (simpl; split_log; auto; destruct k; reflexivity).
  destruct (nearest (depth no3) mn);
    [|simpl; split_log; auto; destruct k; reflexivity].
  destruct (nearest (depth no3) (Qmin 100 mx)); simpl in *; split_log; auto;
    try (destruct k; reflexivity).
  destruct Hk as [Hk|Hk]; [|discriminate]. destruct k; try reflexivity; congruence.
Qed.

Lemma process_o2_reports (disk : Disk) (k : Metric) :
  (k <> Oxygen \/ fst (process_o2 nearest disk) = None) ->
  Forall (fun m => reports k m = false) (snd (process_o2 nearest disk)).
Proof.
  intros Hk. unfold process_o2 in *.
  pose proof (extract_reports_nothing disk file_prod "o2" "Oxygen" k) as H1.
  destruct (extract_and_process disk file_prod "o2" "Oxygen") as [[o2|] log1];
    simpl in H1; [|exact H1].
  destruct (axis_max (depth o2)) as [mx|];
    [|simpl; split_log; auto; destruct k; reflexivity].
  destruct (nearest (depth o2) (Qmin 50 mx)); simpl in *; split_log; auto;
    try (destruct k; reflexivity).
  destruct Hk as [Hk|Hk]; [|discriminate]. destruct k; try reflexivity; congruence.
Qed.

(** The metrics of a finished run are those of the three steps. *)
Lemma main_metrics (disk : Disk) (m : Metrics) :
  fst (main nearest disk) = Finished m ->
  integrated_npp m = fst (process_npp disk)
  /\ surf_no3 m = fst (fst (process_no3 nearest disk))
  /\ deep_no3 m = snd (fst (process_no3 nearest disk))
  /\ deep_o2 m = fst (process_o2 nearest disk).
Proof.
  unfold main.
  destruct (process_npp disk) as [npp log1].
  destruct (process_no3 nearest disk) as [[surf deep] log2].
  destruct (process_o2 nearest disk) as [o2 log3].
  destruct (negb (is_some npp) && negb (is_some surf) && negb (is_some o2));
    simpl; [discriminate|].
  intros H. inversion H. simpl. auto.
Qed.

(** Every step is run, whatever the steps before it found. *)
Lemma main_runs_every_step (disk : Disk) :
  In Step1Header (snd (main nearest disk))
  /\ In Step2Header (snd (main nearest disk))
  /\ In Step3Header (snd (main nearest disk)).
Proof.
  unfold main.
  destruct (process_npp disk) as [npp log1].
  destruct (process_no3 nearest disk) as [[surf deep] log2].
  destruct (process_o2 nearest disk) as [o2 log3].
  destruct (negb (is_some npp) && negb (is_some surf) && negb (is_some o2));
    cbn [snd]; repeat split; in_log.
Qed.

(** The script stops early only when all three metrics are unavailable. *)
Lemma main_exits_iff (disk : Disk) :
  (exists status, fst (main nearest disk) = Exited status)
  <-> (fst (process_npp disk) = None
       /\ fst (fst (process_no3 nearest disk)) = None
       /\ fst (process_o2 nearest disk) = None).
Proof.
  unfold main.
  destruct (process_npp disk) as [npp log1].
  destruct (process_no3 nearest disk) as [[surf deep] log2].
  destruct (process_o2 nearest disk) as [o2 log3].
  destruct npp, surf, o2; simpl; split;
    try (intros [status H]; discriminate H);
    try (intros (H1 & H2 & H3); discriminate);
    try (intros _; eexists; reflexivity);
    auto.
Qed.

(** A metric that is unavailable is reported by no line of the run. *)
Lemma main_unavailable_unreported (disk : Disk) :
  (fst (process_npp disk) = None ->
   Forall (fun m => reports Production m = false) (snd (main nearest disk)))
  /\ (fst (fst (process_no3 nearest disk)) = None ->
      Forall (fun m => reports Nutrients m = false) (snd (main nearest disk)))
  /\ (fst (process_o2 nearest disk) = None ->
      Forall (fun m => reports Oxygen m = false) (snd (main nearest disk))).
Proof.
  unfold main.
  pose proof (process_npp_reports disk) as Hn.
  pose proof (process_no3_reports disk) as Hs.
  pose proof (process_o2_reports disk) as Ho.
  destruct (process_npp disk) as [npp log1].
  destruct (process_no3 nearest disk) as [[surf deep] log2].
  destruct (process_o2 nearest disk) as [o2 log3].
  cbn [fst snd] in *.
  repeat split; intros E; subst;
    destruct (negb _ && negb _ && negb _); unfold report; cbn [fst snd is_some andb];
    split_log; auto;
    try (apply Hn; auto; left; discriminate);
    try (apply Hs; auto; left; discriminate);
    try (apply Ho; auto; left; discriminate);
    try (destruct npp; reflexivity);
    try (destruct surf; reflexivity);
    try (destruct surf, deep; reflexivity);
    try (destruct deep; reflexivity);
    try (destruct o2; reflexivity).
Qed.

(** Its place in the report says that no data is available. *)
Lemma main_unavailable_no_data (disk : Disk) (m : Metrics) :
  fst (main nearest disk) = Finished m ->
  (integrated_npp m = None -> In NoProductionData (snd (main nearest disk)))
  /\ (surf_no3 m = None \/ deep_no3 m = None ->
      In NoUpwellingData (snd (main nearest disk)))
  /\ (deep_o2 m = None -> In NoOxygenData (snd (main nearest disk))).
Proof.
  unfold main.
  destruct (process_npp disk) as [npp log1].
  destruct (process_no3 nearest disk) as [[surf deep] log2].
  destruct (process_o2 nearest disk) as [o2 log3].
  destruct (negb (is_some npp) && negb (is_some surf) && negb (is_some o2));
    simpl; [discriminate|].
  intros H. inversion H. subst m. cbn [snd integrated_npp surf_no3 deep_no3 deep_o2].
  unfold report. repeat split.
  - intros ->. in_log.
  - intros [-> | ->]; cbn [is_some andb]; rewrite ?andb_false_r; in_log.
  - intros ->. in_log.
Qed.

End WithNearest.

End AvailabilityFacts.

Section AvailabilityClaims.
Import Selection Grid Loader Dec27 Aux Scenarios MoreScenarios.
Local Open Scope string_scope.
Local Open Scope list_scope.

Lemma extract_by_valid_cells (disk : Disk) (fname var_name label : string)
      (ds : NcDataset) (target : string) (log0 : list Msg) (da subset : DataArray) :
  disk fname = Readable ds ->
  find_variable ds var_name = (Some target, log0) ->
  get_variable ds target = Some da ->
  sel_lat_lon da lat_slice lon_slice = Some subset ->
  time subset <> Some [] ->
  (all_missing (cells_at subset 0) ->
   extract_and_process disk fname var_name label
   = (None, log0 ++ [OnlyNaN label; TryAdjustingBounds;
                     CurrentBounds lat_slice lon_slice]))
  /\ (~ all_missing (cells_at subset 0) ->
      exists n,
        extract_and_process disk fname var_name label
        = (Some subset, log0 ++ [LoadedSuccessfully label (S n)])).
Proof.
  intros Hd Hf Hg Hs Ht. unfold extract_and_process.
  rewrite Hd, Hf, Hg, Hs. unfold valid_count.
  destruct (valid (cells_at subset 0)) as [|x v] eqn:E.
  - split.
    + intros _. destruct (time subset) as [[|t ts]|]; [congruence | reflexivity..].
    + intros H. exfalso. apply H, valid_nil_iff, E.
  - split.
    + intros H. apply valid_nil_iff in H. congruence.
    + intros _. exists (List.length v).
      destruct (time subset) as [[|t ts]|]; [congruence | reflexivity..].
Qed.

Lemma zone_all_missing (ds_weekly zone_data : DataArray) (b : Bounds) (zone : string) :
  sel_lat_lon ds_weekly (lat b) (lon b) = Some zone_data ->
  (forall t, (t < ntime zone_data)%nat -> all_missing (cells_at zone_data t)) ->
  exists data,
    Processing.zone_series ds_weekly b = Some data
    /\ List.length data = ntime zone_data
    /\ Processing.zone_report zone data
       = [Processing.ZoneName zone; Processing.AverageProductivity None;
          Processing.StatusLine Processing.NO_DATA].
Proof.
  intros Hs Hm. unfold Processing.zone_series. rewrite Hs.
  eexists. split; [reflexivity|].
  split; [rewrite length_map; apply length_seq|].
  assert (Hv : valid (map (fun t => nanmean (cells_at zone_data t))
                          (seq 0 (ntime zone_data))) = []).
  { apply valid_all_missing. apply Forall_forall. intros c Hc.
    apply in_map_iff in Hc. destruct Hc as (t & <- & Ht). apply in_steps in Ht.
    apply nanmean_missing, valid_nil_iff, Hm, Ht. }
  unfold Processing.zone_report.
  rewrite (nanmax_missing _ Hv), (nanmean_missing _ Hv). reflexivity.
Qed.

(** The refutation of C8 as stated: run over a weekly field that is missing
    everywhere, [processing.py] reports every zone with an average that is
    not a number and the status NO DATA; no line names the bounds of a zone
    or suggests to widen them. *)
Lemma C8_counterexample_no_bounds_diagnostic :
  snd (Processing.run unit any_concat (fun _ => Some weekly_land) fs_unordered)
  = map (Processing.Loading) [LoadingFiles; FoundFiles 3; Compiled 3]
    ++ [Processing.Aggregating; Processing.Extracting;
        Processing.AnalysisReport]
    ++ map (Processing.Report)
         [Processing.ZoneName "Mumbai"; Processing.AverageProductivity None;
          Processing.StatusLine Processing.NO_DATA;
          Processing.ZoneName "Ratnagiri"; Processing.AverageProductivity None;
          Processing.StatusLine Processing.NO_DATA;
          Processing.ZoneName "Sindhudurg"; Processing.AverageProductivity None;
          Processing.StatusLine Processing.NO_DATA]
    ++ [Processing.ProcessingComplete].
Proof. vm_compute. reflexivity. Qed.

(** C8 (amended).  In [dec27_code.py] a variable is unavailable exactly
    when its zone holds no valid cell at the first time step, whatever the
    file holds around the zone: [extract_and_process] then returns nothing
    and prints the label of the variable, the advice to adjust the bounds and
    the bounds in use; with a valid cell in the zone it returns the subset.
    The three steps are run in any case; a metric that is unavailable is
    reported by no line of the run, its place in the report says that no
    data is available, and the script stops early only when all three
    metrics are unavailable.  In [processing.py] a zone whose cells are
    missing at every time step is reported with the status NO DATA and an
    average that is not a number, with no mention of its bounds. *)
Theorem C8_all_missing_zone :
  forall (nearest : list Q -> Q -> option nat) (disk : Disk),
  (forall fname var_name label ds target log0 da subset,
     disk fname = Readable ds ->
     find_variable ds var_name = (Some target, log0) ->
     get_variable ds target = Some da ->
     sel_lat_lon da lat_slice lon_slice = Some subset ->
     time subset <> Some [] ->
     (all_missing (cells_at subset 0) ->
      extract_and_process disk fname var_name label
      = (None, log0 ++ [OnlyNaN label; TryAdjustingBounds;
                        CurrentBounds lat_slice lon_slice]))
     /\ (~ all_missing (cells_at subset 0) ->
         exists n,
           extract_and_process disk fname var_name label
           = (Some subset, log0 ++ [LoadedSuccessfully label (S n)])))
  /\ (In Step1Header (snd (main nearest disk))
      /\ In Step2Header (snd (main nearest disk))
      /\ In Step3Header (snd (main nearest disk)))
  /\ ((fst (process_npp disk) = None ->
       Forall (fun m => reports Production m = false) (snd (main nearest disk)))
      /\ (fst (fst (process_no3 nearest disk)) = None ->
          Forall (fun m => reports Nutrients m = false) (snd (main nearest disk)))
      /\ (fst (process_o2 nearest disk) = None ->
          Forall (fun m => reports Oxygen m = false) (snd (main nearest disk))))
  /\ (forall m, fst (main nearest disk) = Finished m ->
        (integrated_npp m = fst (process_npp disk)
         /\ surf_no3 m = fst (fst (process_no3 nearest disk))
         /\ deep_no3 m = snd (fst (process_no3 nearest disk))
         /\ deep_o2 m = fst (process_o2 nearest disk))
        /\ (integrated_npp m = None -> In NoProductionData (snd (main nearest disk)))
        /\ (surf_no3 m = None \/ deep_no3 m = None ->
            In NoUpwellingData (snd (main nearest disk)))
        /\ (deep_o2 m = None -> In NoOxygenData (snd (main nearest disk))))
  /\ ((exists status, fst (main nearest disk) = Exited status)
      <-> (fst (process_npp disk) = None
           /\ fst (fst (process_no3 nearest disk)) = None
           /\ fst (process_o2 nearest disk) = None))
  /\ (forall ds_weekly zone_data b zone,
        sel_lat_lon ds_weekly (lat b) (lon b) = Some zone_data ->
        (forall t, (t < ntime zone_data)%nat -> all_missing (cells_at zone_data t)) ->
        exists data,
          Processing.zone_series ds_weekly b = Some data
          /\ List.length data = ntime zone_data
          /\ Processing.zone_report zone data
             = [Processing.ZoneName zone; Processing.AverageProductivity None;
                Processing.StatusLine Processing.NO_DATA]).
Proof.
  intros nearest disk. split; [|split; [|split; [|split; [|split]]]].
  - intros. eapply extract_by_valid_cells; eassumption.
  - apply main_runs_every_step.
  - apply main_unavailable_unreported.
  - intros m Hm. split; [apply main_metrics; exact Hm|].
    apply main_unavailable_no_data. exact Hm.
  - apply main_exits_iff.
  - intros. eapply zone_all_missing; eassumption.
Qed.

Lemma C8_all_missing_zone_witness :
  values coast_field 0 0 0 0 = Some 4%Q
  /\ extract_and_process disk_coast file_prod "nppv" "NPP"
     = (None, [OnlyNaN "NPP"; TryAdjustingBounds; CurrentBounds lat_slice lon_slice])
  /\ Forall (fun m => reports Production m = false)
            (snd (main nearest_level disk_coast))
  /\ In NoProductionData (snd (main nearest_level disk_coast))
  /\ In NutrientSection (snd (main nearest_level disk_coast))
  /\ (exists n,
        extract_and_process disk_coast file_nut "no3" "Nitrate"
        = (Some (zone_of_field (fun _ _ _ _ => Some 3%Q)),
           [LoadedSuccessfully "Nitrate" (S n)]))
  /\ values weekly_coast 0 0 0 0 = Some 2%Q
  /\ (exists bounds data,
        In ("Ratnagiri", bounds) zones
        /\ Processing.zone_series weekly_coast bounds = Some data
        /\ List.length data = 2%nat
        /\ Processing.zone_report "Ratnagiri" data
           = [Processing.ZoneName "Ratnagiri"; Processing.AverageProductivity None;
              Processing.StatusLine Processing.NO_DATA]).
Proof.
  pose proof (C8_all_missing_zone nearest_level disk_coast)
    as (Hex & _ & (Hnpp & _) & Hfin & _ & Hzone).
  split; [reflexivity|]. split; [|split; [|split; [|split; [|split; [|split]]]]].
  - refine (proj1 (Hex file_prod "nppv" "NPP" _ "nppv" [] coast_field _
                       eq_refl eq_refl eq_refl eq_refl _) _).
    + discriminate.
    + vm_compute. repeat constructor.
  - apply Hnpp. reflexivity.
  - refine (proj1 (proj2 (Hfin _ eq_refl)) eq_refl).
  - vm_compute. tauto.
  - refine (proj2 (Hex file_nut "no3" "Nitrate" _ "no3" [] (uniform_field 3)
                       (zone_of_field (fun _ _ _ _ => Some 3%Q))
                       eq_refl eq_refl eq_refl eq_refl _) _).
    + discriminate.
    + intros H. vm_compute in H. inversion H. discriminate.
  - reflexivity.
  - exists (mkBounds (mkSlice 17.5 16.5) (mkSlice 72.0 73.5)).
    pose proof (Hzone weekly_coast _
                      (mkBounds (mkSlice 17.5 16.5) (mkSlice 72.0 73.5))
                      "Ratnagiri" eq_refl) as H.
    match type of H with ?P -> _ => assert (Hm : P) end.
    { intros t Ht. vm_compute in Ht.
      destruct t as [|[|t]]; [| |lia]; vm_compute; repeat constructor. }
    destruct (H Hm) as (data & Hs & Hl & Hr). exists data.
    split; [right; left; reflexivity|]. split; [exact Hs|].
    split; [exact Hl | exact Hr].
Defined.

End AvailabilityClaims.

(** ** The oxygen check *)

Section OxygenClaims.
Import Selection Grid Dec27.
Local Open Scope Q_scope.

Lemma fold_min_spec (v : list Q) :
  forall x, let r := fold_left Qmin v x in
  (r = x \/ In r v) /\ r <= x /\ Forall (fun y => r <= y) v.
Proof.
  induction v as [|y v IH]; intros x; simpl.
  - repeat split; [left; reflexivity | apply Qle_refl | constructor].
  - destruct (IH (Qmin x y)) as (Hin & Hle & Hall).
    pose proof (Q.le_min_l x y) as Hl. pose proof (Q.le_min_r x y) as Hr.
    repeat split.
    + destruct Hin as [Hin|Hin]; [|right; right; exact Hin].
      rewrite Hin. unfold Qmin, GenericMinMax.gmin.
      destruct (x ?= y); auto.
    + lra.
    + constructor; [lra | exact Hall].
Qed.

Lemma in_valid (m : Q) (l : list cell) : In m (valid l) -> In (Some m) l.
Proof.
  induction l as [|[x|] l IH]; simpl; intros H.
  - exact H.
  - destruct H as [H|H]; [left; congruence | right; apply IH; exact H].
  - right. apply IH. exact H.
Qed.

(** [nanmin] is the least of the values that are not missing. *)
Lemma nanmin_spec (l : list cell) (m : Q) :
  nanmin l = Some m -> In (Some m) l /\ Forall (fun x => m <= x) (valid l).
Proof.
  unfold nanmin. destruct (valid l) as [|x v] eqn:E; [discriminate|].
  intros H. inversion H as [Hm]. clear H.
  destruct (fold_min_spec v x) as (Hin & Hle & Hall). rewrite Hm in *.
  split.
  - apply in_valid. rewrite E. destruct Hin as [->|Hin]; [left|right]; auto.
  - constructor; assumption.
Qed.

(** The refutation of C6 as stated: the oxygen check of [bio_3d.py] has a
    single threshold; a series whose minimum is 80 is called safe there, not
    a caution. *)
Lemma C6_counterexample_single_threshold :
  nanmin [Some 150; Some 80; None; Some 95] = Some 80
  /\ Bio3d.oxygen_safety [Some 150; Some 80; None; Some 95] = Bio3d.SAFE
  /\ oxygen_assessment [Some 150; Some 80; None; Some 95] = CAUTION.
Proof. repeat split. Qed.

(** C6 (amended).  Both oxygen checks look at the minimum of the series over
    the whole period, missing steps left out.  [dec27_code.py] has three
    bands: below 60 an alert, from 60 to below 120 a caution, from 120 on
    healthy.  [bio_3d.py] has the threshold 60 alone: below it a hypoxic
    event, otherwise safe. *)
Theorem C6_hypoxia_bands :
  forall (series : list cell) (m : Q),
  nanmin series = Some m ->
  (In (Some m) series /\ Forall (fun x => m <= x) (valid series))
  /\ (m < 60 ->
      oxygen_assessment series = ALERT
      /\ Bio3d.oxygen_safety series = Bio3d.HYPOXIC_EVENT)
  /\ (60 <= m -> m < 120 ->
      oxygen_assessment series = CAUTION
      /\ Bio3d.oxygen_safety series = Bio3d.SAFE)
  /\ (120 <= m ->
      oxygen_assessment series = HEALTHY
      /\ Bio3d.oxygen_safety series = Bio3d.SAFE).
Proof.
  intros series m Hm. split; [apply nanmin_spec; exact Hm|].
  unfold oxygen_assessment, Bio3d.oxygen_safety, oxygen_status. rewrite Hm.
  unfold cell_ltb.
  repeat split; intros;
    repeat match goal with
           | |- context [Qltb ?a ?b] =>
               let E := fresh "E" in
               destruct (Qltb a b) eqn:E;
               [apply Qltb_lt in E | apply negb_false_iff, Qle_bool_iff in E]
           end;
    try reflexivity; exfalso; lra.
Qed.

Lemma C6_hypoxia_bands_witness :
  oxygen_assessment [Some 200; Some 45; None; Some 130] = ALERT
  /\ oxygen_assessment [Some 150; Some 80; None; Some 95] = CAUTION
  /\ oxygen_assessment [Some 200; Some 310; Some 250] = HEALTHY
  /\ Bio3d.oxygen_safety [Some 200; Some 45; None; Some 130] = Bio3d.HYPOXIC_EVENT.
Proof.
  pose proof (C6_hypoxia_bands [Some 200; Some 45; None; Some 130] 45 eq_refl)
    as (_ & Halert & _).
  pose proof (C6_hypoxia_bands [Some 150; Some 80; None; Some 95] 80 eq_refl)
    as (_ & _ & Hcaution & _).
  pose proof (C6_hypoxia_bands [Some 200; Some 310; Some 250] 200 eq_refl)
    as (_ & _ & _ & Hhealthy).
  assert (H1 : 45 < 60) by lra.
  assert (H2 : 60 <= 80) by lra.
  assert (H3 : 80 < 120) by lra.
  assert (H4 : 120 <= 200) by lra.
  split; [|split; [|split]].
  - exact (proj1 (Halert H1)).
  - exact (proj1 (Hcaution H2 H3)).
  - exact (proj1 (Hhealthy H4)).
  - exact (proj2 (Halert H1)).
Defined.

End OxygenClaims.

(* ================================================================== *)
(** * Further properties of the scripts *)
(* ================================================================== *)

(** ** More on the order of binary64 numbers *)

Section FloatTransitivity.
Import Aux.
Local Open Scope float_scope.

Lemma SFcompare_refl (f : spec_float) : f <> S754_nan -> SFcompare f f = Some Eq.
Proof.
  destruct f as [s|s| |s m e]; simpl; intros H.
  - reflexivity.
  - destruct s; reflexivity.
  - congruence.
  - rewrite Z.compare_refl.
    change PosDef.Pos.compare_cont with Pos.compare_cont.
    rewrite Pos.compare_cont_refl. destruct s; reflexivity.
Qed.

(** The kernel has one NaN. *)
Lemma is_nan_eq (x : float) : is_nan x = true -> x = nan.
Proof.
  unfold is_nan. rewrite FloatAxioms.eqb_spec. unfold SFeqb. intros H.
  assert (Hn : Prim2SF x = S754_nan).
  { destruct (Prim2SF x) as [s|s| |s m e] eqn:E; try reflexivity;
      rewrite SFcompare_refl in H by congruence; discriminate. }
  rewrite <- (FloatAxioms.SF2Prim_Prim2SF x), Hn. reflexivity.
Qed.

Lemma magnitude_lt_trans e1 m1 e2 m2 e3 m3 :
  magnitude e1 m1 e2 m2 = Lt -> magnitude e2 m2 e3 m3 = Lt ->
  magnitude e1 m1 e3 m3 = Lt.
Proof.
  unfold magnitude. change (Pos.compare_cont Eq) with Pos.compare.
  destruct (Z.compare_spec e1 e2), (Z.compare_spec e2 e3), (Z.compare_spec e1 e3);
    try lia; try congruence.
  rewrite !Pos.compare_lt_iff. lia.
Qed.

Lemma magnitude_antisym e1 m1 e2 m2 :
  magnitude e2 m2 e1 m1 = CompOpp (magnitude e1 m1 e2 m2).
Proof.
  unfold magnitude. rewrite (Z.compare_antisym e1 e2).
  destruct (e1 ?= e2)%Z; simpl; try reflexivity.
  symmetry. apply (Pos.compare_cont_antisym m1 m2 Eq).
Qed.

Lemma magnitude_eq e1 m1 e2 m2 : magnitude e1 m1 e2 m2 = Eq -> e1 = e2 /\ m1 = m2.
Proof.
  unfold magnitude. change (Pos.compare_cont Eq) with Pos.compare.
  destruct (Z.compare_spec e1 e2) as [He|He|He]; try discriminate.
  intros Hm. apply Pos.compare_eq in Hm. auto.
Qed.

Lemma SFcompare_finite s1 m1 e1 s2 m2 e2 :
  SFcompare (S754_finite s1 m1 e1) (S754_finite s2 m2 e2)
  = Some (match s1, s2 with
          | true, false => Lt
          | false, true => Gt
          | false, false => magnitude e1 m1 e2 m2
          | true, true => CompOpp (magnitude e1 m1 e2 m2)
          end).
Proof.
  unfold magnitude. simpl. change PosDef.Pos.compare_cont with Pos.compare_cont.
  destruct s1, s2; try reflexivity; destruct (e1 ?= e2)%Z; reflexivity.
Qed.

Lemma SFcompare_lt_trans (f1 f2 f3 : spec_float) :
  SFcompare f1 f2 = Some Lt -> SFcompare f2 f3 = Some Lt -> SFcompare f1 f3 = Some Lt.
Proof.
  destruct f1 as [s1|s1| |s1 m1 e1], f2 as [s2|s2| |s2 m2 e2], f3 as [s3|s3| |s3 m3 e3];
    rewrite ?SFcompare_finite;
    try (simpl; congruence);
    try (destruct s1; simpl; congruence);
    try (destruct s2; simpl; congruence);
    try (destruct s3; simpl; congruence);
    try (destruct s1, s2; simpl; congruence);
    try (destruct s1, s3; simpl; congruence);
    try (destruct s2, s3; simpl; congruence);
    try (destruct s1, s2, s3; simpl; congruence).
  destruct s1, s2, s3; try congruence; intros H1 H2;
    injection H1 as H1; injection H2 as H2; f_equal.
  - rewrite <- magnitude_antisym in *. eapply magnitude_lt_trans; eauto.
  - eapply magnitude_lt_trans; eauto.
Qed.

(** Two numbers that compare equal compare alike with any third. *)
Lemma SFcompare_eq_l (f1 f2 f3 : spec_float) :
  SFcompare f1 f2 = Some Eq -> SFcompare f1 f3 = SFcompare f2 f3.
Proof.
  destruct f1 as [s1|s1| |s1 m1 e1], f2 as [s2|s2| |s2 m2 e2];
    rewrite ?SFcompare_finite;
    try (simpl; congruence);
    try (destruct s1; simpl; congruence);
    try (destruct s2; simpl; congruence).
  - destruct s1, s2; simpl; try congruence; reflexivity.
  - destruct s1, s2; try congruence; intros H; injection H as H.
    + apply (f_equal CompOpp) in H. rewrite CompOpp_involutive in H. simpl in H.
      apply magnitude_eq in H. destruct H; subst. reflexivity.
    + apply magnitude_eq in H. destruct H; subst. reflexivity.
Qed.

Lemma ltb_trans (x y z : float) :
  (x <? y) = true -> (y <? z) = true -> (x <? z) = true.
Proof.
  rewrite !FloatAxioms.ltb_spec. unfold SFltb.
  destruct (SFcompare (Prim2SF x) (Prim2SF y)) as [[]|] eqn:E1; try discriminate.
  destruct (SFcompare (Prim2SF y) (Prim2SF z)) as [[]|] eqn:E2; try discriminate.
  rewrite (SFcompare_lt_trans _ _ _ E1 E2). reflexivity.
Qed.

Lemma leb_ltb_trans (x y z : float) :
  (x <=? y) = true -> (y <? z) = true -> (x <? z) = true.
Proof.
  rewrite FloatAxioms.leb_spec, !FloatAxioms.ltb_spec. unfold SFleb, SFltb.
  destruct (SFcompare (Prim2SF x) (Prim2SF y)) as [[]|] eqn:E1; try discriminate.
  - rewrite (SFcompare_eq_l _ _ (Prim2SF z) E1). auto.
  - destruct (SFcompare (Prim2SF y) (Prim2SF z)) as [[]|] eqn:E2; try discriminate.
    rewrite (SFcompare_lt_trans _ _ _ E1 E2). reflexivity.
Qed.

Lemma ltb_leb_trans (x y z : float) :
  (x <? y) = true -> (y <=? z) = true -> (x <? z) = true.
Proof.
  rewrite FloatAxioms.leb_spec, !FloatAxioms.ltb_spec. unfold SFleb, SFltb.
  intros H1 H2.
  destruct (SFcompare (Prim2SF y) (Prim2SF z)) as [[]|] eqn:E2; try discriminate.
  - rewrite (SFcompare_antisym (Prim2SF z) (Prim2SF x)).
    rewrite (SFcompare_antisym (Prim2SF y) (Prim2SF x)) in H1.
    rewrite SFcompare_antisym in E2.
    destruct (SFcompare (Prim2SF z) (Prim2SF y)) as [[]|] eqn:E3; try discriminate.
    rewrite (SFcompare_eq_l _ _ (Prim2SF x) E3). exact H1.
  - destruct (SFcompare (Prim2SF x) (Prim2SF y)) as [[]|] eqn:E1; try discriminate.
    rewrite (SFcompare_lt_trans _ _ _ E1 E2). reflexivity.
Qed.

End FloatTransitivity.

(** ** The forecast and the assessments on numbers in order *)

Section BandFacts.
Import Calendar Forecast Bloom Upwelling.
Local Open Scope float_scope.

(** X1.  [output.py], lines 83-99 and 142-149.  When the bloom window holds
    time steps but the mean of the zone over it is NaN (no valid cell in any
    of them), every number of the zone's row is NaN, and the report prints
    the row with status STABLE and a forecast worded as a decline.  (With no
    time step in the window the same zone is reported CRITICAL at -100 %.) *)
Theorem nan_mean_reported_stable :
  forall (mean : list float -> float) (zone_name : string) (ts : Series),
  bloom_period ts <> [] ->
  is_nan (mean (map snd (bloom_period ts))) = true ->
  predict mean zone_name ts = mkRow zone_name nan nan nan
  /\ status (PPI_Anomaly (predict mean zone_name ts)) = STABLE
  /\ forecast_str (Yield_Forecast (predict mean zone_name ts)) = Decline nan
  /\ report_row (predict mean zone_name ts)
     = ReportRow zone_name nan nan STABLE (Decline nan).
Proof.
  intros mean zone_name ts Hne Hnan.
  apply is_nan_eq in Hnan.
  assert (Hrow : predict mean zone_name ts = mkRow zone_name nan nan nan).
  { unfold predict, avg_observed_chl.
    destruct (bloom_period ts) as [|p l] eqn:E; [congruence|].
    cbn [List.length Nat.ltb Nat.leb]. cbv zeta.
    rewrite Hnan. vm_compute. reflexivity. }
  rewrite Hrow. repeat split; vm_compute; reflexivity.
Qed.

Lemma nan_mean_reported_stable_witness :
  let ts := [(mkTimestamp 2025 10 5, nan); (mkTimestamp 2025 10 12, nan)] in
  report_row (predict (fun _ => nan) "Mumbai" ts)
  = ReportRow "Mumbai" nan nan STABLE (Decline nan).
Proof.
  intros ts.
  refine (proj2 (proj2 (proj2 (nan_mean_reported_stable (fun _ => nan) "Mumbai" ts _ _)))).
  - vm_compute. discriminate.
  - vm_compute. reflexivity.
Defined.

(** X2.  [output.py], lines 142-144, and [dec27_code.py], lines 259-266.
    The bands are ordered: of two anomalies, the lower one never gets the
    milder status.  Below a CRITICAL anomaly everything is CRITICAL, above a
    STABLE one everything is STABLE; above a STRONG BLOOM everything is a
    strong bloom, below a BLOOM FAILURE everything is a failure. *)
Theorem bands_are_monotone :
  forall a b : float,
  (a <=? b) = true ->
  (status b = CRITICAL -> status a = CRITICAL)
  /\ (status a = STABLE -> status b = STABLE)
  /\ (status b <> STABLE -> status a <> STABLE)
  /\ (bloom_status a = STRONG_BLOOM -> bloom_status b = STRONG_BLOOM)
  /\ (bloom_status b = BLOOM_FAILURE -> bloom_status a = BLOOM_FAILURE).
Proof.
  intros a b Hab.
  assert (Hlt : forall c, (b <? c) = true -> (a <? c) = true)
    by (intros c; apply leb_ltb_trans; exact Hab).
  assert (Hgt : forall c, (c <? a) = true -> (c <? b) = true)
    by (intros c Hc; eapply ltb_leb_trans; eauto).
  assert (Hst : status a = STABLE -> status b = STABLE).
  { unfold status.
    destruct (b <? -50) eqn:B50; [rewrite (Hlt _ B50); destruct (a <? -20); discriminate|].
    destruct (b <? -20) eqn:B20; [rewrite (Hlt _ B20); destruct (a <? -50); discriminate|].
    reflexivity. }
  split; [|split; [|split; [|split]]].
  - unfold status. destruct (b <? -50) eqn:B50.
    + rewrite (Hlt _ B50). reflexivity.
    + destruct (b <? -20); discriminate.
  - exact Hst.
  - intros Hb Ha. apply Hb, Hst, Ha.
  - unfold bloom_status. destruct (20 <? a) eqn:A20.
    + rewrite (Hgt _ A20). reflexivity.
    + destruct (0 <? a); discriminate.
  - unfold bloom_status.
    destruct (20 <? a) eqn:A20; [rewrite (Hgt _ A20); discriminate|].
    destruct (0 <? a) eqn:A0; [rewrite (Hgt _ A0); destruct (20 <? b); discriminate|].
    reflexivity.
Qed.

Lemma bands_are_monotone_witness :
  (status (-35) = CRITICAL -> status (-60) = CRITICAL)
  /\ (status (-60) = STABLE -> status (-35) = STABLE)
  /\ (status (-35) <> STABLE -> status (-60) <> STABLE)
  /\ (bloom_status (-60) = STRONG_BLOOM -> bloom_status (-35) = STRONG_BLOOM)
  /\ (bloom_status (-35) = BLOOM_FAILURE -> bloom_status (-60) = BLOOM_FAILURE).
Proof.
  apply (bands_are_monotone (-60) (-35)). vm_compute. reflexivity.
Defined.

(** X3.  [dec27_code.py], lines 282-294.  The nutrient diagnosis as a table.
    With surface nitrate below 0.5 the gradient is read against 10 alone;
    otherwise against 15 alone.  So a very strong upwelling is never
    diagnosed under low surface nitrate, a limitation never with a gradient
    above 10, and nothing is printed when surface nitrate is not below 0.5
    and the gradient is not above 15, which includes every NaN. *)
Theorem nutrient_diagnosis_table :
  forall bloom_surf bloom_deep : float,
  let g := gradient bloom_surf bloom_deep in
  (diagnosis bloom_surf bloom_deep = EFFICIENT_UTILIZATION
   <-> (bloom_surf <? 0.5) = true /\ (10 <? g) = true)
  /\ (diagnosis bloom_surf bloom_deep = VERY_STRONG_UPWELLING
      <-> (bloom_surf <? 0.5) = false /\ (15 <? g) = true)
  /\ (diagnosis bloom_surf bloom_deep = NUTRIENT_LIMITATION
      <-> (bloom_surf <? 0.5) = true /\ (10 <? g) = false)
  /\ (diagnosis bloom_surf bloom_deep = NO_DIAGNOSIS
      <-> (bloom_surf <? 0.5) = false /\ (15 <? g) = false)
  /\ diagnosis nan nan = NO_DIAGNOSIS.
Proof.
  intros s d g.
  assert (H15 : (15 <? g) = true -> (10 <? g) = true).
  { apply ltb_trans. vm_compute. reflexivity. }
  unfold diagnosis. fold g.
  destruct (s <? 0.5) eqn:S; destruct (10 <? g) eqn:G10; destruct (15 <? g) eqn:G15;
    cbn [andb];
    try (specialize (H15 eq_refl); discriminate);
    repeat split; try (intros; (discriminate || reflexivity || tauto));
    try (intros [? ?]; discriminate).
Qed.

End BandFacts.

(** ** The calendar: the bloom window and the order of day numbers *)

Section CalendarFacts.
Import Calendar FileName Forecast.
Local Open Scope Z_scope.

Lemma valid_date_bounds (y m d : Z) :
  valid_date y m d = true -> 1 <= m <= 12 /\ 1 <= d <= days_in_month y m.
Proof.
  unfold valid_date. intros H.
  apply andb_prop in H. destruct H as [H H4].
  apply andb_prop in H. destruct H as [H H3].
  apply andb_prop in H. destruct H as [H1 H2].
  apply Z.leb_le in H1, H2, H3, H4. lia.
Qed.

Lemma month_cases (m : Z) :
  1 <= m <= 12 ->
  m = 1 \/ m = 2 \/ m = 3 \/ m = 4 \/ m = 5 \/ m = 6
  \/ m = 7 \/ m = 8 \/ m = 9 \/ m = 10 \/ m = 11 \/ m = 12.
Proof. lia. Qed.

Lemma days_in_month_le_31 (y m : Z) : days_in_month y m <= 31.
Proof.
  unfold days_in_month.
  destruct m as [|p|p]; try lia.
  repeat (destruct p as [p|p|]; cbn; try lia; try (destruct (is_leap y); lia)).
Qed.

(** X4.  [output.py], line 81; [bio_3d.py], lines 100 and 104.  The bloom
    window [slice('2025-10-01', '2025-11-30')] holds both of its ends and is
    exactly October and November of 2025: a time step is kept if and only
    if its date lies in one of these two months. *)
Theorem bloom_window_is_october_and_november :
  forall t : Timestamp,
  valid_date (year t) (month t) (day t) = true ->
  (in_bloom_window t = true <-> year t = 2025 /\ (month t = 10 \/ month t = 11))
  /\ (forall (ts : Series) (v : float),
        In (t, v) (bloom_period ts)
        <-> In (t, v) ts /\ year t = 2025 /\ (month t = 10 \/ month t = 11))
  /\ (forall (times : list Timestamp) (series kept : list Grid.cell) (c : Grid.cell),
        Bio3dScript.sel_bloom (Some times) series = Some kept ->
        In c kept ->
        exists t', In (t', c) (combine times series) /\ in_bloom_window t' = true).
Proof.
  intros t Hv.
  assert (Hw : in_bloom_window t = true
               <-> year t = 2025 /\ (month t = 10 \/ month t = 11)).
  { destruct t as [y m d]. cbn [year month day] in *.
    apply valid_date_bounds in Hv. destruct Hv as [Hm Hd].
    pose proof (days_in_month_le_31 y m) as H31.
    assert (H30 : m = 11 -> d <= 30).
    { intros ->. change (days_in_month y 11) with 30 in Hd. lia. }
    unfold in_bloom_window, ts_leb, ts_compare, bloom_start, bloom_end.
    cbn [year month day].
    destruct (Z.compare_spec 2025 y), (Z.compare_spec y 2025);
      try lia;
      destruct (Z.compare_spec 10 m), (Z.compare_spec m 11);
      try lia;
      destruct (Z.compare_spec 1 d), (Z.compare_spec d 30);
      cbn [andb]; split; intros; try discriminate; try reflexivity; try lia. }
  split; [exact Hw|]. split.
  - intros ts v. unfold bloom_period. rewrite filter_In. cbn [fst].
    rewrite Hw. tauto.
  - intros times series kept c Hs Hc. unfold Bio3dScript.sel_bloom in Hs.
    injection Hs as <-. apply in_map_iff in Hc.
    destruct Hc as ([t' c'] & Hc & Hin). cbn [snd] in Hc. subst c'.
    apply filter_In in Hin. cbn [fst] in Hin. exists t'. exact Hin.
Qed.

Lemma bloom_window_is_october_and_november_witness :
  in_bloom_window (mkTimestamp 2025 10 1) = true
  /\ in_bloom_window (mkTimestamp 2025 11 30) = true
  /\ (in_bloom_window (mkTimestamp 2025 9 30) = true -> False)
  /\ (in_bloom_window (mkTimestamp 2025 12 1) = true -> False).
Proof.
  refine (conj _ (conj _ (conj _ _))).
  - exact (proj2 (proj1 (bloom_window_is_october_and_november
                           (mkTimestamp 2025 10 1) eq_refl))
             (conj eq_refl (or_introl eq_refl))).
  - exact (proj2 (proj1 (bloom_window_is_october_and_november
                           (mkTimestamp 2025 11 30) eq_refl))
             (conj eq_refl (or_intror eq_refl))).
  - intros H.
    destruct (proj1 (proj1 (bloom_window_is_october_and_november
                              (mkTimestamp 2025 9 30) eq_refl)) H) as [_ [E|E]];
      discriminate E.
  - intros H.
    destruct (proj1 (proj1 (bloom_window_is_october_and_november
                              (mkTimestamp 2025 12 1) eq_refl)) H) as [_ [E|E]];
      discriminate E.
Defined.

(** Within one year the order of two dates is the order of their day
    numbers. *)
Lemma day_of_year_order (a b : Timestamp) :
  valid_date (year a) (month a) (day a) = true ->
  valid_date (year b) (month b) (day b) = true ->
  year a = year b ->
  day_of_year a < day_of_year b -> ts_ltb a b = true.
Proof.
  destruct a as [ya ma da], b as [yb mb db]. cbn [year month day].
  intros Ha Hb -> Hlt.
  apply valid_date_bounds in Ha, Hb.
  destruct Ha as [Hma Hda], Hb as [Hmb Hdb].
  unfold ts_ltb, ts_compare. cbn [year month day]. rewrite Z.compare_refl.
  unfold day_of_year in Hlt. cbn [year month day] in Hlt.
  destruct (month_cases ma Hma) as [->|[->|[->|[->|[->|[->|[->|[->|[->|[->|[->| ->]]]]]]]]]]];
    destruct (month_cases mb Hmb) as [->|[->|[->|[->|[->|[->|[->|[->|[->|[->|[->| ->]]]]]]]]]]];
    unfold days_before_month, months in Hlt;
    cbn -[is_leap Z.add Z.lt Z.le] in Hlt, Hda, Hdb |- *;
    try reflexivity;
    revert Hlt Hda Hdb; destruct (is_leap yb); intros Hlt Hda Hdb;
    try (exfalso; lia);
    destruct (Z.compare_spec da db); try reflexivity; exfalso; lia.
Qed.

(** X5.  [processing.py], lines 62-65 and 84; [output.py], lines 50-51 and
    59.  Dates recovered from day numbers sort as the numbers do: of two day
    numbers of 2025 the greater gives the later date, day 366 (the first
    day of 2026) included, so sorting by time puts such files in the order
    of their day numbers. *)
Theorem day_numbers_order_dates :
  forall j1 j2 : Z,
  1 <= j1 -> j1 < j2 -> j2 <= 366 ->
  to_datetime_Yj (2025 * 1000 + j1) = Some (date_of_yday 2025 j1)
  /\ to_datetime_Yj (2025 * 1000 + j2) = Some (date_of_yday 2025 j2)
  /\ ts_ltb (date_of_yday 2025 j1) (date_of_yday 2025 j2) = true
  /\ ts_leb (date_of_yday 2025 j2) (date_of_yday 2025 j1) = false.
Proof.
  intros j1 j2 H1 H12 H2.
  assert (Hparse : forall j, 1 <= j <= 366 ->
            to_datetime_Yj (2025 * 1000 + j) = Some (date_of_yday 2025 j)).
  { intros j Hj. unfold to_datetime_Yj.
    assert (Hq : (2025 * 1000 + j) / 1000 = 2025)
      by (symmetry; apply Z.div_unique with j; lia).
    assert (Hr : (2025 * 1000 + j) mod 1000 = j)
      by (symmetry; apply Z.mod_unique with 2025; lia).
    rewrite Hq, Hr.
    replace ((1000 <=? 2025) && (2025 <=? 9999) && (1 <=? j) && (j <=? 366)) with true;
      [reflexivity|].
    symmetry. apply andb_true_intro. split; [|apply Z.leb_le; lia].
    apply andb_true_intro. split; [reflexivity | apply Z.leb_le; lia]. }
  assert (Hlt : ts_ltb (date_of_yday 2025 j1) (date_of_yday 2025 j2) = true).
  { destruct (date_of_yday_2025 j1) as (Hy1 & Hd1 & Hv1); [lia|].
    destruct (Z.eq_dec j2 366) as [->|Hne].
    - change (date_of_yday 2025 366) with (mkTimestamp 2026 1 1).
      unfold ts_ltb, ts_compare. rewrite Hy1. reflexivity.
    - destruct (date_of_yday_2025 j2) as (Hy2 & Hd2 & Hv2); [lia|].
      apply day_of_year_order; try assumption; [congruence | lia]. }
  split; [apply Hparse; lia|]. split; [apply Hparse; lia|].
  split; [exact Hlt|].
  unfold ts_ltb in Hlt. unfold ts_leb. rewrite ts_compare_antisym.
  destruct (ts_compare (date_of_yday 2025 j1) (date_of_yday 2025 j2));
    try discriminate. reflexivity.
Qed.

Lemma day_numbers_order_dates_witness :
  ts_ltb (date_of_yday 2025 59) (date_of_yday 2025 60) = true
  /\ date_of_yday 2025 59 = mkTimestamp 2025 2 28
  /\ date_of_yday 2025 60 = mkTimestamp 2025 3 1
  /\ ts_ltb (date_of_yday 2025 365) (date_of_yday 2025 366) = true.
Proof.
  refine (conj _ (conj eq_refl (conj eq_refl _))).
  - exact (proj1 (proj2 (proj2 (day_numbers_order_dates 59 60
                                  ltac:(lia) ltac:(lia) ltac:(lia))))).
  - exact (proj1 (proj2 (proj2 (day_numbers_order_dates 365 366
                                  ltac:(lia) ltac:(lia) ltac:(lia))))).
Defined.

End CalendarFacts.

(** ** Paths and recovered dates *)

Section PathFacts.
Import Calendar FileName Loader Aux.
Local Open Scope string_scope.
Local Open Scope list_scope.

Lemma basename_without_slash (s : string) :
  contains_slash s = false -> basename s = s.
Proof.
  unfold contains_slash. destruct s as [|c s]; [reflexivity|].
  cbn [basename list_ascii_of_string existsb].
  intros H. apply orb_false_elim in H. destruct H as [Hc Hs].
  rewrite Hs, (Ascii.eqb_sym c "/"%char), Hc. reflexivity.
Qed.

Lemma contains_slash_after (dir name : string) :
  contains_slash (dir ++ String "/" name) = true.
Proof.
  unfold contains_slash. induction dir as [|c dir IH].
  - reflexivity.
  - change ((String c dir ++ String "/" name)%string)
      with (String c (dir ++ String "/" name)%string).
    cbn [list_ascii_of_string existsb]. rewrite IH. apply orb_true_r.
Qed.

Lemma basename_of_path (dir name : string) :
  contains_slash name = false -> basename (dir ++ String "/" name) = name.
Proof.
  intros Hn. induction dir as [|c dir IH].
  - change (("" ++ String "/" name)%string) with (String "/" name).
    cbn [basename]. unfold contains_slash in Hn. rewrite Hn. reflexivity.
  - change ((String c dir ++ String "/" name)%string)
      with (String c (dir ++ String "/" name)%string).
    cbn [basename].
    pose proof (contains_slash_after dir name) as Hs. unfold contains_slash in Hs.
    rewrite Hs. exact IH.
Qed.

Lemma basename_has_no_slash (f : string) : contains_slash (basename f) = false.
Proof.
  induction f as [|c f IH]; [reflexivity|].
  cbn [basename].
  destruct (existsb (Ascii.eqb "/"%char) (list_ascii_of_string f)) eqn:Hs; [exact IH|].
  destruct (Ascii.eqb c "/"%char) eqn:Hc.
  - exact Hs.
  - unfold contains_slash. cbn [list_ascii_of_string existsb].
    rewrite Hs, (Ascii.eqb_sym "/"%char c), Hc. reflexivity.
Qed.

(** X6.  [processing.py], line 51, and [output.py], line 43.  The date is
    looked for in the file name alone: whatever directories a path runs
    through, [basename] gives what follows the last slash, so digits in a
    folder name are never read as a date, and a bare file name is taken as
    it is. *)
Theorem date_is_read_from_file_name :
  forall dir name : string,
  contains_slash name = false ->
  basename (dir ++ "/" ++ name)%string = name
  /\ basename name = name
  /\ contains_slash (basename (dir ++ "/" ++ name)%string) = false
  /\ recover_timestamp (basename (dir ++ "/" ++ name)%string) = recover_timestamp name
  /\ forall (Grid : Type) (e : Entry Grid) (d : Dataset Grid),
       path e = (dir ++ "/" ++ name)%string ->
       load_one_output d e
       = match content e, recover_timestamp name with
         | Some ds_i, Recovered timestamp =>
             if has_time_dim e then d else d ++ [(timestamp, ds_i)]
         | _, _ => d
         end.
Proof.
  intros dir name Hn.
  assert (Hb : basename (dir ++ "/" ++ name)%string = name)
    by (apply basename_of_path; exact Hn).
  split; [exact Hb|].
  split; [apply basename_without_slash; exact Hn|].
  split; [apply basename_has_no_slash|].
  split; [rewrite Hb; reflexivity|].
  intros Grid e d Hp. unfold load_one_output. rewrite Hp, Hb.
  destruct (content e); [|reflexivity].
  destruct (recover_timestamp name); reflexivity.
Qed.

Lemma date_is_read_from_file_name_witness :
  basename ("Data/20240101/run_2025001" ++ "/" ++ "AQUA_MODIS.20250919.L3m.DAY.CHL.nc")%string
  = "AQUA_MODIS.20250919.L3m.DAY.CHL.nc"
  /\ recover_timestamp
       (basename ("Data/20240101/run_2025001" ++ "/" ++ "AQUA_MODIS.20250919.L3m.DAY.CHL.nc")%string)
     = Recovered (mkTimestamp 2025 9 19).
Proof.
  refine (conj _ _).
  - exact (proj1 (date_is_read_from_file_name "Data/20240101/run_2025001"
                    "AQUA_MODIS.20250919.L3m.DAY.CHL.nc" eq_refl)).
  - rewrite (proj1 (proj2 (proj2 (proj2
               (date_is_read_from_file_name "Data/20240101/run_2025001"
                  "AQUA_MODIS.20250919.L3m.DAY.CHL.nc" eq_refl))))).
    vm_compute. reflexivity.
Defined.

Lemma int_of_three_digits (a b c : ascii) :
  is_digit a = true -> is_digit b = true -> is_digit c = true ->
  (0 <= int_of_digits (String a (String b (String c EmptyString))) <= 999)%Z.
Proof.
  intros Ha Hb Hc.
  pose proof (digit_val_range a Ha). pose proof (digit_val_range b Hb).
  pose proof (digit_val_range c Hc).
  unfold int_of_digits. cbn [int_of_digits_acc]. lia.
Qed.

(** X7.  [processing.py], lines 53-65, and [output.py], lines 44-51.  Every
    timestamp the loaders recover is a day of the calendar, and it lies in
    2025, with one exception: day number 366, which 2025 does not have, is
    January 1st of 2026. *)
Theorem recovered_dates_are_valid :
  forall (filename : string) (t : Timestamp),
  recover_timestamp filename = Recovered t ->
  valid_date (year t) (month t) (day t) = true
  /\ (year t = 2025%Z \/ t = mkTimestamp 2026 1 1)
  /\ (t = mkTimestamp 2026 1 1 ->
      exists s, re_search pat_julian filename = Some s
                /\ int_of_digits (substring 4 3 s) = 366%Z).
Proof.
  intros filename t. unfold recover_timestamp.
  destruct (re_search pat_ymd filename) as [s|] eqn:E1.
  - destruct (re_search_ymd_shape _ _ E1) as (a & b & c & e & -> & Ha & Hb & Hc & He).
    unfold to_datetime_Ymd.
    change (String.length _) with 8%nat.
    replace (all_digits _) with true
      by (simpl; rewrite Ha, Hb, Hc, He; reflexivity).
    simpl andb. cbv iota.
    change (int_of_digits (substring 0 4 _)) with 2025%Z. cbv zeta.
    destruct (valid_date 2025 _ _) eqn:Hv; [|discriminate].
    intros H. injection H as <-. cbn [year month day].
    split; [exact Hv|]. split; [left; reflexivity|]. discriminate.
  - destruct (re_search pat_julian filename) as [s|] eqn:E2; [|discriminate].
    destruct (re_search_julian_shape _ _ E2) as (a & b & c & -> & Ha & Hb & Hc).
    change (int_of_digits (substring 0 4 _)) with 2025%Z.
    change (substring 4 3 (String "2" (String "0" (String "2" (String "5"
              (String a (String b (String c EmptyString))))))))
      with (String a (String b (String c EmptyString))).
    pose proof (int_of_three_digits a b c Ha Hb Hc) as Hj.
    set (j := int_of_digits (String a (String b (String c EmptyString)))) in *.
    unfold to_datetime_Yj.
    assert (Hq : ((2025 * 1000 + j) / 1000 = 2025)%Z)
      by (symmetry; apply Z.div_unique with j; lia).
    assert (Hr : ((2025 * 1000 + j) mod 1000 = j)%Z)
      by (symmetry; apply Z.mod_unique with 2025%Z; lia).
    rewrite Hq, Hr.
    destruct ((1000 <=? 2025)%Z && (2025 <=? 9999)%Z && (1 <=? j)%Z && (j <=? 366)%Z)
      eqn:Hrange; [|discriminate].
    apply andb_prop in Hrange. destruct Hrange as [Hrange H366].
    apply andb_prop in Hrange. destruct Hrange as [_ H1].
    apply Z.leb_le in H1, H366.
    intros H. injection H as <-.
    destruct (Z.eq_dec j 366) as [Hj366|Hne].
    + rewrite Hj366. split; [reflexivity|]. split; [right; reflexivity|].
      intros _. exists (String "2" (String "0" (String "2" (String "5"
                  (String a (String b (String c EmptyString))))))).
      split; [reflexivity|]. exact Hj366.
    + destruct (date_of_yday_2025 j) as (Hy & _ & Hv); [lia|].
      split; [exact Hv|]. split; [left; exact Hy|].
      intros Ht. rewrite Ht in Hy. discriminate.
Qed.

Lemma recovered_dates_are_valid_witness :
  valid_date 2025 12 12 = true
  /\ valid_date 2026 1 1 = true
  /\ recover_timestamp "A2025366.L3m_DAY_CHL.nc" = Recovered (mkTimestamp 2026 1 1).
Proof.
  refine (conj _ (conj _ _)).
  - exact (proj1 (recovered_dates_are_valid "A20251212025128.L3m_8D_CHL.nc"
                    (mkTimestamp 2025 12 12) eq_refl)).
  - exact (proj1 (recovered_dates_are_valid "A2025366.L3m_DAY_CHL.nc"
                    (mkTimestamp 2026 1 1) eq_refl)).
  - vm_compute. reflexivity.
Defined.

End PathFacts.

(** ** What the assembled dataset is made of *)

Section ProvenanceFacts.
Import Calendar FileName Loader Scenarios.
Local Open Scope string_scope.
Local Open Scope list_scope.

Lemma ts_compare_refl (a : Timestamp) : ts_compare a a = Eq.
Proof. unfold ts_compare. rewrite !Z.compare_refl. reflexivity. Qed.

Section Loaded.
Variable Grid : Type.
Variable concat_accepts : list Grid -> bool.

(** The loop appends, file after file, what each file contributes. *)
Lemma load_one_output_app (d : Dataset Grid) (e : Entry Grid) :
  load_one_output d e = d ++ load_one_output [] e.
Proof.
  unfold load_one_output.
  destruct (content e); [|symmetry; apply app_nil_r].
  destruct (recover_timestamp _); try (symmetry; apply app_nil_r).
  destruct (has_time_dim e); [symmetry; apply app_nil_r | reflexivity].
Qed.

Lemma load_loop_flat_map (files : list (Entry Grid)) :
  forall d, fold_left load_one_output files d
            = d ++ flat_map (load_one_output []) files.
Proof.
  induction files as [|e files IH]; intros d; cbn [fold_left flat_map].
  - symmetry. apply app_nil_r.
  - rewrite IH, (load_one_output_app d e), <- app_assoc. reflexivity.
Qed.

Lemma load_loop_output_flat_map (files : list (Entry Grid)) :
  load_loop_output files = flat_map (load_one_output []) files.
Proof. unfold load_loop_output. rewrite load_loop_flat_map. reflexivity. Qed.

Lemma load_one_output_in (e : Entry Grid) (t : Timestamp) (g : Grid) :
  In (t, g) (load_one_output [] e)
  <-> content e = Some g /\ has_time_dim e = false
      /\ recover_timestamp (basename (path e)) = Recovered t.
Proof.
  unfold load_one_output.
  destruct (content e) as [g'|]; [|split; [intros [] | intros [H _]; discriminate]].
  destruct (recover_timestamp _) as [t'| |];
    try (split; [intros [] | intros (_ & _ & H); discriminate]).
  destruct (has_time_dim e).
  - split; [intros [] | intros (_ & H & _); discriminate].
  - cbn [app In]. split.
    + intros [H|[]]. inversion H. auto.
    + intros (H1 & _ & H2). inversion H1. inversion H2. auto.
Qed.

Lemma load_one_output_length (e : Entry Grid) :
  (List.length (load_one_output [] e) <= 1)%nat.
Proof.
  unfold load_one_output.
  destruct (content e); [|simpl; lia].
  destruct (recover_timestamp _); try (simpl; lia).
  destruct (has_time_dim e); simpl; lia.
Qed.

Lemma load_loop_output_length (files : list (Entry Grid)) :
  (List.length (load_loop_output files) <= List.length files)%nat.
Proof.
  rewrite load_loop_output_flat_map.
  induction files as [|e files IH]; cbn [flat_map List.length]; [lia|].
  rewrite length_app. pose proof (load_one_output_length e). lia.
Qed.

Lemma load_loop_output_in (files : list (Entry Grid)) (t : Timestamp) (g : Grid) :
  In (t, g) (load_loop_output files)
  <-> exists e, In e files /\ content e = Some g /\ has_time_dim e = false
                /\ recover_timestamp (basename (path e)) = Recovered t.
Proof.
  rewrite load_loop_output_flat_map, in_flat_map.
  split; intros (e & He & H); exists e; (split; [exact He|]);
    apply load_one_output_in; exact H.
Qed.

Lemma file_list_in (fs : FileSystem Grid) (data_folder : string) (e : Entry Grid) :
  In e (file_list fs data_folder)
  <-> In e (glob fs (resolve_pattern fs data_folder)) /\ is_file e = true.
Proof.
  unfold file_list. rewrite filter_In.
  split; intros [H1 H2]; (split; [|exact H2]).
  - eapply Permutation_in; [apply Permutation_sym, sort_by_perm | exact H1].
  - eapply Permutation_in; [apply sort_by_perm | exact H1].
Qed.

Lemma sortby_time_in (d : Dataset Grid) (p : Timestamp * Grid) :
  In p (sortby_time d) <-> In p d.
Proof.
  split; intros H.
  - eapply Permutation_in; [apply Permutation_sym, sortby_time_perm | exact H].
  - eapply Permutation_in; [apply sortby_time_perm | exact H].
Qed.

(** What one run of step 1 of [processing.py] printed when it finished. *)
Lemma finished_processing_log (fs : FileSystem Grid) (ds : Dataset Grid) (log : list Msg) :
  load_and_merge_processing Grid concat_accepts fs = (Finished ds, log) ->
  In (FoundFiles (List.length (file_list fs data_folder_processing))) log
  /\ In (Compiled (List.length ds)) log.
Proof.
  unfold load_and_merge_processing.
  destruct (file_list fs data_folder_processing) as [|e files] eqn:Ef; [discriminate|].
  match goal with
  | |- context [load_loop_processing ?fl ?l] =>
      destruct (load_loop_log_grows Grid fl [] l) as [more Hmore];
      change (fold_left load_one_processing fl ([], l))
        with (load_loop_processing fl l) in Hmore;
      revert Hmore;
      destruct (load_loop_processing fl l) as [d log1]; intros Hmore
  end.
  cbn [snd] in Hmore.
  destruct d as [|x d]; [discriminate|].
  destruct (concat Grid concat_accepts (x :: d)) as [ds'|] eqn:Ec; [|discriminate].
  intros H. inversion H. subst ds log. unfold time_index. rewrite length_map.
  rewrite <- (Permutation_length (sortby_time_perm Grid _)).
  apply concat_some in Ec. destruct Ec as [-> _].
  split; [|in_log].
  rewrite Hmore.
  destruct (isdir fs data_folder_processing); in_log.
Qed.

(** Insertion keeps the elements of one date in their order. *)
Lemma insert_by_time_filter (t : Timestamp) (x : Timestamp * Grid) (l : Dataset Grid) :
  filter (fun p => ts_eqb (fst p) t) (insert_by (time_leb Grid) x l)
  = filter (fun p => ts_eqb (fst p) t) (x :: l).
Proof.
  induction l as [|y l IH]; [reflexivity|].
  cbn [insert_by]. destruct (time_leb Grid x y) eqn:Hxy; [reflexivity|].
  cbn [filter] in *. rewrite IH.
  destruct (ts_eqb (fst x) t) eqn:Hx; [|reflexivity].
  destruct (ts_eqb (fst y) t) eqn:Hy; [|reflexivity].
  exfalso. unfold ts_eqb in Hx, Hy.
  destruct (ts_compare (fst x) t) eqn:Cx; try discriminate.
  destruct (ts_compare (fst y) t) eqn:Cy; try discriminate.
  apply ts_compare_eq in Cx, Cy. unfold time_leb, ts_leb in Hxy.
  rewrite Cx, Cy, ts_compare_refl in Hxy. discriminate.
Qed.

Lemma sortby_time_stable (t : Timestamp) (d : Dataset Grid) :
  filter (fun p => ts_eqb (fst p) t) (sortby_time d)
  = filter (fun p => ts_eqb (fst p) t) d.
Proof.
  unfold sortby_time. induction d as [|x d IH]; [reflexivity|].
  cbn [sort_by]. rewrite insert_by_time_filter. cbn [filter]. rewrite IH. reflexivity.
Qed.

(** The loop itself never prints that no dataset is valid. *)
Lemma load_loop_log_no_verdict (files : list (Entry Grid)) :
  forall d l,
  Forall (fun m => m <> ErrNoValidDatasets) l ->
  Forall (fun m => m <> ErrNoValidDatasets)
         (snd (fold_left load_one_processing files (d, l))).
Proof.
  induction files as [|e fl IH]; intros d l Hl.
  - exact Hl.
  - cbn [fold_left].
    destruct (load_one_processing (d, l) e) as [d' l'] eqn:E1.
    apply IH. unfold load_one_processing in E1.
    destruct (content e); [|inversion E1; subst; split_log; try exact Hl; discriminate].
    destruct (recover_timestamp _);
      [destruct (has_time_dim e)| |];
      inversion E1; subst; split_log; try exact Hl; discriminate.
Qed.

End Loaded.

(** X8.  [processing.py], lines 30-86, and [output.py], lines 33-59.  The
    time steps of the assembled dataset are exactly the contributions of
    the files: a grid stands at a date if and only if a regular file the
    pattern matches could be opened, has no time dimension of its own, and
    has a name from which that date is recovered.  There are no more time
    steps than files, and [processing.py] prints both counts. *)
Theorem time_steps_come_from_dated_files :
  forall (Grid : Type) (concat_accepts : list Grid -> bool) (fs : FileSystem Grid),
  (forall ds log,
     load_and_merge_processing Grid concat_accepts fs = (Finished ds, log) ->
     (forall t g,
        In (t, g) ds
        <-> exists e, In e (glob fs (resolve_pattern fs data_folder_processing))
                      /\ is_file e = true /\ content e = Some g
                      /\ has_time_dim e = false
                      /\ recover_timestamp (basename (path e)) = Recovered t)
     /\ (0 < List.length ds <= List.length (file_list fs data_folder_processing))%nat
     /\ In (FoundFiles (List.length (file_list fs data_folder_processing))) log
     /\ In (Compiled (List.length ds)) log)
  /\ (forall ds log,
        load_and_merge_output Grid concat_accepts fs = (Finished ds, log) ->
        (forall t g,
           In (t, g) ds
           <-> exists e, In e (glob fs (resolve_pattern fs data_folder_output))
                         /\ is_file e = true /\ content e = Some g
                         /\ has_time_dim e = false
                         /\ recover_timestamp (basename (path e)) = Recovered t)
        /\ (0 < List.length ds <= List.length (file_list fs data_folder_output))%nat
        /\ log = [LoadingSatellite]).
Proof.
  intros Grid concat_accepts fs.
  assert (Hin : forall folder ds,
            ds = sortby_time (load_loop_output (file_list fs folder)) ->
            forall t g,
              In (t, g) ds
              <-> exists e, In e (glob fs (resolve_pattern fs folder))
                            /\ is_file e = true /\ content e = Some g
                            /\ has_time_dim e = false
                            /\ recover_timestamp (basename (path e)) = Recovered t).
  { intros folder ds -> t g. rewrite sortby_time_in, load_loop_output_in.
    split; intros (e & He & H); exists e.
    - apply file_list_in in He. tauto.
    - split; [apply file_list_in|]; tauto. }
  assert (Hlen : forall folder ds,
            ds = sortby_time (load_loop_output (file_list fs folder)) ->
            (List.length ds <= List.length (file_list fs folder))%nat).
  { intros folder ds ->.
    rewrite <- (Permutation_length (sortby_time_perm Grid _)).
    apply load_loop_output_length. }
  split; intros ds log Hrun.
  - pose proof (finished_processing Grid concat_accepts fs ds log Hrun) as Hds.
    pose proof (finished_processing_log Grid concat_accepts fs ds log Hrun) as [Hf Hc].
    split; [apply Hin; exact Hds|].
    split; [|split; assumption].
    split; [|apply (Hlen _ _ Hds)].
    revert Hrun. unfold load_and_merge_processing.
    destruct (file_list fs data_folder_processing); [discriminate|].
    destruct (load_loop_processing _ _) as [d log1].
    destruct d as [|x d]; [discriminate|].
    destruct (concat Grid concat_accepts (x :: d)) as [ds'|] eqn:Ec; [|discriminate].
    apply concat_some in Ec. destruct Ec as [-> _].
    intros H. inversion H.
    rewrite <- (Permutation_length (sortby_time_perm Grid _)). simpl. lia.
  - pose proof (finished_output Grid concat_accepts fs ds log Hrun) as Hds.
    split; [apply Hin; exact Hds|].
    revert Hrun. unfold load_and_merge_output.
    destruct (file_list fs data_folder_output) as [|e0 files] eqn:Ef; [discriminate|].
    destruct (concat Grid concat_accepts _) as [ds'|] eqn:Ec; [|discriminate].
    apply concat_some in Ec. destruct Ec as [-> Hne].
    intros H. inversion H. subst. split; [|reflexivity].
    split.
    + rewrite <- (Permutation_length (sortby_time_perm Grid _)).
      destruct (load_loop_output (e0 :: files)); [congruence | simpl; lia].
    + rewrite <- (Permutation_length (sortby_time_perm Grid _)).
      apply load_loop_output_length.
Qed.

(** X9.  [processing.py], lines 78-80, and [output.py], line 59.  When
    files are found but every one of them is skipped (it cannot be opened,
    it has a time dimension, or its name gives no date), [processing.py]
    says so and exits with status 0, while [output.py], which has no such
    check, ends in the exception [xr.concat] raises on an empty list: a
    traceback and status 1, with nothing printed after its first line. *)
Theorem every_file_skipped :
  forall (Grid : Type) (concat_accepts : list Grid -> bool)
         (resample_weekly : Dataset Grid -> option Grid.DataArray)
         (Weekly : Type) (resample_output : Dataset Grid -> option Weekly)
         (zone_series : Weekly -> Selection.Bounds -> option Forecast.Series)
         (mean : list float -> float)
         (fs : FileSystem Grid),
  let skipped (e : Entry Grid) :=
    content e = None \/ has_time_dim e = true
    \/ forall t, recover_timestamp (basename (path e)) <> Recovered t in
  (file_list fs data_folder_processing <> [] ->
   (forall e, In e (file_list fs data_folder_processing) -> skipped e) ->
   exists log,
     load_and_merge_processing Grid concat_accepts fs
     = (Exited 0, log ++ [ErrNoValidDatasets])
     /\ ~ In ErrNoValidDatasets log
     /\ exit_status (fst (Processing.run Grid concat_accepts resample_weekly fs)) = 0%Z)
  /\ (file_list fs data_folder_output <> [] ->
      (forall e, In e (file_list fs data_folder_output) -> skipped e) ->
      load_and_merge_output Grid concat_accepts fs = (Traceback, [LoadingSatellite])
      /\ Forecast.run Grid concat_accepts Weekly resample_output zone_series mean fs
         = (Traceback, [Forecast.Loading LoadingSatellite])
      /\ exit_status
           (fst (Forecast.run Grid concat_accepts Weekly resample_output
                   zone_series mean fs)) = 1%Z).
Proof.
  intros Grid concat_accepts resample_weekly Weekly resample_output zone_series mean fs
         skipped.
  assert (Hnone : forall files : list (Entry Grid),
            (forall e, In e files -> skipped e) -> load_loop_output files = []).
  { intros files Hall. rewrite load_loop_output_flat_map.
    induction files as [|e files IH]; [reflexivity|].
    cbn [flat_map]. rewrite IH by (intros e' He'; apply Hall; right; exact He').
    rewrite app_nil_r.
    destruct (load_one_output [] e) as [|[t g] l] eqn:E; [reflexivity|].
    assert (Hin : In (t, g) (load_one_output [] e)) by (rewrite E; left; reflexivity).
    apply load_one_output_in in Hin. destruct Hin as (Hc & Ht & Hr).
    destruct (Hall e (or_introl eq_refl)) as [H|[H|H]]; [congruence|congruence|].
    exfalso. exact (H t Hr). }
  split; intros Hne Hall.
  - assert (Hstep : exists log,
              load_and_merge_processing Grid concat_accepts fs
              = (Exited 0, log ++ [ErrNoValidDatasets])
              /\ ~ In ErrNoValidDatasets log).
    { unfold load_and_merge_processing.
      pose proof (Hnone _ Hall) as Hd.
      destruct (file_list fs data_folder_processing) as [|e0 files] eqn:Ef; [congruence|].
      match goal with
      | |- context [load_loop_processing ?fl ?l] =>
          rewrite <- (load_loop_processing_datasets Grid fl l) in Hd;
          assert (Hlog : Forall (fun m => m <> ErrNoValidDatasets)
                                (snd (load_loop_processing fl l)));
          [| revert Hd Hlog; destruct (load_loop_processing fl l) as [d log1];
             intros Hd Hlog ]
      end.
      - apply load_loop_log_no_verdict.
        destruct (isdir fs data_folder_processing); split_log; discriminate.
      - cbn [fst snd] in *. subst d. exists log1. split; [reflexivity|].
        intros Hin. rewrite Forall_forall in Hlog. exact (Hlog _ Hin eq_refl). }
    destruct Hstep as (log & Hrun & Hnot). exists log.
    split; [exact Hrun|]. split; [exact Hnot|].
    unfold Processing.run. rewrite Hrun. reflexivity.
  - assert (Hrun : load_and_merge_output Grid concat_accepts fs
                   = (Traceback, [LoadingSatellite])).
    { unfold load_and_merge_output. pose proof (Hnone _ Hall) as Hd.
      destruct (file_list fs data_folder_output) as [|e0 files] eqn:Ef; [congruence|].
      rewrite Hd. reflexivity. }
    split; [exact Hrun|].
    unfold Forecast.run. rewrite Hrun. split; reflexivity.
Qed.

(** X10.  [processing.py], line 84, and [output.py], line 59.  Sorting by
    time does not reorder files of one date: the grids that stand at a date
    are in the order in which the loop met their files. *)
Theorem same_date_keeps_file_order :
  forall (Grid : Type) (concat_accepts : list Grid -> bool) (fs : FileSystem Grid)
         (t : Timestamp),
  let at_date (d : Dataset Grid) := filter (fun p => ts_eqb (fst p) t) d in
  (forall ds log,
     load_and_merge_processing Grid concat_accepts fs = (Finished ds, log) ->
     at_date ds
     = at_date (flat_map (load_one_output []) (file_list fs data_folder_processing)))
  /\ (forall ds log,
        load_and_merge_output Grid concat_accepts fs = (Finished ds, log) ->
        at_date ds
        = at_date (flat_map (load_one_output []) (file_list fs data_folder_output))).
Proof.
  intros Grid concat_accepts fs t at_date. unfold at_date.
  split; intros ds log Hrun.
  - rewrite (finished_processing Grid concat_accepts fs ds log Hrun).
    rewrite sortby_time_stable, load_loop_output_flat_map. reflexivity.
  - rewrite (finished_output Grid concat_accepts fs ds log Hrun).
    rewrite sortby_time_stable, load_loop_output_flat_map. reflexivity.
Qed.

End ProvenanceFacts.

(** ** Means, extremes and integrals of cells *)

Section ReductionFacts.
Import Selection Grid Aux.
Local Open Scope Q_scope.

Lemma valid_map_some (v : list Q) : valid (map Some v) = v.
Proof. induction v as [|x v IH]; simpl; [reflexivity | rewrite IH; reflexivity]. Qed.

Lemma nanmean_none_iff (l : list cell) : nanmean l = None <-> all_missing l.
Proof.
  rewrite <- valid_nil_iff. unfold nanmean.
  destruct (valid l); split; intros H; try reflexivity; discriminate.
Qed.

Lemma nanmean_skips_missing (l : list cell) : nanmean l = nanmean (map Some (valid l)).
Proof. unfold nanmean. rewrite valid_map_some. reflexivity. Qed.

Lemma fold_max_spec (v : list Q) :
  forall x, let r := fold_left Qmax v x in
  (r = x \/ In r v) /\ x <= r /\ Forall (fun y => y <= r) v.
Proof.
  induction v as [|y v IH]; intros x; simpl.
  - split; [left; reflexivity|]. split; [apply Qle_refl | constructor].
  - destruct (IH (Qmax x y)) as (Hin & Hle & Hall).
    split; [|split].
    + destruct Hin as [Hin|Hin]; [|right; right; exact Hin].
      rewrite Hin. unfold Qmax, GenericMinMax.gmax.
      destruct (x ?= y); auto.
    + eapply Qle_trans; [apply Q.le_max_l | exact Hle].
    + constructor; [|exact Hall].
      eapply Qle_trans; [apply Q.le_max_r | exact Hle].
Qed.

Lemma nanmax_spec (l : list cell) (m : Q) :
  nanmax l = Some m -> In (Some m) l /\ Forall (fun x => x <= m) (valid l).
Proof.
  unfold nanmax. destruct (valid l) as [|x v] eqn:E; [discriminate|].
  intros H. injection H as H.
  destruct (fold_max_spec v x) as (Hin & Hle & Hall). rewrite H in *.
  split.
  - apply in_valid. rewrite E. destruct Hin as [->|Hin]; [left; reflexivity | right; exact Hin].
  - constructor; assumption.
Qed.

Lemma length_pos_Q {A : Type} (x : A) (v : list A) :
  0 < inject_Z (Z.of_nat (List.length (x :: v))).
Proof.
  change 0 with (inject_Z 0). rewrite <- Zlt_Qlt. simpl List.length. lia.
Qed.

End ReductionFacts.

Section ZoneReportFacts.
Import Selection Grid Aux Processing.
Local Open Scope Q_scope.



(** X12.  [processing.py], lines 134-150.  The status of a zone is read off
    the peak of its weekly series, which is the greatest of its values:
    below 1.0 LOW PRODUCTIVITY, above 5.0 VERY HIGH, from 1.0 to 5.0 HEALTHY;
    NO DATA exactly when no week holds a value.  Where there is a peak, the
    average that is printed is a number. *)
Theorem zone_status_follows_peak :
  forall (zone : string) (data : list cell),
  (all_missing data <->
   zone_report zone data
   = [ZoneName zone; AverageProductivity None; StatusLine NO_DATA])
  /\ (forall s, In (StatusLine s) (zone_report zone data) ->
        (s = NO_DATA <-> all_missing data))
  /\ (forall peak, nanmax data = Some peak ->
        In (Some peak) data
        /\ Forall (fun x => x <= peak) (valid data)
        /\ (exists mean_val, nanmean data = Some mean_val)
        /\ exists s,
             zone_report zone data
             = [ZoneName zone; AverageProductivity (nanmean data);
                PeakProductivity peak; StatusLine s]
             /\ (peak < 1 -> s = LOW_PRODUCTIVITY)
             /\ (5 < peak -> s = VERY_HIGH)
             /\ (1 <= peak -> peak <= 5 -> s = HEALTHY_NORMAL)).
Proof.
  intros zone data.
  assert (Hmax : nanmax data = None <-> all_missing data).
  { rewrite <- valid_nil_iff. unfold nanmax.
    destruct (valid data); split; intros H; try reflexivity; discriminate. }
  split; [|split].
  - split.
    + intros H. unfold zone_report.
      rewrite (proj2 Hmax H), (proj2 (nanmean_none_iff data) H). reflexivity.
    + unfold zone_report. destruct (nanmax data) as [p|] eqn:E.
      * cbn [app]. intros H. discriminate.
      * intros _. apply Hmax. reflexivity.
  - intros s. unfold zone_report. destruct (nanmax data) as [p|] eqn:E.
    + cbn [app In]. intros [H|[H|[H|[H|[]]]]]; try discriminate.
      split.
      * intros ->. injection H as H.
        destruct (Qltb p 1.0); [discriminate|].
        destruct (Qltb 5.0 p); discriminate.
      * intros Hm. apply Hmax in Hm. discriminate.
    + cbn [app In]. intros [H|[H|[H|[]]]]; try discriminate.
      injection H as <-. split; [intros _; apply Hmax; reflexivity | reflexivity].
  - intros peak Hp.
    destruct (nanmax_spec data peak Hp) as [Hin Hall].
    split; [exact Hin|]. split; [exact Hall|].
    split.
    + destruct (nanmean data) as [m|] eqn:Em.
      * exists m. reflexivity.
      * apply nanmean_none_iff, Hmax in Em. congruence.
    + unfold zone_report. rewrite Hp. cbn [app].
      eexists. split; [reflexivity|].
      destruct (Qltb peak 1.0) eqn:E1.
      * apply Qltb_lt in E1. split; [reflexivity|].
        split; intros; exfalso; lra.
      * assert (H1 : 1 <= peak).
        { apply Qnot_lt_le. intros Hlt.
          assert (Hlt' : peak < 1.0) by lra.
          apply Qltb_lt in Hlt'. congruence. }
        destruct (Qltb 5.0 peak) eqn:E5.
        -- apply Qltb_lt in E5. split; [intros; exfalso; lra|].
           split; [reflexivity|]. intros; exfalso. lra.
        -- assert (H5 : peak <= 5).
           { apply Qnot_lt_le. intros Hlt.
             assert (Hlt' : 5.0 < peak) by lra.
             apply Qltb_lt in Hlt'. congruence. }
           split; [intros; exfalso; lra|].
           split; [intros; exfalso; lra | reflexivity].
Qed.

End ZoneReportFacts.

(** ** Integration over depth *)

Section IntegrationFacts.
Import Selection Grid Aux.
Local Open Scope Q_scope.

Lemma trapz_short (x : list Q) (y : list cell) :
  (List.length x <= 1)%nat -> trapz x y = Some 0.
Proof.
  destruct x as [|x0 [|x1 x]]; simpl List.length; intros H; try lia;
    destruct y as [|y0 [|y1 y]]; reflexivity.
Qed.

Lemma cell_add_none_r (a : cell) : cell_add a None = None.
Proof. destruct a; reflexivity. Qed.

Lemma trapz_missing (x : list Q) :
  forall y : list cell,
  List.length y = List.length x -> (2 <= List.length x)%nat ->
  In None y -> trapz x y = None.
Proof.
  induction x as [|x0 x IH]; intros y Hlen H2 Hin; [simpl in H2; lia|].
  destruct x as [|x1 x]; [simpl in H2; lia|].
  destruct y as [|y0 [|y1 y]]; try discriminate.
  change (trapz (x0 :: x1 :: x) (y0 :: y1 :: y))
    with (cell_add (cell_scale ((x1 - x0) * 0.5) (cell_add y1 y0))
                   (trapz (x1 :: x) (y1 :: y))).
  destruct Hin as [->|Hin].
  - rewrite cell_add_none_r. reflexivity.
  - destruct Hin as [->|Hin]; [reflexivity|].
    rewrite (IH (y1 :: y)).
    + apply cell_add_none_r.
    + simpl in *. lia.
    + destruct x; [destruct y; [contradiction | discriminate] | simpl; lia].
    + right. exact Hin.
Qed.

(** The trapezoids of a profile that is linear in the depth telescope. *)
Lemma trapz_linear (a b : Q) (x : list Q) :
  x <> [] ->
  cell_eq (trapz x (linear_profile a b x))
          (Some (a * (last x 0 - hd 0 x)
                 + b * (last x 0 * last x 0 - hd 0 x * hd 0 x) / 2)).
Proof.
  induction x as [|x0 x IH]; intros Hne; [congruence|].
  destruct x as [|x1 x].
  - simpl. field.
  - assert (IH' := IH ltac:(discriminate)).
    change (trapz (x0 :: x1 :: x) (linear_profile a b (x0 :: x1 :: x)))
      with (cell_add (cell_scale ((x1 - x0) * 0.5)
                        (cell_add (Some (a + b * x1)) (Some (a + b * x0))))
                     (trapz (x1 :: x) (linear_profile a b (x1 :: x)))).
    destruct (trapz (x1 :: x) (linear_profile a b (x1 :: x))) as [q|];
      [|contradiction].
    simpl in IH'. simpl cell_add. simpl cell_scale. simpl cell_eq.
    change (last (x0 :: x1 :: x) 0) with (last (x1 :: x) 0).
    change (hd 0 (x0 :: x1 :: x)) with x0.
    change (hd 0 (x1 :: x)) with x1 in IH'.
    rewrite IH'. field.
Qed.

Lemma map_nth_positions {A : Type} (f : Q -> A) (l : list Q) :
  map (fun z => f (nth z l 0)) (positions l) = map f l.
Proof.
  unfold positions.
  induction l as [|x l IH]; [reflexivity|].
  cbn [List.length seq map nth]. f_equal.
  rewrite <- seq_shift, map_map. exact IH.
Qed.

Lemma integrate_then_mean_nth (a : DataArray) (t : nat) :
  (t < ntime a)%nat ->
  nth t (integrate_then_mean a) None
  = nanmean (map (fun ij => trapz (depth a) (profile a t (fst ij) (snd ij)))
                 (columns a)).
Proof.
  intros Ht. unfold integrate_then_mean.
  set (f := fun t => nanmean (map (fun ij => trapz (depth a) (profile a t (fst ij) (snd ij)))
                                  (columns a))).
  rewrite (nth_indep _ None (f O)) by (rewrite length_map, length_seq; exact Ht).
  rewrite (map_nth f), seq_nth by exact Ht. reflexivity.
Qed.

Lemma profile_length (a : DataArray) (t i j : nat) :
  List.length (profile a t i j) = List.length (depth a).
Proof. unfold profile, positions. rewrite length_map, length_seq. reflexivity. Qed.

(** X13.  [dec27_code.py], lines 88-103.  When the levels kept for the
    integration are fewer than two, there is no trapezoid: the integrated
    production is 0 at every time step, whatever the cells hold, missing
    cells included. *)
Theorem single_level_integrates_to_zero :
  forall a : DataArray,
  (List.length (depth a) <= 1)%nat ->
  latitude a <> [] -> longitude a <> [] ->
  (forall t i j, trapz (depth a) (profile a t i j) = Some 0)
  /\ Forall (fun c => cell_eq c (Some 0)) (integrate_then_mean a)
  /\ List.length (integrate_then_mean a) = ntime a.
Proof.
  intros a Hd Hlat Hlon.
  assert (Ht : forall t i j, trapz (depth a) (profile a t i j) = Some 0)
    by (intros; apply trapz_short; exact Hd).
  split; [exact Ht|]. split.
  - unfold integrate_then_mean. apply Forall_forall. intros c Hc.
    apply in_map_iff in Hc. destruct Hc as (t & <- & _).
    apply nanmean_constant.
    + intros E. apply map_eq_nil in E. revert E. apply columns_nonempty; assumption.
    + apply Forall_forall. intros c Hc. apply in_map_iff in Hc.
      destruct Hc as (ij & <- & _). rewrite Ht. apply cell_eq_refl.
  - unfold integrate_then_mean. rewrite length_map, length_seq. reflexivity.
Qed.

(** X14.  [dec27_code.py], line 100.  The trapezoidal rule is exact on
    profiles that are linear in the depth, however the levels are spaced:
    where every column of the array holds [p + q * depth], the series has
    one value per time step and each of them is
    [p * (d1 - d0) + q * (d1^2 - d0^2) / 2] between the first level [d0] and
    the last [d1]. *)
Theorem integration_exact_on_linear_profiles :
  forall (a : DataArray) (p q : Q),
  (forall t z i j,
     (t < ntime a)%nat -> (z < List.length (depth a))%nat ->
     (i < List.length (latitude a))%nat -> (j < List.length (longitude a))%nat ->
     values a t z i j = Some (p + q * nth z (depth a) 0)) ->
  depth a <> [] -> latitude a <> [] -> longitude a <> [] ->
  let d0 := hd 0 (depth a) in
  let d1 := last (depth a) 0 in
  List.length (integrate_then_mean a) = ntime a
  /\ forall t, (t < ntime a)%nat ->
       cell_eq (nth t (integrate_then_mean a) None)
               (Some (p * (d1 - d0) + q * (d1 * d1 - d0 * d0) / 2)).
Proof.
  intros a p q Hv Hd Hlat Hlon d0 d1.
  split; [apply integrate_then_mean_steps|].
  intros t Ht. rewrite (integrate_then_mean_nth a t Ht).
  apply nanmean_constant.
  - intros E. apply map_eq_nil in E. revert E. apply columns_nonempty; assumption.
  - apply Forall_forall. intros c Hc. apply in_map_iff in Hc.
    destruct Hc as (ij & <- & Hij). apply in_columns in Hij. destruct Hij as [Hi Hj].
    assert (Hp : profile a t (fst ij) (snd ij) = linear_profile p q (depth a)).
    { unfold profile, linear_profile.
      rewrite <- (map_nth_positions (fun xi => Some (p + q * xi)) (depth a)).
      apply map_ext_in. intros z Hz. apply in_positions in Hz.
      apply Hv; assumption. }
    rewrite Hp. apply trapz_linear. exact Hd.
Qed.

(** X15.  [dec27_code.py], lines 100-103.  The integral of a column does
    not skip missing cells: with two levels or more, one missing level
    makes the integral of the column missing.  The mean over the zone then
    skips that column, and the time step is missing when every column has
    a missing level. *)
Theorem missing_level_drops_column :
  forall (a : DataArray) (t : nat),
  (2 <= List.length (depth a))%nat ->
  (t < ntime a)%nat ->
  (forall i j, In None (profile a t i j) -> trapz (depth a) (profile a t i j) = None)
  /\ nth t (integrate_then_mean a) None
     = nanmean (map Some (valid (map (fun ij => trapz (depth a)
                                          (profile a t (fst ij) (snd ij)))
                                     (columns a))))
  /\ ((forall ij, In ij (columns a) -> In None (profile a t (fst ij) (snd ij))) ->
      nth t (integrate_then_mean a) None = None).
Proof.
  intros a t Hd Ht.
  assert (Hcol : forall i j, In None (profile a t i j) ->
                             trapz (depth a) (profile a t i j) = None).
  { intros i j Hin. apply trapz_missing; [apply profile_length | exact Hd | exact Hin]. }
  split; [exact Hcol|].
  rewrite (integrate_then_mean_nth a t Ht).
  split; [apply nanmean_skips_missing|].
  intros Hall. apply nanmean_none_iff. unfold all_missing.
  apply Forall_forall. intros c Hc. apply in_map_iff in Hc.
  destruct Hc as (ij & <- & Hij). apply Hcol, Hall, Hij.
Qed.

Lemma profile_missing (a : DataArray) (t i j : nat) :
  missing_at a t ->
  (t < ntime a)%nat ->
  (i < List.length (latitude a))%nat -> (j < List.length (longitude a))%nat ->
  all_missing (profile a t i j).
Proof.
  intros H Ht Hi Hj. unfold all_missing, profile. apply Forall_forall. intros c Hc.
  apply in_map_iff in Hc. destruct Hc as (z & <- & _).
  apply H; assumption.
Qed.

Lemma column_missing (a : DataArray) (t : nat) (ij : nat * nat) :
  missing_at a t -> (t < ntime a)%nat -> In ij (columns a) ->
  all_missing (profile a t (fst ij) (snd ij)).
Proof.
  intros H Ht Hij. apply in_columns in Hij. destruct Hij as [Hi Hj].
  apply profile_missing; assumption.
Qed.

Lemma nanmean_zero_or_missing (l : list cell) :
  Forall zero_or_missing l -> zero_or_missing (nanmean l).
Proof.
  intros H. unfold nanmean.
  assert (Hv : Forall (fun x => x == 0) (valid l)).
  { induction H as [|c l Hc _ IH]; [constructor|].
    destruct c as [x|]; simpl; [constructor; assumption | exact IH]. }
  destruct (valid l) as [|x v] eqn:E; [exact I|].
  simpl. rewrite (Qsum_constant 0 _ Hv).
  pose proof (length_pos_Q x v) as Hn.
  field. intros H0. rewrite H0 in Hn. apply (Qlt_irrefl 0). exact Hn.
Qed.

Lemma sum_then_mean_missing (a : DataArray) :
  (forall t, missing_at a t) -> Forall zero_or_missing (sum_then_mean a).
Proof.
  intros Hm. unfold sum_then_mean. apply Forall_forall. intros c Hc.
  apply in_map_iff in Hc. destruct Hc as (t & <- & Ht). apply in_steps in Ht.
  apply nanmean_zero_or_missing. apply Forall_forall. intros c Hc.
  apply in_map_iff in Hc. destruct Hc as (ij & <- & Hij).
  unfold nansum. rewrite (valid_all_missing _ (column_missing a t ij (Hm t) Ht Hij)).
  simpl. reflexivity.
Qed.

(** X16.  [bio_3d.py], line 54, against [dec27_code.py], lines 100-103.
    Over a zone with no valid cell the sum over depth is 0 in every column,
    so the production proxy of [bio_3d.py] is the number 0 at every time
    step, where the integral of [dec27_code.py] is missing. *)
Theorem missing_zone_sums_to_zero :
  forall a : DataArray,
  (forall t, missing_at a t) ->
  latitude a <> [] -> longitude a <> [] ->
  Forall (fun c => cell_eq c (Some 0)) (sum_then_mean a)
  /\ List.length (sum_then_mean a) = ntime a
  /\ ((2 <= List.length (depth a))%nat -> all_missing (integrate_then_mean a)).
Proof.
  intros a Hm Hlat Hlon. split; [|split].
  - unfold sum_then_mean. apply Forall_forall. intros c Hc.
    apply in_map_iff in Hc. destruct Hc as (t & <- & Ht). apply in_steps in Ht.
    apply nanmean_constant.
    + intros E. apply map_eq_nil in E. revert E. apply columns_nonempty; assumption.
    + apply Forall_forall. intros c Hc. apply in_map_iff in Hc.
      destruct Hc as (ij & <- & Hij).
      unfold nansum. rewrite (valid_all_missing _ (column_missing a t ij (Hm t) Ht Hij)).
      simpl. reflexivity.
  - unfold sum_then_mean. rewrite length_map, length_seq. reflexivity.
  - intros Hd. unfold all_missing, integrate_then_mean.
    apply Forall_forall. intros c Hc.
    apply in_map_iff in Hc. destruct Hc as (t & <- & Ht). apply in_steps in Ht.
    apply nanmean_none_iff. unfold all_missing.
    apply Forall_forall. intros c Hc. apply in_map_iff in Hc.
    destruct Hc as (ij & <- & Hij).
    apply trapz_missing; [apply profile_length | exact Hd|].
    pose proof (column_missing a t ij (Hm t) Ht Hij) as Hp.
    pose proof (profile_length a t (fst ij) (snd ij)) as Hl.
    destruct (profile a t (fst ij) (snd ij)) as [|c0 l].
    + simpl in Hl. lia.
    + inversion Hp; subst. left. reflexivity.
Qed.

End IntegrationFacts.

(** ** [dec27_code.py]: looking a variable up and extracting the zone *)

Section ExtractionFacts.
Import Selection Grid Loader Dec27 Aux.
Local Open Scope string_scope.
Local Open Scope list_scope.

Lemma prefix_refl (s : string) : prefix s s = true.
Proof.
  induction s as [|c s IH]; simpl; [reflexivity|].
  destruct (ascii_dec c c); [exact IH | congruence].
Qed.

Lemma is_substring_refl (s : string) : is_substring s s = true.
Proof. destruct s; cbn [is_substring]; rewrite prefix_refl; reflexivity. Qed.

Lemma find_first {A : Type} (f : A -> bool) (l : list A) (v : A) :
  find f l = Some v ->
  f v = true
  /\ exists pre post, l = pre ++ v :: post /\ Forall (fun u => f u = false) pre.
Proof.
  induction l as [|x l IH]; simpl; [discriminate|].
  destruct (f x) eqn:E.
  - intros H. injection H as ->. split; [exact E|].
    exists [], l. split; [reflexivity | constructor].
  - intros H. destruct (IH H) as (Hv & pre & post & -> & Hpre).
    split; [exact Hv|]. exists (x :: pre), post.
    split; [reflexivity | constructor; assumption].
Qed.

Lemma find_none_iff {A : Type} (f : A -> bool) (l : list A) :
  find f l = None <-> Forall (fun u => f u = false) l.
Proof.
  induction l as [|x l IH]; simpl.
  - split; [constructor | reflexivity].
  - destruct (f x) eqn:E.
    + split; [discriminate|]. intros H. inversion H. congruence.
    + rewrite IH. split; [constructor; assumption|]. intros H. inversion H. assumption.
Qed.

Lemma existsb_eqb_in (v : string) (l : list string) :
  existsb (String.eqb v) l = true <-> In v l.
Proof.
  rewrite existsb_exists. split.
  - intros (x & Hx & E). apply String.eqb_eq in E. subst. exact Hx.
  - intros H. exists v. split; [exact H | apply String.eqb_refl].
Qed.

Lemma get_variable_some (ds : NcDataset) (v : string) :
  In v (map fst ds) -> exists da, get_variable ds v = Some da /\ In da (map snd ds).
Proof.
  intros Hin. unfold get_variable.
  destruct (find (fun p => String.eqb v (fst p)) ds) as [p|] eqn:E.
  - exists (snd p). split; [reflexivity|].
    apply find_some in E. apply in_map. tauto.
  - apply in_map_iff in Hin. destruct Hin as (p & <- & Hp).
    pose proof (find_none _ _ E p Hp) as H. cbv beta in H.
    rewrite String.eqb_refl in H. discriminate.
Qed.

Lemma get_variable_in (ds : NcDataset) (v : string) (da : DataArray) :
  get_variable ds v = Some da -> In (v, da) ds.
Proof.
  unfold get_variable.
  destruct (find (fun p => String.eqb v (fst p)) ds) as [[n a]|] eqn:E; [|discriminate].
  intros H. injection H as <-. apply find_some in E. destruct E as [Hin E].
  apply String.eqb_eq in E. simpl in E. subst. exact Hin.
Qed.

Lemma variable_lookup_some (ds : NcDataset) (var_name v : string) (log : list Msg) :
  find_variable ds var_name = (Some v, log) -> exists da, get_variable ds v = Some da.
Proof.
  unfold find_variable.
  destruct (existsb (String.eqb var_name) (map fst ds)) eqn:Ex.
  - intros H. injection H as <- <-. apply existsb_eqb_in in Ex.
    destruct (get_variable_some ds var_name Ex) as (da & Hda & _). eauto.
  - destruct (find _ (map fst ds)) as [v0|] eqn:Ef; [|discriminate].
    intros H. injection H as <- <-.
    destruct (find_first _ _ _ Ef) as (_ & pre & post & Hsplit & _).
    assert (Hin : In v0 (map fst ds))
      by (rewrite Hsplit; apply in_or_app; right; left; reflexivity).
    destruct (get_variable_some ds v0 Hin) as (da & Hda & _). eauto.
Qed.

(** X17.  [dec27_code.py], lines 40-54.  The variable that is read is
    always one of the file: the requested name when the file has it, even
    if an earlier variable contains that name; otherwise the first variable,
    in the order of the file, whose lower-cased name contains the lower-cased
    request, and the substitution is printed.  The lookup fails exactly
    when no variable contains the request, and the file's variables are then
    listed. *)
Theorem variable_lookup :
  forall (ds : NcDataset) (var_name : string),
  let contains (u : string) := is_substring (lower var_name) (lower u) in
  (In var_name (map fst ds) -> find_variable ds var_name = (Some var_name, []))
  /\ (forall v log,
        find_variable ds var_name = (Some v, log) ->
        In v (map fst ds)
        /\ (exists da, get_variable ds v = Some da)
        /\ contains v = true
        /\ ((v = var_name /\ log = [])
            \/ (~ In var_name (map fst ds)
                /\ log = [UsingVariable v var_name]
                /\ exists pre post,
                     map fst ds = pre ++ v :: post
                     /\ Forall (fun u => contains u = false) pre)))
  /\ (fst (find_variable ds var_name) = None
      <-> Forall (fun u => contains u = false) (map fst ds))
  /\ (forall disk fname label,
        disk fname = Readable ds ->
        fst (find_variable ds var_name) = None ->
        extract_and_process disk fname var_name label
        = (None, [VariableNotFound var_name fname; AvailableVariables (map fst ds)])).
Proof.
  intros ds var_name contains. unfold find_variable.
  destruct (existsb (String.eqb var_name) (map fst ds)) eqn:Ex.
  - apply existsb_eqb_in in Ex.
    split; [reflexivity|]. split; [|split].
    + intros v log H. injection H as <- <-.
      split; [exact Ex|].
      split; [destruct (get_variable_some ds var_name Ex) as (da & Hda & _); eauto|].
      split; [apply is_substring_refl|]. left. auto.
    + cbn [fst]. split; [discriminate|].
      intros H. rewrite Forall_forall in H. specialize (H _ Ex).
      unfold contains in H. rewrite is_substring_refl in H. discriminate.
    + cbn [fst]. discriminate.
  - assert (Hnot : ~ In var_name (map fst ds)).
    { intros H. apply existsb_eqb_in in H. congruence. }
    split; [intros H; contradiction|].
    destruct (find (fun v => is_substring (lower var_name) (lower v)) (map fst ds))
      as [v0|] eqn:Ef.
    + destruct (find_first _ _ _ Ef) as (Hc & pre & post & Hsplit & Hpre).
      split; [|split].
      * intros v log H. injection H as <- <-.
        assert (Hin : In v0 (map fst ds))
          by (rewrite Hsplit; apply in_or_app; right; left; reflexivity).
        split; [exact Hin|].
        split; [destruct (get_variable_some ds v0 Hin) as (da & Hda & _); eauto|].
        split; [exact Hc|]. right. split; [exact Hnot|].
        split; [reflexivity|]. exists pre, post. auto.
      * cbn [fst]. split; [discriminate|].
        intros H. apply find_none_iff in H. unfold contains in H. congruence.
      * cbn [fst]. discriminate.
    + split; [intros v log H; discriminate|].
      split.
      * cbn [fst]. split; [intros _; apply find_none_iff; exact Ef | reflexivity].
      * intros disk fname label Hd _. unfold extract_and_process, find_variable.
        rewrite Hd, Ex, Ef. reflexivity.
Qed.

Lemma sel_lat_lon_inv (a a' : DataArray) (lat_s lon_s : LabelSlice) :
  sel_lat_lon a lat_s lon_s = Some a' ->
  sel_slice (latitude a) (start lat_s) (stop lat_s) = Some (latitude a')
  /\ sel_slice (longitude a) (start lon_s) (stop lon_s) = Some (longitude a')
  /\ depth a' = depth a /\ time a' = time a
  /\ ((forall t, missing_at a t) -> forall t, missing_at a' t).
Proof.
  unfold sel_lat_lon, sel_slice.
  destruct (slice_locs (latitude a) _ _) as [[i0 i1]|]; [|discriminate].
  destruct (slice_locs (longitude a) _ _) as [[j0 j1]|]; [|discriminate].
  intros H. injection H as <-. cbn. repeat split.
  intros Hm t z i j Ht Hi Hj. cbn in *.
  apply Hm; try assumption;
    [apply (py_slice_index _ _ _ _ Hi) | apply (py_slice_index _ _ _ _ Hj)].
Qed.

Lemma cells_at_nil (a : DataArray) (t : nat) :
  latitude a = [] \/ longitude a = [] \/ depth a = [] -> cells_at a t = [].
Proof.
  intros [H|[H|H]].
  - unfold cells_at, columns, positions. rewrite H. reflexivity.
  - unfold cells_at, columns, positions. rewrite H. cbn [List.length seq map].
    induction (seq 0 (List.length (latitude a))) as [|i l IH]; [reflexivity | exact IH].
  - unfold cells_at, profile, positions. rewrite H. cbn [List.length seq map].
    induction (columns a) as [|ij l IH]; [reflexivity | exact IH].
Qed.

Lemma valid_count_positive (a : DataArray) (n : nat) :
  valid_count a = Some (S n) ->
  latitude a <> [] /\ longitude a <> [] /\ depth a <> [].
Proof.
  unfold valid_count. intros H.
  assert (Hc : cells_at a 0 <> []).
  { intros E. rewrite E in H. destruct (time a) as [[|? ?]|]; discriminate. }
  repeat split; intros E; apply Hc, cells_at_nil; auto.
Qed.

(** An axis that runs the other way than the bounds of the script gives
    the zone no row. *)
Lemma descending_axis_selects_nothing (idx l : list Q) (b : LabelSlice) :
  (start b < stop b)%Q ->
  is_monotonic_increasing idx = false ->
  is_monotonic_decreasing idx = true ->
  sel_slice idx (start b) (stop b) = Some l -> l = [].
Proof.
  intros Hb Hinc Hdec Hsel.
  destruct (sel_slice_decreasing idx b Hinc Hdec) as [_ H].
  rewrite (H Hb) in Hsel. congruence.
Qed.

(** A monotonic axis that gives the zone a row runs upwards, and the rows
    kept are those within the bounds. *)
Lemma monotonic_axis_selects_within (idx l : list Q) (b : LabelSlice) :
  (start b < stop b)%Q ->
  sel_slice idx (start b) (stop b) = Some l -> l <> [] ->
  is_monotonic_increasing idx = true \/ is_monotonic_decreasing idx = true ->
  is_monotonic_increasing idx = true /\ l = filter (within b) idx.
Proof.
  intros Hb Hsel Hne Hmono.
  destruct (is_monotonic_increasing idx) eqn:Hinc.
  - split; [reflexivity|].
    destruct (sel_slice_increasing idx b Hinc) as [H _].
    rewrite (H (Qlt_le_weak _ _ Hb)) in Hsel. congruence.
  - exfalso. destruct Hmono as [Hm|Hdec]; [discriminate|].
    apply Hne. exact (descending_axis_selects_nothing idx l b Hb Hinc Hdec Hsel).
Qed.

(** X18.  [dec27_code.py], lines 56-71.  What a successful extraction
    guarantees: the first time step of the subset holds at least one valid
    cell, and that count is what is printed; the subset has rows, columns
    and levels.  Where a horizontal axis of the file is monotonic, it runs
    upwards and the rows or columns that are kept are exactly those within
    the bounds. *)
Theorem loaded_zone_lies_within_bounds :
  forall (disk : Disk) (fname var_name label : string)
         (subset : DataArray) (log : list Msg),
  extract_and_process disk fname var_name label = (Some subset, log) ->
  exists ds v da n log0,
    disk fname = Readable ds
    /\ find_variable ds var_name = (Some v, log0)
    /\ get_variable ds v = Some da
    /\ sel_lat_lon da lat_slice lon_slice = Some subset
    /\ List.length (valid (cells_at subset 0)) = S n
    /\ log = log0 ++ [LoadedSuccessfully label (S n)]
    /\ latitude subset <> [] /\ longitude subset <> [] /\ depth subset <> []
    /\ (is_monotonic_increasing (latitude da) = true
        \/ is_monotonic_decreasing (latitude da) = true ->
        is_monotonic_increasing (latitude da) = true
        /\ latitude subset = filter (within lat_slice) (latitude da))
    /\ (is_monotonic_increasing (longitude da) = true
        \/ is_monotonic_decreasing (longitude da) = true ->
        is_monotonic_increasing (longitude da) = true
        /\ longitude subset = filter (within lon_slice) (longitude da)).
Proof.
  intros disk fname var_name label subset log. unfold extract_and_process.
  destruct (disk fname) as [| |ds] eqn:Ed; try discriminate.
  destruct (find_variable ds var_name) as [[v|] log0] eqn:Ef; [|discriminate].
  destruct (get_variable ds v) as [da|] eqn:Eg; [|discriminate].
  destruct (sel_lat_lon da lat_slice lon_slice) as [s|] eqn:Es; [|discriminate].
  destruct (valid_count s) as [[|n]|] eqn:Ev; try discriminate.
  intros H. injection H as <- <-.
  destruct (valid_count_positive s n Ev) as (Hlat & Hlon & Hdep).
  destruct (sel_lat_lon_inv _ _ _ _ Es) as (Hsl & Hso & _ & _ & _).
  assert (Hb1 : (start lat_slice < stop lat_slice)%Q) by reflexivity.
  assert (Hb2 : (start lon_slice < stop lon_slice)%Q) by reflexivity.
  exists ds, v, da, n, log0.
  repeat (split; [first [reflexivity | assumption]|]).
  split.
  { unfold valid_count in Ev. destruct (time s) as [[|? ?]|]; congruence. }
  split; [reflexivity|].
  split; [exact Hlat|]. split; [exact Hlon|]. split; [exact Hdep|].
  split.
  - exact (monotonic_axis_selects_within _ _ lat_slice Hb1 Hsl Hlat).
  - exact (monotonic_axis_selects_within _ _ lon_slice Hb2 Hso Hlon).
Qed.

Section WithNearestLevel.
Variable nearest : list Q -> Q -> option nat.

(** X19.  [dec27_code.py], lines 57-68 and 174-177.  The bounds of the
    script run upwards.  On a file whose latitude axis runs north to south
    the selection is empty, the count of valid cells is 0, and the variable
    is reported as holding only NaN, whatever its cells hold.  When every
    file is stored that way, no metric is extracted and the script stops at
    the plotting step. *)
Theorem descending_latitude_reads_as_only_nan :
  forall disk : Disk,
  (forall fname ds name da,
     disk fname = Readable ds -> In (name, da) ds ->
     is_monotonic_increasing (latitude da) = false
     /\ is_monotonic_decreasing (latitude da) = true
     /\ is_monotonic_increasing (longitude da) = true
     /\ time da <> Some []) ->
  (forall fname var_name label ds v log0,
     disk fname = Readable ds ->
     find_variable ds var_name = (Some v, log0) ->
     extract_and_process disk fname var_name label
     = (None, log0 ++ [OnlyNaN label; TryAdjustingBounds;
                       CurrentBounds lat_slice lon_slice]))
  /\ (forall fname var_name label,
        fst (extract_and_process disk fname var_name label) = None)
  /\ fst (main nearest disk) = Exited 0
  /\ In CriticalNoData (snd (main nearest disk)).
Proof.
  intros disk Hall.
  assert (Hone : forall fname var_name label ds v log0,
            disk fname = Readable ds ->
            find_variable ds var_name = (Some v, log0) ->
            extract_and_process disk fname var_name label
            = (None, log0 ++ [OnlyNaN label; TryAdjustingBounds;
                              CurrentBounds lat_slice lon_slice])).
  { intros fname var_name label ds v log0 Hd Hf.
    destruct (variable_lookup_some ds var_name v log0 Hf) as (da & Hg).
    destruct (Hall fname ds v da Hd (get_variable_in _ _ _ Hg))
      as (Hinc & Hdec & Hlon & Ht).
    unfold extract_and_process. rewrite Hd, Hf, Hg.
    destruct (sel_slice_decreasing (latitude da) lat_slice Hinc Hdec) as [_ Hlat].
    specialize (Hlat ltac:(reflexivity)).
    destruct (sel_slice_increasing (longitude da) lon_slice Hlon) as [Hlo _].
    specialize (Hlo ltac:(simpl; lra)).
    destruct (sel_lat_lon_axes da _ _ _ _ Hlat Hlo) as (s & Hs & Hsl & _).
    rewrite Hs.
    destruct (sel_lat_lon_inv _ _ _ _ Hs) as (_ & _ & _ & Htime & _).
    unfold valid_count. rewrite (cells_at_nil s 0 (or_introl Hsl)).
    rewrite Htime. destruct (time da) as [[|? ?]|]; [congruence | reflexivity..]. }
  assert (Hnone : forall fname var_name label,
            fst (extract_and_process disk fname var_name label) = None).
  { intros fname var_name label.
    destruct (disk fname) as [| |ds] eqn:Ed;
      try (unfold extract_and_process; rewrite Ed; reflexivity).
    destruct (find_variable ds var_name) as [[v|] log0] eqn:Ef.
    - rewrite (Hone _ _ label _ _ _ Ed Ef). reflexivity.
    - unfold extract_and_process. rewrite Ed, Ef. reflexivity. }
  split; [exact Hone|]. split; [exact Hnone|].
  assert (H1 : fst (process_npp disk) = None).
  { unfold process_npp. pose proof (Hnone file_prod "nppv" "NPP") as H.
    destruct (extract_and_process disk file_prod "nppv" "NPP") as [o l].
    cbn [fst] in H. subst o. reflexivity. }
  assert (H2 : fst (fst (process_no3 nearest disk)) = None).
  { unfold process_no3. pose proof (Hnone file_nut "no3" "Nitrate") as H.
    destruct (extract_and_process disk file_nut "no3" "Nitrate") as [o l].
    cbn [fst] in H. subst o. reflexivity. }
  assert (H3 : fst (process_o2 nearest disk) = None).
  { unfold process_o2. pose proof (Hnone file_prod "o2" "Oxygen") as H.
    destruct (extract_and_process disk file_prod "o2" "Oxygen") as [o l].
    cbn [fst] in H. subst o. reflexivity. }
  unfold main.
  destruct (process_npp disk) as [npp log1].
  destruct (process_no3 nearest disk) as [[surf deep] log2].
  destruct (process_o2 nearest disk) as [o2 log3].
  cbn [fst] in H1, H2, H3. subst. cbn [is_some negb andb fst snd].
  split; [reflexivity | in_log].
Qed.

End WithNearestLevel.

End ExtractionFacts.

(** ** [dec27_code.py]: the fallback of step 1 and the level of step 3 *)

Section StepFacts.
Import Selection Grid Loader Dec27 Aux.
Local Open Scope string_scope.
Local Open Scope list_scope.

Lemma zero_cells_trigger_fallback (l : list cell) :
  Forall (fun c => cell_eq c (Some 0%Q)) l -> zero_or_nan (nanmean l) = true.
Proof.
  intros H. destruct l as [|c l].
  - reflexivity.
  - pose proof (nanmean_constant 0%Q (c :: l) ltac:(discriminate) H) as Hm.
    destruct (nanmean (c :: l)) as [q|]; [|reflexivity].
    simpl in Hm. unfold zero_or_nan. apply Qeq_bool_iff. exact Hm.
Qed.

Lemma extract_some_nonempty (disk : Disk) (fname var_name label : string)
      (subset : DataArray) (log : list Msg) :
  extract_and_process disk fname var_name label = (Some subset, log) ->
  latitude subset <> [] /\ longitude subset <> [] /\ depth subset <> [].
Proof.
  unfold extract_and_process.
  destruct (disk fname) as [| |ds]; try discriminate.
  destruct (find_variable ds var_name) as [[v|] log0]; [|discriminate].
  destruct (get_variable ds v) as [da|]; [|discriminate].
  destruct (sel_lat_lon da lat_slice lon_slice) as [s|]; [|discriminate].
  destruct (valid_count s) as [[|n]|] eqn:Ev; try discriminate.
  intros H. injection H as <- _. exact (valid_count_positive s n Ev).
Qed.

(** X20.  [dec27_code.py], lines 88-108.  Step 1 once the production variable
    is extracted.  When the mean of its cells between 0 and 100 m is zero or
    NaN, as it is when production is zero everywhere, the script reads
    chlorophyll instead: if chlorophyll is available, what is integrated,
    printed as integrated NPP and kept as [integrated_npp] is the
    chlorophyll field; if it is not, the production field is integrated as
    it is.  Otherwise chlorophyll is not read at all.  So with production
    zero everywhere and chlorophyll at [c] everywhere, the integrated NPP
    of every time step is [c] times the span of the levels, not 0. *)
Theorem chlorophyll_stands_in_for_production :
  forall (disk : Disk) (npp npp_100m : DataArray) (log : list Msg),
  extract_and_process disk file_prod "nppv" "NPP" = (Some npp, log) ->
  sel_depth npp photic = Some npp_100m ->
  let fallback := zero_or_nan (nanmean (all_cells npp_100m)) in
  let printed (series : list cell) :=
    IntegratedNpp (nanmean series) (nanmin series) (nanmax series) in
  (uniform npp 0 -> fallback = true)
  /\ (fallback = false ->
      let series := integrate_then_mean npp_100m in
      process_npp disk = (Some series, log ++ [printed series]))
  /\ (fallback = true ->
      forall chl chl_100m log_chl,
      extract_and_process disk file_bio "chl" "Chlorophyll" = (Some chl, log_chl) ->
      sel_depth chl photic = Some chl_100m ->
      let series := integrate_then_mean chl_100m in
      process_npp disk
      = (Some series,
         ((log ++ [NppAllZeros] ++ log_chl) ++ [UsingChlorophyllProxy])
         ++ [printed series]))
  /\ (fallback = true ->
      forall log_chl,
      extract_and_process disk file_bio "chl" "Chlorophyll" = (None, log_chl) ->
      let series := integrate_then_mean npp_100m in
      process_npp disk
      = (Some series, (log ++ [NppAllZeros] ++ log_chl) ++ [printed series]))
  /\ (uniform npp 0 ->
      forall chl chl_100m log_chl (c : Q),
      extract_and_process disk file_bio "chl" "Chlorophyll" = (Some chl, log_chl) ->
      sel_depth chl photic = Some chl_100m ->
      uniform chl c -> depth chl_100m <> [] ->
      let span := (last (depth chl_100m) 0 - hd 0 (depth chl_100m))%Q in
      exists series,
        fst (process_npp disk) = Some series
        /\ series <> []
        /\ Forall (fun x => cell_eq x (Some (c * span)%Q)) series).
Proof.
  intros disk npp npp_100m log He Hs fallback printed.
  assert (Hzero : uniform npp 0 -> fallback = true).
  { intros Hu. apply zero_cells_trigger_fallback.
    destruct (sel_depth_axes _ _ _ Hs) as (_ & _ & _ & Hu').
    apply all_cells_uniform, Hu', Hu. }
  assert (Hchl : fallback = true ->
            forall chl chl_100m log_chl,
            extract_and_process disk file_bio "chl" "Chlorophyll" = (Some chl, log_chl) ->
            sel_depth chl photic = Some chl_100m ->
            process_npp disk
            = (Some (integrate_then_mean chl_100m),
               ((log ++ [NppAllZeros] ++ log_chl) ++ [UsingChlorophyllProxy])
               ++ [printed (integrate_then_mean chl_100m)])).
  { intros Hz chl chl_100m log_chl Hc Hsc.
    unfold process_npp. rewrite He, Hs. fold fallback.
    rewrite Hz, Hc, Hsc. reflexivity. }
  split; [exact Hzero|]. split; [|split; [|split]].
  - intros Hz series. unfold process_npp. rewrite He, Hs. fold fallback.
    rewrite Hz. reflexivity.
  - intros Hz chl chl_100m log_chl Hc Hsc series.
    exact (Hchl Hz chl chl_100m log_chl Hc Hsc).
  - intros Hz log_chl Hc series.
    unfold process_npp. rewrite He, Hs. fold fallback.
    rewrite Hz, Hc. reflexivity.
  - intros Hu chl chl_100m log_chl c Hc Hsc Huc Hd span.
    exists (integrate_then_mean chl_100m).
    rewrite (Hchl (Hzero Hu) chl chl_100m log_chl Hc Hsc). cbn [fst].
    split; [reflexivity|].
    destruct (extract_some_nonempty _ _ _ _ _ _ Hc) as (Hlat & Hlon & _).
    destruct (sel_depth_axes _ _ _ Hsc) as (Htime & Hla & Hlo & Hu').
    split.
    + unfold integrate_then_mean. intros E. apply map_eq_nil in E.
      assert (Hn : ntime chl_100m <> O).
      { unfold ntime. rewrite Htime.
        revert Hc. unfold extract_and_process.
        destruct (disk file_bio) as [| |ds]; try discriminate.
        destruct (find_variable ds "chl") as [[v|] log0]; [|discriminate].
        destruct (get_variable ds v) as [da|]; [|discriminate].
        destruct (sel_lat_lon da lat_slice lon_slice) as [s|]; [|discriminate].
        destruct (valid_count s) as [[|n]|] eqn:Ev; try discriminate.
        intros H. injection H as <- _. unfold valid_count in Ev.
        destruct (time s) as [[|t ts]|]; [discriminate | simpl; lia | lia]. }
      destruct (ntime chl_100m); [congruence | discriminate].
    + apply integrate_uniform.
      * apply Hu', Huc.
      * rewrite Hla. exact Hlat.
      * rewrite Hlo. exact Hlon.
      * exact Hd.
Qed.

Lemma level_mean_missing (a : DataArray) (z : nat) :
  (forall t i j,
     (t < ntime a)%nat ->
     (i < List.length (latitude a))%nat -> (j < List.length (longitude a))%nat ->
     values a t z i j = None) ->
  all_missing (level_mean a z).
Proof.
  intros Hm. unfold all_missing, level_mean. apply Forall_forall. intros c Hc.
  apply in_map_iff in Hc. destruct Hc as (t & <- & Ht). apply in_steps in Ht.
  apply nanmean_none_iff. unfold all_missing. apply Forall_forall. intros c Hc.
  apply in_map_iff in Hc. destruct Hc as (ij & <- & Hij).
  apply in_columns in Hij. destruct Hij as [Hi Hj]. apply Hm; assumption.
Qed.


Lemma nanmin_missing (l : list cell) : all_missing l -> nanmin l = None.
Proof. intros H. unfold nanmin. rewrite (valid_all_missing l H). reflexivity. Qed.


Section WithNearestDepth.
Variable nearest : list Q -> Q -> option nat.


End WithNearestDepth.

End StepFacts.

(** ** [bio_3d.py] *)

Section Bio3dFacts.
Import Calendar Selection Grid Loader Aux Bio3dScript.
Local Open Scope string_scope.
Local Open Scope list_scope.

Section WithLibraries.
Variable merge : list Dec27.NcDataset -> option Dec27.NcDataset.
Variable nearest : list Q -> Q -> option nat.

(** X22.  [bio_3d.py], lines 24-42.  The three files are needed, in the
    order chlorophyll, nitrate, production: the first one that is missing
    ends the script with its name printed and exit status 0, and files
    after it are not looked at; when the three files are read and their
    merge fails, the script ends with the merge error printed and exit
    status 0. *)
Theorem missing_file_stops_the_script :
  forall (disk : Dec27.Disk) (pre post : list string) (fname : string),
  files = pre ++ fname :: post ->
  (forall f, In f pre -> exists ds, disk f = Dec27.Readable ds) ->
  (disk fname = Dec27.Absent ->
   run merge nearest disk = (Exited 0, [LoadingData; FileNotFound fname])
   /\ exit_status (fst (run merge nearest disk)) = 0%Z)
  /\ (disk fname = Dec27.Unreadable ->
      run merge nearest disk = (Traceback, [LoadingData]))
  /\ ((forall f, In f files -> exists ds, disk f = Dec27.Readable ds) ->
      (forall datasets,
         fst (open_all disk files) = Finished datasets -> merge datasets = None) ->
      run merge nearest disk = (Exited 0, [LoadingData; MergeError])
      /\ exit_status (fst (run merge nearest disk)) = 0%Z).
Proof.
  intros disk pre post fname Hfiles Hpre.
  assert (Hopen : forall fs' : list string,
            (forall f, In f fs' -> exists ds, disk f = Dec27.Readable ds) ->
            forall rest, open_all disk (fs' ++ rest)
                         = match open_all disk rest with
                           | (Finished datasets, log) =>
                               (Finished (fst (fold_right
                                   (fun f acc =>
                                      match disk f with
                                      | Dec27.Readable ds => (ds :: fst acc, tt)
                                      | _ => acc
                                      end) (datasets, tt) fs')), log)
                           | other => other
                           end).
  { induction fs' as [|f fs' IH]; intros Hr rest.
    - cbn [app fold_right fst]. destruct (open_all disk rest) as [[d| |] l]; reflexivity.
    - cbn [app open_all fold_right].
      destruct (Hr f (or_introl eq_refl)) as [ds Hds]. rewrite Hds.
      rewrite IH by (intros f' Hf'; apply Hr; right; exact Hf').
      destruct (open_all disk rest) as [[d| |] l]; reflexivity. }
  split; [|split].
  - intros Habs. assert (Hrun : run merge nearest disk
                               = (Exited 0, [LoadingData; FileNotFound fname])).
    { unfold run. rewrite Hfiles, (Hopen pre Hpre). cbn [open_all].
      rewrite Habs. reflexivity. }
    rewrite Hrun. split; reflexivity.
  - intros Hun. unfold run. rewrite Hfiles, (Hopen pre Hpre). cbn [open_all].
    rewrite Hun. reflexivity.
  - intros Hall Hmerge.
    pose proof (Hopen files Hall []) as Ho. rewrite app_nil_r in Ho.
    cbn [open_all] in Ho.
    assert (Hrun : run merge nearest disk = (Exited 0, [LoadingData; MergeError])).
    { unfold run. rewrite Ho. rewrite (Hmerge _ (f_equal fst Ho)). reflexivity. }
    rewrite Hrun. split; reflexivity.
Qed.

Lemma open_all_finished (disk : Dec27.Disk) (fnames : list string)
      (datasets : list Dec27.NcDataset) (log : list Msg) :
  open_all disk fnames = (Finished datasets, log) -> log = [].
Proof.
  revert datasets log. induction fnames as [|f fnames IH]; intros datasets log.
  - cbn [open_all]. intros H. injection H as _ <-. reflexivity.
  - cbn [open_all]. destruct (disk f); try discriminate.
    destruct (open_all disk fnames) as [[d| |] l]; try discriminate.
    intros H. injection H as _ <-. eapply IH. reflexivity.
Qed.

Lemma sel_zone_in (ds zone : Dec27.NcDataset) :
  sel_zone ds = Some zone ->
  forall name a', In (name, a') zone ->
  exists a, In (name, a) ds /\ sel_lat_lon a lat_slice lon_slice = Some a'.
Proof.
  revert zone. induction ds as [|[n a] ds IH]; intros zone; cbn [sel_zone].
  - intros H. injection H as <-. intros name a' [].
  - destruct (sel_lat_lon a lat_slice lon_slice) as [a1|] eqn:E; [|discriminate].
    destruct (sel_zone ds) as [z|]; [|discriminate].
    intros H. injection H as <-. intros name a' [Hin|Hin].
    + injection Hin as <- <-. exists a. split; [left; reflexivity | exact E].
    + destruct (IH z eq_refl name a' Hin) as (a0 & H0 & H1).
      exists a0. split; [right; exact H0 | exact H1].
Qed.

Lemma sel_bloom_forall (P : cell -> Prop) (time : option (list Timestamp))
      (series l : list cell) :
  sel_bloom time series = Some l -> Forall P series -> Forall P l.
Proof.
  unfold sel_bloom. destruct time as [ts|]; [|discriminate].
  intros H. injection H as <-. intros Hall.
  rewrite Forall_forall in *. intros c Hc.
  apply in_map_iff in Hc. destruct Hc as ([t c'] & <- & Hin).
  apply filter_In in Hin. destruct Hin as [Hin _].
  apply in_combine_r in Hin. apply Hall. exact Hin.
Qed.

Lemma cell_lt_zero (a b : cell) :
  zero_or_missing a -> zero_or_missing b -> cell_lt a b = false.
Proof.
  destruct a as [x|], b as [y|]; simpl; try reflexivity.
  intros Hx Hy. unfold Qltb.
  assert (H : Qle_bool y x = true) by (apply Qle_bool_iff; rewrite Hx, Hy; apply Qle_refl).
  rewrite H. reflexivity.
Qed.

Lemma all_missing_zero_or_missing (l : list cell) :
  all_missing l -> Forall zero_or_missing l.
Proof.
  unfold all_missing. intros H. eapply Forall_impl; [|exact H].
  intros c ->. exact I.
Qed.

(** The report on series that hold no value, or zeros for the production. *)
Lemma report_without_data (m : Metrics) (log : list Msg) :
  Forall zero_or_missing (npp_integrated m) ->
  all_missing (no3_surface m) -> all_missing (o2_deep m) ->
  report m = (Finished tt, log) ->
  exists bloom_prod avg_prod,
    log = [ReportHeader; ProductionLine bloom_prod avg_prod; HiddenBloomDetected;
           NutrientLine None; NutrientsAvailable;
           OxygenLine None; OxygenSafe; ReportFooter]
    /\ zero_or_missing bloom_prod /\ zero_or_missing avg_prod.
Proof.
  intros Hnpp Hno3 Ho2. unfold report.
  destruct (sel_bloom (npp_time m) (npp_integrated m)) as [bn|] eqn:E1; [|discriminate].
  destruct (sel_bloom (no3_time m) (no3_surface m)) as [bs|] eqn:E2; [|discriminate].
  intros H. injection H as <-.
  pose proof (nanmean_zero_or_missing _ (sel_bloom_forall _ _ _ _ E1 Hnpp)) as Hb.
  pose proof (nanmean_zero_or_missing _ Hnpp) as Ha.
  assert (Hs : nanmean bs = None).
  { apply nanmean_none_iff. exact (sel_bloom_forall _ _ _ _ E2 Hno3). }
  exists (nanmean bn), (nanmean (npp_integrated m)).
  split; [|split; assumption].
  rewrite (cell_lt_zero _ _ Hb Ha), Hs.
  unfold Bio3d.oxygen_safety. rewrite (nanmin_missing _ Ho2). reflexivity.
Qed.

(** X23.  [bio_3d.py], lines 46-62 and 95-129.  Over a zone with no valid
    cell the script does not fail and does not say so.  The production
    proxy is 0 or missing at every step, the nitrate and oxygen series are
    missing; no comparison of the report holds, so each falls to its
    [else] branch: a hidden sub-surface bloom is detected, nutrients are
    available, oxygen levels are safe. *)
Theorem zone_without_data_reads_reassuring :
  forall (disk : Dec27.Disk) (m : Metrics) (log : list Msg),
  run merge nearest disk = (Finished m, log) ->
  (forall datasets ds_merged,
     fst (open_all disk files) = Finished datasets ->
     merge datasets = Some ds_merged ->
     forall name a t, In (name, a) ds_merged -> missing_at a t) ->
  Forall zero_or_missing (npp_integrated m)
  /\ all_missing (no3_surface m) /\ all_missing (no3_deep m)
  /\ all_missing (o2_deep m)
  /\ exists bloom_prod avg_prod,
       log = [LoadingData; Merged; ExtractingZone; CalculatingMetrics;
              ReportHeader; ProductionLine bloom_prod avg_prod; HiddenBloomDetected;
              NutrientLine None; NutrientsAvailable;
              OxygenLine None; OxygenSafe; ReportFooter]
       /\ zero_or_missing bloom_prod /\ zero_or_missing avg_prod.
Proof.
  intros disk m log. unfold run.
  destruct (open_all disk files) as [[datasets| |] log0] eqn:Eo; try discriminate.
  pose proof (open_all_finished _ _ _ _ Eo) as ->. cbn [fst].
  destruct (merge datasets) as [ds_merged|] eqn:Em; [|discriminate].
  destruct (sel_zone ds_merged) as [ratnagiri|] eqn:Ez; [|discriminate].
  destruct (metrics nearest ratnagiri) as [m'|] eqn:Emet; [|discriminate].
  destruct (report m') as [[[]| |] log4] eqn:Er; try discriminate.
  intros H Hmiss. injection H as -> <-.
  assert (Hzone : forall name a, In (name, a) ratnagiri -> forall t, missing_at a t).
  { intros name a Hin.
    destruct (sel_zone_in _ _ Ez name a Hin) as (a0 & H0 & Hs).
    destruct (sel_lat_lon_inv _ _ _ _ Hs) as (_ & _ & _ & _ & Hk).
    apply Hk. intros t. exact (Hmiss datasets ds_merged eq_refl Em name a0 t H0). }
  revert Emet. unfold metrics.
  destruct (Dec27.get_variable ratnagiri "nppv") as [nppv|] eqn:G1; [|discriminate].
  destruct (sel_depth nppv (mkSlice 0 100)) as [nppv_100|] eqn:D1; [|discriminate].
  destruct (Dec27.get_variable ratnagiri "no3") as [no3|] eqn:G2; [|discriminate].
  destruct (nearest (depth no3) 0.49) as [zs|]; [|discriminate].
  destruct (nearest (depth no3) 100) as [zd|]; [|discriminate].
  destruct (Dec27.get_variable ratnagiri "o2") as [o2|] eqn:G3; [|discriminate].
  destruct (nearest (depth o2) 50) as [z|]; [|discriminate].
  intros Emet. injection Emet as <-.
  pose proof (Hzone _ _ (get_variable_in _ _ _ G1)) as M1.
  pose proof (Hzone _ _ (get_variable_in _ _ _ G2)) as M2.
  pose proof (Hzone _ _ (get_variable_in _ _ _ G3)) as M3.
  assert (M1' : forall t, missing_at nppv_100 t)
    by exact (sel_depth_missing _ _ _ D1 M1).
  assert (Hnpp : Forall zero_or_missing (sum_then_mean nppv_100))
    by (apply sum_then_mean_missing; exact M1').
  assert (Hs : all_missing (Dec27.level_mean no3 zs))
    by (apply level_mean_missing; intros; apply M2; assumption).
  assert (Hd : all_missing (Dec27.level_mean no3 zd))
    by (apply level_mean_missing; intros; apply M2; assumption).
  assert (Ho : all_missing (Dec27.level_mean o2 z))
    by (apply level_mean_missing; intros; apply M3; assumption).
  cbn [npp_integrated no3_surface no3_deep o2_deep].
  repeat (split; [assumption|]).
  destruct (report_without_data
              (mkMetrics (time nppv) (sum_then_mean nppv_100) (time no3)
                         (Dec27.level_mean no3 zs) (Dec27.level_mean no3 zd)
                         (Dec27.level_mean o2 z))
              log4 Hnpp Hs Ho Er) as (bp & ap & -> & Hb & Ha).
  exists bp, ap. split; [reflexivity | split; assumption].
Qed.

End WithLibraries.

End Bio3dFacts.

(** ** The reports of [processing.py] and [output.py], zone by zone *)

Section ZoneLoopFacts.
Import Calendar Selection Grid Loader.
Local Open Scope string_scope.
Local Open Scope list_scope.

(** X24.  [processing.py], lines 104-152, and [output.py], lines 74-156.  A
    run that reaches its end reports every zone, once, in the order Mumbai,
    Ratnagiri, Sindhudurg.  In [processing.py] each zone's series has one
    value per week of the weekly field; in [output.py] each row is the
    prediction made from the zone's series.  What is printed after the
    loading is the report and nothing else. *)
Theorem every_zone_is_reported :
  forall (Grid : Type) (concat_accepts : list Grid -> bool)
         (resample_weekly : Dataset Grid -> option DataArray)
         (Weekly : Type) (resample_output : Dataset Grid -> option Weekly)
         (zone_series : Weekly -> Bounds -> option Forecast.Series)
         (mean : list float -> float)
         (fs : FileSystem Grid),
  (forall final log,
     Processing.run Grid concat_accepts resample_weekly fs = (Finished final, log) ->
     let results := Processing.results Grid final in
     let weekly := Processing.ds_weekly Grid final in
     resample_weekly (Processing.ds Grid final) = Some weekly
     /\ map fst results = ["Mumbai"; "Ratnagiri"; "Sindhudurg"]
     /\ map fst results = map fst zones
     /\ Forall2 (fun r z => Processing.zone_series weekly (snd z) = Some (snd r))
                results zones
     /\ Forall (fun r => List.length (snd r) = ntime weekly) results
     /\ exists log1,
          load_and_merge_processing Grid concat_accepts fs
          = (Finished (Processing.ds Grid final), log1)
          /\ log = map (Processing.Loading) log1
                   ++ [Processing.Aggregating; Processing.Extracting;
                       Processing.AnalysisReport]
                   ++ map (Processing.Report)
                        (flat_map (fun zr => Processing.zone_report (fst zr) (snd zr))
                                  results)
                   ++ [Processing.ProcessingComplete])
  /\ (forall final log,
        Forecast.run Grid concat_accepts Weekly resample_output zone_series mean fs
        = (Finished final, log) ->
        let rows := Forecast.prediction_report Grid final in
        map Forecast.Zone rows = ["Mumbai"; "Ratnagiri"; "Sindhudurg"]
        /\ (exists weekly,
              resample_output (Forecast.ds Grid final) = Some weekly
              /\ Forall2 (fun row z =>
                            exists ts, zone_series weekly (snd z) = Some ts
                                       /\ row = Forecast.predict mean (fst z) ts)
                         rows zones)
        /\ log = [Forecast.Loading LoadingSatellite; Forecast.ModelHeader;
                  Forecast.ReportHeader]
                 ++ map Forecast.report_row rows ++ [Forecast.ReportFooter]).
Proof.
  intros Grid concat_accepts resample_weekly Weekly resample_output zone_series mean fs.
  split.
  - intros final log. unfold Processing.run.
    destruct (load_and_merge_processing Grid concat_accepts fs) as [[ds| |] log1] eqn:E1;
      try discriminate.
    destruct (resample_weekly ds) as [weekly|] eqn:E2; [|discriminate].
    destruct (Processing.extract_zones weekly zones) as [results|] eqn:E3; [|discriminate].
    intros H. injection H as <- <-. cbn [Processing.results Processing.ds_weekly Processing.ds].
    cbv zeta.
    assert (Hz : forall zs rs,
              Processing.extract_zones weekly zs = Some rs ->
              map fst rs = map fst zs
              /\ Forall2 (fun r z => Processing.zone_series weekly (snd z) = Some (snd r))
                         rs zs).
    { induction zs as [|[zn b] zs IH]; intros rs; cbn [Processing.extract_zones].
      - intros H. injection H as <-. split; [reflexivity | constructor].
      - destruct (Processing.zone_series weekly b) as [s|] eqn:Es; [|discriminate].
        destruct (Processing.extract_zones weekly zs) as [rs'|]; [|discriminate].
        intros H. injection H as <-. destruct (IH rs' eq_refl) as [IH1 IH2].
        split; [cbn [map fst]; f_equal; exact IH1|].
        constructor; [exact Es | exact IH2]. }
    destruct (Hz _ _ E3) as [Hn Hf].
    split; [exact E2|]. split; [rewrite Hn; reflexivity|]. split; [exact Hn|].
    split; [exact Hf|]. split.
    + clear - Hf. induction Hf as [|r z rs zs Hr _ IH]; constructor; [|exact IH].
      unfold Processing.zone_series in Hr.
      destruct (sel_lat_lon weekly (lat (snd z)) (lon (snd z))) as [zd|] eqn:Es;
        [|discriminate].
      injection Hr as Hr. rewrite <- Hr, length_map, length_seq.
      destruct (sel_lat_lon_inv _ _ _ _ Es) as (_ & _ & _ & Ht & _).
      unfold ntime. rewrite Ht. reflexivity.
    + exists log1. split; [reflexivity|].
      rewrite <- !app_assoc. reflexivity.
  - intros final log. unfold Forecast.run.
    destruct (load_and_merge_output Grid concat_accepts fs) as [[ds| |] log1] eqn:E1;
      try discriminate.
    destruct (resample_output ds) as [weekly|] eqn:E2; [|discriminate].
    destruct (Forecast.predict_zones Weekly zone_series mean weekly zones)
      as [rows|] eqn:E3; [|discriminate].
    intros H. injection H as <- <-.
    cbn [Forecast.prediction_report Forecast.ds]. cbv zeta.
    assert (Hz : forall zs rs,
              Forecast.predict_zones Weekly zone_series mean weekly zs = Some rs ->
              map Forecast.Zone rs = map fst zs
              /\ Forall2 (fun row z =>
                            exists ts, zone_series weekly (snd z) = Some ts
                                       /\ row = Forecast.predict mean (fst z) ts)
                         rs zs).
    { induction zs as [|[zn b] zs IH]; intros rs; cbn [Forecast.predict_zones].
      - intros H. injection H as <-. split; [reflexivity | constructor].
      - destruct (zone_series weekly b) as [ts|] eqn:Es; [|discriminate].
        destruct (Forecast.predict_zones Weekly zone_series mean weekly zs) as [rs'|];
          [|discriminate].
        intros H. injection H as <-. destruct (IH rs' eq_refl) as [IH1 IH2].
        split; [cbn [map]; f_equal; exact IH1|].
        constructor; [|exact IH2]. exists ts. split; [exact Es | reflexivity]. }
    destruct (Hz _ _ E3) as [Hn Hf].
    split; [rewrite Hn; reflexivity|].
    split; [exists weekly; split; [exact E2 | exact Hf]|].
    assert (Hlog : log1 = [LoadingSatellite]).
    { revert E1. unfold load_and_merge_output.
      destruct (file_list fs data_folder_output); [discriminate|].
      destruct (concat Grid concat_accepts _); [|discriminate].
      intros H. injection H as _ <-. reflexivity. }
    rewrite Hlog. cbn [map app]. rewrite <- ?app_assoc. reflexivity.
Qed.

End ZoneLoopFacts.

(** ** Bloom verdicts and the coverage of the time axis *)

Section BloomCoverageFacts.
Import Calendar Selection Grid Loader Aux Scenarios MoreScenarios.
Local Open Scope list_scope.




Section Binary64.
Local Open Scope float_scope.






End Binary64.

Section WithNearestLevels.
Variable nearest : list Q -> Q -> option nat.





End WithNearestLevels.


End BloomCoverageFacts.

(** ** [reding.py] *)

Section RedingFacts.
Import Calendar Selection Grid Aux Scenarios MoreScenarios Reding.
Local Open Scope Q_scope.

Lemma all_cells_no_rows (a : DataArray) : latitude a = [] -> all_cells a = [].
Proof.
  intros H. unfold all_cells.
  induction (seq 0 (ntime a)) as [|t l IH]; [reflexivity|].
  cbn [flat_map]. rewrite (cells_at_nil a t (or_introl H)). exact IH.
Qed.

(** X27.  [reding.py], lines 19-20.  The bounds of the reading run north to
    south.  On a raster stored north to south the number printed is the
    mean of the valid cells in the rows and columns within the box, NaN
    exactly when none is valid.  On a raster stored south to north the box
    selects no row and NaN is printed, whatever the cells hold. *)
Theorem reading_follows_the_raster :
  forall chlor_a : DataArray,
  is_monotonic_increasing (longitude chlor_a) = true ->
  (is_monotonic_increasing (latitude chlor_a) = false ->
   is_monotonic_decreasing (latitude chlor_a) = true ->
   exists subset,
     sel_lat_lon chlor_a (lat box) (lon box) = Some subset
     /\ latitude subset = filter (within (lat box)) (latitude chlor_a)
     /\ longitude subset = filter (within (lon box)) (longitude chlor_a)
     /\ reading chlor_a = Some (nanmean (map Some (valid (all_cells subset))))
     /\ (reading chlor_a = Some None <-> all_missing (all_cells subset)))
  /\ (is_monotonic_increasing (latitude chlor_a) = true ->
      reading chlor_a = Some None).
Proof.
  intros chlor_a Hlon.
  destruct (sel_slice_increasing (longitude chlor_a) (lon box) Hlon) as [Hlo _].
  specialize (Hlo ltac:(simpl; lra)).
  split.
  - intros Hinc Hdec.
    destruct (sel_slice_decreasing (latitude chlor_a) (lat box) Hinc Hdec) as [Hla _].
    specialize (Hla ltac:(simpl; lra)).
    destruct (sel_lat_lon_axes chlor_a _ _ _ _ Hla Hlo) as (subset & Hs & H1 & H2).
    exists subset. split; [exact Hs|]. split; [exact H1|]. split; [exact H2|].
    unfold reading. rewrite Hs.
    split; [f_equal; apply nanmean_skips_missing|].
    rewrite <- nanmean_none_iff.
    split; intros H; [injection H as H; exact H | f_equal; exact H].
  - intros Hinc.
    destruct (sel_slice_increasing (latitude chlor_a) (lat box) Hinc) as [_ Hla].
    specialize (Hla ltac:(reflexivity)).
    destruct (sel_lat_lon_axes chlor_a _ _ _ _ Hla Hlo) as (subset & Hs & H1 & _).
    unfold reading. rewrite Hs, (all_cells_no_rows subset H1). reflexivity.
Qed.

Lemma reading_follows_the_raster_witness :
  (exists m, reading chlorophyll_day = Some (Some m) /\ m == 2)
  /\ reading chlorophyll_day_south_to_north = Some None.
Proof.
  split.
  - exists (8 / 4). split; [|reflexivity].
    destruct (proj1 (reading_follows_the_raster chlorophyll_day eq_refl) eq_refl eq_refl)
      as (subset & Hs & _ & _ & Hr & _).
    rewrite Hr. vm_compute in Hs. injection Hs as <-. reflexivity.
  - exact (proj2 (reading_follows_the_raster chlorophyll_day_south_to_north eq_refl)
             eq_refl).
Defined.

End RedingFacts.

(** ** The properties above on the scenarios *)

Section Instances.
Import Calendar FileName Loader Selection Grid Scenarios MoreScenarios Aux.
Local Open Scope string_scope.
Local Open Scope list_scope.

Lemma time_steps_come_from_dated_files_witness :
  exists ds log,
    load_and_merge_processing unit any_concat fs_stray_file = (Finished ds, log)
    /\ (0 < List.length ds <= 3)%nat
    /\ In (FoundFiles 3) log
    /\ In (Compiled (List.length ds)) log
    /\ ~ In (mkTimestamp 2025 9 21, tt) ds.
Proof.
  destruct (load_and_merge_processing unit any_concat fs_stray_file)
    as [[ds| |] log] eqn:E; try (vm_compute in E; discriminate).
  exists ds, log. split; [reflexivity|].
  destruct (proj1 (time_steps_come_from_dated_files unit any_concat fs_stray_file)
              ds log E) as (Hin & Hlen & Hf & Hc).
  split; [exact Hlen|]. split; [exact Hf|]. split; [exact Hc|].
  intros H. apply Hin in H. destruct H as (e & He & _ & _ & _ & Hr).
  vm_compute in He.
  destruct He as [<-|[<-|[<-|[]]]]; vm_compute in Hr; discriminate.
Defined.

Lemma every_file_skipped_witness :
  (exists log,
     load_and_merge_processing unit any_concat fs_undated
     = (Exited 0, log ++ [ErrNoValidDatasets]))
  /\ load_and_merge_output unit any_concat fs_undated = (Traceback, [LoadingSatellite]).
Proof.
  destruct (every_file_skipped unit any_concat (fun _ => None) unit (fun _ => None)
              (fun _ _ => None) (fun _ => 0%float) fs_undated) as [Hp Ho].
  assert (Hskip : forall e : Entry unit,
            In e (file_list fs_undated data_folder_processing) ->
            content e = None \/ has_time_dim e = true
            \/ forall t, recover_timestamp (basename (path e)) <> Recovered t).
  { intros e He. right. right. intros t.
    vm_compute in He. destruct He as [<-|[<-|[]]]; vm_compute; discriminate. }
  split.
  - destruct (Hp ltac:(vm_compute; discriminate) Hskip) as (log & H & _).
    exists log. exact H.
  - exact (proj1 (Ho ltac:(vm_compute; discriminate) Hskip)).
Defined.

Lemma same_date_keeps_file_order_witness :
  exists ds log,
    load_and_merge_output string (fun _ => true) fs_interleaved = (Finished ds, log)
    /\ filter (fun p => ts_eqb (fst p) (mkTimestamp 2025 9 19)) ds
       = [(mkTimestamp 2025 9 19, "b"); (mkTimestamp 2025 9 19, "d")]
    /\ filter (fun p => ts_eqb (fst p) (mkTimestamp 2025 9 20)) ds
       = [(mkTimestamp 2025 9 20, "a"); (mkTimestamp 2025 9 20, "c")].
Proof.
  destruct (load_and_merge_output string (fun _ => true) fs_interleaved)
    as [[ds| |] log] eqn:E; try (vm_compute in E; discriminate).
  exists ds, log. split; [reflexivity|]. split.
  - rewrite (proj2 (same_date_keeps_file_order string (fun _ => true) fs_interleaved
                      (mkTimestamp 2025 9 19)) ds log E).
    vm_compute. reflexivity.
  - rewrite (proj2 (same_date_keeps_file_order string (fun _ => true) fs_interleaved
                      (mkTimestamp 2025 9 20)) ds log E).
    vm_compute. reflexivity.
Defined.

Lemma zone_status_follows_peak_witness :
  Processing.zone_report "Mumbai" [Some 0.4; None; Some 6.5; Some 0.3]
  = [Processing.ZoneName "Mumbai";
     Processing.AverageProductivity (nanmean [Some 0.4; None; Some 6.5; Some 0.3]);
     Processing.PeakProductivity 6.5;
     Processing.StatusLine Processing.VERY_HIGH]
  /\ In (Some 6.5%Q) [Some 0.4; None; Some 6.5; Some 0.3]%Q.
Proof.
  destruct (proj2 (proj2 (zone_status_follows_peak "Mumbai"
                            [Some 0.4; None; Some 6.5; Some 0.3]%Q)) 6.5%Q eq_refl)
    as (Hin & _ & _ & s & Hrep & _ & Hhigh & _).
  split; [|exact Hin].
  rewrite Hrep, (Hhigh ltac:(reflexivity)). reflexivity.
Defined.

Lemma single_level_integrates_to_zero_witness :
  Forall (fun c => cell_eq c (Some 0)) (integrate_then_mean (surface_only_field 7))
  /\ List.length (integrate_then_mean (surface_only_field 7)) = 2%nat.
Proof.
  exact (proj2 (single_level_integrates_to_zero (surface_only_field 7)
                  (le_n 1) ltac:(discriminate) ltac:(discriminate))).
Defined.

Lemma integration_exact_on_linear_profiles_witness :
  List.length (integrate_then_mean linear_field) = 1%nat
  /\ cell_eq (nth 0 (integrate_then_mean linear_field) None)
             (Some (2 * (90 - 0.5) + (1 # 10) * (90 * 90 - 0.5 * 0.5) / 2))%Q.
Proof.
  destruct (integration_exact_on_linear_profiles linear_field 2 (1 # 10)
              (fun _ _ _ _ _ _ _ _ => eq_refl)
              ltac:(discriminate) ltac:(discriminate) ltac:(discriminate))
    as [Hlen Hval].
  split; [exact Hlen|]. exact (Hval 0%nat (le_n 1)).
Defined.

Lemma missing_level_drops_column_witness :
  nth 0 (integrate_then_mean (shelf_field 200)) None = None
  /\ nth 0 (sum_then_mean (shelf_field 200)) None <> None.
Proof.
  split.
  - refine (proj2 (proj2 (missing_level_drops_column (shelf_field 200) 0 _ _)) _).
    + vm_compute. lia.
    + vm_compute. lia.
    + intros ij _. right. right. left. reflexivity.
  - vm_compute. discriminate.
Defined.

Lemma missing_zone_sums_to_zero_witness :
  Forall (fun c => cell_eq c (Some 0)) (sum_then_mean land_field)
  /\ all_missing (integrate_then_mean land_field).
Proof.
  destruct (missing_zone_sums_to_zero land_field (fun _ _ _ _ _ _ _ => eq_refl)
              ltac:(discriminate) ltac:(discriminate)) as (H1 & _ & H2).
  split; [exact H1|]. apply H2. vm_compute. lia.
Defined.

Lemma variable_lookup_witness :
  Dec27.find_variable nitrate_file "no3" = (Some "no3", [])
  /\ Dec27.find_variable nitrate_file "NO3"
     = (Some "no3_flux", [Dec27.UsingVariable "no3_flux" "NO3"]).
Proof.
  split.
  - exact (proj1 (variable_lookup nitrate_file "no3")
             (or_intror (or_introl eq_refl))).
  - vm_compute. reflexivity.
Defined.

(** On the sorted grid the rows kept are those within the bounds.  On a
    latitude axis that is not sorted and carries both bounds as labels, the
    extraction succeeds as well: the cut is by position and keeps the row at
    18 degrees, which is outside the bounds. *)
Lemma loaded_zone_lies_within_bounds_witness :
  Dec27.extract_and_process disk_uniform Dec27.file_prod "nppv" "NPP"
  = (Some (zone_of_field (fun _ _ _ _ => Some 2.5%Q)),
     [Dec27.LoadedSuccessfully "NPP" 30])
  /\ latitude (zone_of_field (fun _ _ _ _ => Some 2.5%Q)) <> []
  /\ (exists da, is_monotonic_increasing (latitude da) = true
                 /\ latitude (zone_of_field (fun _ _ _ _ => Some 2.5%Q))
                    = filter (within lat_slice) (latitude da))
  /\ (exists subset log,
        Dec27.extract_and_process disk_unsorted Dec27.file_prod "nppv" "NPP"
        = (Some subset, log)
        /\ is_monotonic_increasing (latitude (field_unsorted 2.5)) = false
        /\ is_monotonic_decreasing (latitude (field_unsorted 2.5)) = false
        /\ latitude subset = [16.5; 18; 17.5]%Q
        /\ within lat_slice 18 = false).
Proof.
  assert (E : Dec27.extract_and_process disk_uniform Dec27.file_prod "nppv" "NPP"
              = (Some (zone_of_field (fun _ _ _ _ => Some 2.5%Q)),
                 [Dec27.LoadedSuccessfully "NPP" 30])) by reflexivity.
  split; [exact E|].
  destruct (loaded_zone_lies_within_bounds _ _ _ _ _ _ E)
    as (ds & v & da & n & log0 & Hd & Hf & Hg & _ & _ & _ & Hne & _ & _ & Hlat & _).
  split; [exact Hne|]. split.
  - exists da. apply Hlat. left.
    vm_compute in Hd. injection Hd as <-.
    vm_compute in Hf. injection Hf as <- <-.
    vm_compute in Hg. injection Hg as <-. reflexivity.
  - eexists. eexists. split; [reflexivity|]. repeat split.
Defined.

Lemma descending_latitude_reads_as_only_nan_witness :
  Dec27.extract_and_process disk_north_to_south Dec27.file_prod "nppv" "NPP"
  = (None, [Dec27.OnlyNaN "NPP"; Dec27.TryAdjustingBounds;
            Dec27.CurrentBounds lat_slice lon_slice])
  /\ fst (Dec27.main nearest_level disk_north_to_south) = Exited 0.
Proof.
  assert (H : forall fname ds name da,
            disk_north_to_south fname = Dec27.Readable ds -> In (name, da) ds ->
            is_monotonic_increasing (latitude da) = false
            /\ is_monotonic_decreasing (latitude da) = true
            /\ is_monotonic_increasing (longitude da) = true
            /\ time da <> Some []).
  { intros fname ds name da. unfold disk_north_to_south, disk_with.
    destruct (String.eqb fname Dec27.file_prod);
      [|destruct (String.eqb fname Dec27.file_nut);
        [|destruct (String.eqb fname Dec27.file_bio); [|discriminate]]];
      intros Hd; injection Hd as <-; cbn [In];
      intros Hin;
      repeat match goal with
             | H : _ \/ _ |- _ => destruct H
             | H : False |- _ => destruct H
             | H : (_, _) = (_, _) |- _ => injection H as <- <-
             end;
      repeat split; discriminate. }
  destruct (descending_latitude_reads_as_only_nan nearest_level disk_north_to_south H)
    as (Hone & _ & Hexit & _).
  split; [|exact Hexit].
  exact (Hone Dec27.file_prod "nppv" "NPP" _ _ _ eq_refl eq_refl).
Defined.

Lemma chlorophyll_stands_in_for_production_witness :
  exists series,
    fst (Dec27.process_npp disk_zero_production) = Some series
    /\ series <> []
    /\ Forall (fun x => cell_eq x (Some (1.5 * (100 - 0))%Q)) series.
Proof.
  destruct (chlorophyll_stands_in_for_production disk_zero_production
              (zone_of_field (fun _ _ _ _ => Some 0%Q))
              (zone_of_field (fun _ _ _ _ => Some 0%Q))
              [Dec27.LoadedSuccessfully "NPP" 30] eq_refl eq_refl)
    as (_ & _ & _ & _ & Hzero).
  exact (Hzero (fun _ _ _ _ _ _ _ _ => eq_refl)
           (zone_of_field (fun _ _ _ _ => Some 1.5%Q))
           (zone_of_field (fun _ _ _ _ => Some 1.5%Q))
           [Dec27.LoadedSuccessfully "Chlorophyll" 30] 1.5%Q
           eq_refl eq_refl (fun _ _ _ _ _ _ _ _ => eq_refl) ltac:(discriminate)).
Defined.


Lemma missing_file_stops_the_script_witness :
  Bio3dScript.run merge_all nearest_level disk_without_nitrate
  = (Exited 0, [Bio3dScript.LoadingData;
                Bio3dScript.FileNotFound "konkan_bgc_no3.nc"])
  /\ Bio3dScript.run merge_distinct nearest_level disk_conflict
     = (Exited 0, [Bio3dScript.LoadingData; Bio3dScript.MergeError]).
Proof.
  split.
  - refine (proj1 (proj1 (missing_file_stops_the_script merge_all nearest_level
                            disk_without_nitrate [Dec27.file_bio] [Dec27.file_prod]
                            Dec27.file_nut eq_refl _) eq_refl)).
    intros f [<-|[]]. eexists. reflexivity.
  - refine (proj1 (proj2 (proj2 (missing_file_stops_the_script merge_distinct
                                   nearest_level disk_conflict []
                                   [Dec27.file_nut; Dec27.file_prod]
                                   Dec27.file_bio eq_refl _)) _ _)).
    + intros f [].
    + intros f [<-|[<-|[<-|[]]]]; eexists; reflexivity.
    + intros datasets H. vm_compute in H. injection H as <-. reflexivity.
Defined.

Lemma zone_without_data_reads_reassuring_witness :
  exists m log,
    Bio3dScript.run merge_all nearest_level disk_all_land = (Finished m, log)
    /\ In Bio3dScript.HiddenBloomDetected log
    /\ In Bio3dScript.NutrientsAvailable log
    /\ In Bio3dScript.OxygenSafe log
    /\ Forall zero_or_missing (Bio3dScript.npp_integrated m).
Proof.
  destruct (Bio3dScript.run merge_all nearest_level disk_all_land)
    as [[m| |] log] eqn:E; try (vm_compute in E; discriminate).
  exists m, log. split; [reflexivity|].
  destruct (zone_without_data_reads_reassuring merge_all nearest_level
              disk_all_land m log E) as (Hn & _ & _ & _ & bp & ap & -> & _).
  - intros datasets ds_merged Ho Hm name a t Hin.
    vm_compute in Ho. injection Ho as <-.
    vm_compute in Hm. injection Hm as <-.
    cbn [In] in Hin.
    repeat match goal with
           | H : _ \/ _ |- _ => destruct H
           | H : False |- _ => destruct H
           | H : (_, _) = (_, _) |- _ => injection H as <- <-
           end; intros z i j _ _ _; reflexivity.
  - split; [cbn [In]; tauto|]. split; [cbn [In]; tauto|].
    split; [cbn [In]; tauto | exact Hn].
Defined.

Lemma every_zone_is_reported_witness :
  exists final log,
    Processing.run unit any_concat (fun _ => Some (weekly_uniform 3)) fs_unordered
    = (Finished final, log)
    /\ map fst (Processing.results unit final) = ["Mumbai"; "Ratnagiri"; "Sindhudurg"]
    /\ Forall (fun r => List.length (snd r) = 2%nat) (Processing.results unit final).
Proof.
  destruct (Processing.run unit any_concat (fun _ => Some (weekly_uniform 3)) fs_unordered)
    as [[final| |] log] eqn:E; try (vm_compute in E; discriminate).
  exists final, log. split; [reflexivity|].
  destruct (proj1 (every_zone_is_reported unit any_concat
                     (fun _ => Some (weekly_uniform 3)) unit (fun _ => None)
                     (fun _ _ => None) (fun _ => 0%float) fs_unordered)
              final log E) as (Hw & Hn & _ & _ & Hl & _).
  split; [exact Hn|].
  injection Hw as Hw. rewrite <- Hw in Hl. exact Hl.
Defined.

Lemma nutrient_diagnosis_table_witness :
  Upwelling.diagnosis 0.2 12.5 = Upwelling.EFFICIENT_UTILIZATION
  /\ Upwelling.diagnosis 0.2 8 = Upwelling.NUTRIENT_LIMITATION
  /\ Upwelling.diagnosis 2 20 = Upwelling.VERY_STRONG_UPWELLING
  /\ Upwelling.diagnosis 2 14 = Upwelling.NO_DIAGNOSIS.
Proof.
  refine (conj _ (conj _ (conj _ _))).
  - exact (proj2 (proj1 (nutrient_diagnosis_table 0.2 12.5)) (conj eq_refl eq_refl)).
  - exact (proj2 (proj1 (proj2 (proj2 (nutrient_diagnosis_table 0.2 8))))
             (conj eq_refl eq_refl)).
  - exact (proj2 (proj1 (proj2 (nutrient_diagnosis_table 2 20))) (conj eq_refl eq_refl)).
  - exact (proj2 (proj1 (proj2 (proj2 (proj2 (nutrient_diagnosis_table 2 14)))))
             (conj eq_refl eq_refl)).
Defined.

End Instances.
